(** * QuickPick user service (server/services/user.service.js)

    A shallow embedding of the eight operations of the user service and
    of the parts of the platform they lean on: JavaScript values with
    their truthiness, strict equality and relational comparison, the
    rendering of dates by [toISOString], the user collection behind
    [UserModel] with the casts of its schema, and the outbox of the
    e-mail sender.

    An operation is a function from the world before (the collection
    and the outbox) to its outcome, a value or an exception, and the
    world after. The clock, the random draw, the salt and the new
    identifier of a call come in an environment; the hash of bcryptjs,
    the templates and the token generators are variables of the
    development.

    The schema of the user model, the e-mail sender, the code generator
    and the token generators are not among the sources; their
    definitions say what they were modelled from.

    After the service come the error middleware of utils/errorHandler.js,
    the paginated response of utils/responseFormatter.js, and two
    helpers of the client, utils/urlHelper.js and
    utils/imageUploadHelper.js. *)

From stdpp Require Import base option list gmap strings.
From Stdlib Require Import ZArith Ascii String Lia.

Local Open Scope string_scope.
Local Open Scope Z_scope.

(** ** JavaScript values *)

Module Js.

(** Numbers. The service only meets integral numbers (time values, the
    one-time code, HTTP status codes); [NaN] is what the conversion of a
    non-numeric string yields. *)
Inductive JsNumber : Type :=
| NaN
| Num (z : Z).

(** Values that reach the service or sit in a stored document. [VDate]
    is a Date object with a valid time value (milliseconds since the
    epoch), [VObjectId] the identifier object of a stored document,
    named by its hexadecimal text. *)
Inductive JsValue : Type :=
| VUndefined
| VNull
| VBool (b : bool)
| VNumber (n : JsNumber)
| VString (s : string)
| VDate (t : Z)
| VObjectId (h : string).

#[global] Instance JsNumber_eq_dec : EqDecision JsNumber.
Proof. solve_decision. Defined.

#[global] Instance JsValue_eq_dec : EqDecision JsValue.
Proof. solve_decision. Defined.

(** [ToBoolean]: what [if (v)] and [!v] look at. *)
Definition truthy (v : JsValue) : bool :=
  match v with
  | VUndefined | VNull => false
  | VBool b => b
  | VNumber NaN => false
  | VNumber (Num z) => negb (z =? 0)
  | VString s => negb (String.eqb s "")
  | VDate _ | VObjectId _ => true
  end.

(** [a === b]. Two objects are strictly equal only when they are the
    same object; an argument of the service is never the object held in
    a stored document, so objects compare unequal here. *)
Definition strict_eq (a b : JsValue) : bool :=
  match a, b with
  | VUndefined, VUndefined => true
  | VNull, VNull => true
  | VBool x, VBool y => Bool.eqb x y
  | VNumber (Num x), VNumber (Num y) => x =? y
  | VString x, VString y => String.eqb x y
  | _, _ => false
  end.

(** [a !== b] *)
Definition strict_neq (a b : JsValue) : bool := negb (strict_eq a b).

(** *** Decimal digits *)

(** The character of a digit from 0 to 9. *)
Definition digit (n : Z) : ascii :=
  match n with
  | 0 => "0" | 1 => "1" | 2 => "2" | 3 => "3" | 4 => "4"
  | 5 => "5" | 6 => "6" | 7 => "7" | 8 => "8" | _ => "9"
  end%char.

(** The digit a character stands for, if it is one. *)
Definition digit_val (c : ascii) : option Z :=
  (if Ascii.eqb c "0" then Some 0 else
   if Ascii.eqb c "1" then Some 1 else
   if Ascii.eqb c "2" then Some 2 else
   if Ascii.eqb c "3" then Some 3 else
   if Ascii.eqb c "4" then Some 4 else
   if Ascii.eqb c "5" then Some 5 else
   if Ascii.eqb c "6" then Some 6 else
   if Ascii.eqb c "7" then Some 7 else
   if Ascii.eqb c "8" then Some 8 else
   if Ascii.eqb c "9" then Some 9 else None)%char.

Definition is_digit (c : ascii) : bool :=
  match digit_val c with Some _ => true | None => false end.

(** The decimal digits of a non-negative number, most significant
    first, put in front of [acc]. [fuel] bounds the number of digits. *)
Fixpoint digits_of (fuel : nat) (n : Z) (acc : string) : string :=
  match fuel with
  | O => acc
  | S f =>
      let acc' := String (digit (n mod 10)) acc in
      if n / 10 =? 0 then acc' else digits_of f (n / 10) acc'
  end.

(** [Number.prototype.toString] on the numbers of the model: decimal
    digits, a leading minus for negatives. (Beyond 10^21 JavaScript
    switches to exponent notation; no number of the service gets there.) *)
Definition NumberToString (n : JsNumber) : string :=
  match n with
  | NaN => "NaN"
  | Num z =>
      if z <? 0 then String "-"%char (digits_of (S (Z.to_nat (Z.log2 (- z)))) (- z) "")
      else digits_of (S (Z.to_nat (Z.log2 z))) z ""
  end.

(** Value of a run of decimal digits, [None] when a character is not a
    digit. *)
Fixpoint digits_value (acc : Z) (s : string) : option Z :=
  match s with
  | EmptyString => Some acc
  | String c r =>
      match digit_val c with
      | Some d => digits_value (10 * acc + d) r
      | None => None
      end
  end.

(** White space, as far as 8-bit characters go: space, tab, line feed,
    vertical tab, form feed, carriage return. *)
Definition is_space (c : ascii) : bool :=
  let n := nat_of_ascii c in
  (Nat.eqb n 32 || (Nat.leb 9 n && Nat.leb n 13))%bool.

Fixpoint trim_left (s : string) : string :=
  match s with
  | String c r => if is_space c then trim_left r else s
  | EmptyString => EmptyString
  end.

Fixpoint trim_right (s : string) : string :=
  match s with
  | EmptyString => EmptyString
  | String c r =>
      match trim_right r with
      | EmptyString => if is_space c then EmptyString else String c EmptyString
      | r' => String c r'
      end
  end.

(** The last character of a string. *)
Fixpoint last_char (s : string) : option ascii :=
  match s with
  | EmptyString => None
  | String c r => match r with EmptyString => Some c | _ => last_char r end
  end.

(** [StringToNumber], on the integral fragment: surrounding white space
    is dropped, the empty string is 0, an optionally signed run of
    decimal digits is its value, and a string that is no numeric literal
    is [NaN]. Literals with a fraction, an exponent, a radix prefix or
    the word Infinity denote numbers outside [JsNumber] and come out as
    [NaN] too; the only strings the service converts are renderings of
    dates, which are no literals of any kind. *)
Definition StringToNumber (s : string) : JsNumber :=
  match trim_right (trim_left s) with
  | EmptyString => Num 0
  | String c r =>
      if Ascii.eqb c "-" then
        match r, digits_value 0 r with
        | String _ _, Some v => Num (- v)
        | _, _ => NaN
        end
      else if Ascii.eqb c "+" then
        match r, digits_value 0 r with
        | String _ _, Some v => Num v
        | _, _ => NaN
        end
      else
        match digits_value 0 (String c r) with
        | Some v => Num v
        | None => NaN
        end
  end.

(** [ToPrimitive] with hint number: a Date gives its time value, an
    ObjectId its hexadecimal text. *)
Definition ToPrimitive (v : JsValue) : JsValue :=
  match v with
  | VDate t => VNumber (Num t)
  | VObjectId h => VString h
  | _ => v
  end.

(** [ToNumber] of a primitive. *)
Definition ToNumber (v : JsValue) : JsNumber :=
  match v with
  | VUndefined => NaN
  | VNull => Num 0
  | VBool b => Num (if b then 1 else 0)
  | VNumber n => n
  | VString s => StringToNumber s
  | VDate t => Num t
  | VObjectId h => StringToNumber h
  end.

(** [a < b]: two strings are compared character by character, any
    other pair numerically, and a comparison with [NaN] is false. *)
Definition lt (a b : JsValue) : bool :=
  match ToPrimitive a, ToPrimitive b with
  | VString x, VString y => String.ltb x y
  | pa, pb =>
      match ToNumber pa, ToNumber pb with
      | Num x, Num y => x <? y
      | _, _ => false
      end
  end.

End Js.
Export Js.

(** ** Dates *)

Module JsDate.

Definition msPerDay : Z := 86400000.

(** Largest magnitude of a valid time value (ECMAScript's TimeClip). *)
Definition maxTime : Z := 8640000000000000.

(** Year, month (1..12) and day of the month of a day number counted
    from 1970-01-01, in the proleptic Gregorian calendar: what
    YearFromTime, MonthFromTime and DateFromTime compute. The count is
    shifted to start at 0000-03-01 and cut into 400-year eras. *)
Definition civil_from_days (z : Z) : Z * Z * Z :=
  let z := z + 719468 in
  let era := z / 146097 in
  let doe := z - era * 146097 in
  let yoe := (doe - doe / 1460 + doe / 36524 - doe / 146096) / 365 in
  let doy := doe - (365 * yoe + yoe / 4 - yoe / 100) in
  let mp := (5 * doy + 2) / 153 in
  let d := doy - (153 * mp + 2) / 5 + 1 in
  let m := if mp <? 10 then mp + 3 else mp - 9 in
  (yoe + era * 400 + (if m <=? 2 then 1 else 0), m, d).

(** MakeDay: the day number of a calendar date. A day of the month past
    the end of the month runs over into the next one. *)
Definition days_from_civil (y m d : Z) : Z :=
  let y := if m <=? 2 then y - 1 else y in
  let era := y / 400 in
  let yoe := y - era * 400 in
  let doy := (153 * (if m >? 2 then m - 3 else m + 9) + 2) / 5 + d - 1 in
  let doe := yoe * 365 + yoe / 4 - yoe / 100 + doy in
  era * 146097 + doe - 719468.

(** A number in two, three, four or six digits, with leading zeros,
    in front of [rest]. *)
Definition pad2 (n : Z) (rest : string) : string :=
  String (digit (n / 10 mod 10)) (String (digit (n mod 10)) rest).

Definition pad3 (n : Z) (rest : string) : string :=
  String (digit (n / 100 mod 10)) (pad2 n rest).

Definition pad4 (n : Z) (rest : string) : string :=
  String (digit (n / 1000 mod 10)) (pad3 n rest).

Definition pad6 (n : Z) (rest : string) : string :=
  String (digit (n / 100000 mod 10)) (String (digit (n / 10000 mod 10)) (pad4 n rest)).

(** The year of an ISO rendering: four digits from 0000 to 9999, a
    sign and six digits outside. *)
Definition iso_year (y : Z) (rest : string) : string :=
  if (0 <=? y) && (y <=? 9999) then pad4 y rest
  else String (if y <? 0 then "-"%char else "+"%char) (pad6 (Z.abs y) rest).

(** [new Date(t).toISOString()]: YYYY-MM-DDTHH:mm:ss.sssZ in UTC.
    [None] is the RangeError raised for an invalid time value. *)
Definition toISOString (t : Z) : option string :=
  if Z.abs t >? maxTime then None
  else
    let ms := t mod msPerDay in
    let '(y, m, d) := civil_from_days (t / msPerDay) in
    Some (iso_year y
           (String "-" (pad2 m
           (String "-" (pad2 d
           (String "T" (pad2 (ms / 3600000)
           (String ":" (pad2 (ms / 60000 mod 60)
           (String ":" (pad2 (ms / 1000 mod 60)
           (String "." (pad3 (ms mod 1000) "Z"))))))))))))).

(** The number that two, three or four digit characters spell. *)
Definition num2 (a b : ascii) : option Z :=
  x ← digit_val a; y ← digit_val b; Some (10 * x + y).

Definition num3 (a b c : ascii) : option Z :=
  x ← digit_val a; y ← num2 b c; Some (100 * x + y).

Definition num4 (a b c d : ascii) : option Z :=
  x ← digit_val a; y ← num3 b c d; Some (1000 * x + y).

(** [Date.parse] on the 24-character form YYYY-MM-DDTHH:mm:ss.sssZ that
    [toISOString] writes for the years 0000 to 9999. [None] stands for
    NaN: a field out of range, or a text in another form (the
    expanded-year form and the formats a host accepts beyond the
    standard one are not read here; the service writes neither). *)
Definition parseISO (s : string) : option Z :=
  match list_ascii_of_string s with
  | [y3; y2; y1; y0; c1; m1; m0; c2; d1; d0; cT; h1; h0; c3; n1; n0; c4;
     s1; s0; c5; f2; f1; f0; cZ] =>
      if (Ascii.eqb c1 "-" && Ascii.eqb c2 "-" && Ascii.eqb cT "T" &&
          Ascii.eqb c3 ":" && Ascii.eqb c4 ":" && Ascii.eqb c5 "." &&
          Ascii.eqb cZ "Z")%bool
      then
        y ← num4 y3 y2 y1 y0;
        m ← num2 m1 m0;
        d ← num2 d1 d0;
        hh ← num2 h1 h0;
        mm ← num2 n1 n0;
        ss ← num2 s1 s0;
        ms ← num3 f2 f1 f0;
        if ((1 <=? m) && (m <=? 12) && (1 <=? d) && (d <=? 31) &&
            (hh <=? 23) && (mm <=? 59) && (ss <=? 59))%bool
        then Some (days_from_civil y m d * msPerDay
                   + hh * 3600000 + mm * 60000 + ss * 1000 + ms)
        else None
      else None
  | _ => None
  end.

End JsDate.
Export JsDate.

(** ** Errors (utils/errorHandler.js) *)

Module ErrorHandler.

(** The fields an [AppError] carries. *)
Record AppError : Type := mkAppError {
  message : string;
  statusCode : Z;
  isOperational : bool;
  status : string
}.

(** [createError(message, statusCode)], that is
    [new AppError(message, statusCode)]: operational, and with status
    'fail' when the code's decimal text starts with a 4. *)
Definition createError (message : string) (statusCode : Z) : AppError :=
  {| message := message;
     statusCode := statusCode;
     isOperational := true;
     status := if String.prefix "4" (NumberToString (Num statusCode))
               then "fail" else "error" |}.

(** What an operation can throw: the service's own errors, and the
    errors of the platform underneath it. *)
Inductive Thrown : Type :=
| AppErr (e : AppError)
| CastError (path : string)
| DuplicateKey (path : string)
| RangeError
| IllegalArguments.

#[global] Instance AppError_eq_dec : EqDecision AppError.
Proof. solve_decision. Defined.

#[global] Instance Thrown_eq_dec : EqDecision Thrown.
Proof. solve_decision. Defined.

End ErrorHandler.
Export ErrorHandler.

(** ** The world an operation runs in *)

(** A message handed to the e-mail sender. *)
Record Mail : Type := mkMail {
  sendTo : JsValue;
  subject : string;
  html : string
}.

(** The user collection, in insertion order, and the messages sent so
    far. A document maps field names to values. *)
Record World : Type := mkWorld {
  users : list (gmap string JsValue);
  outbox : list Mail
}.

(** What the platform hands to one call: the clock ([Date] in
    milliseconds), the draw of [Math.random()] as the fraction
    [random_num / random_den], the salt of [bcryptjs.genSalt], and the
    identifier the driver gives to a new document. *)
Record Env : Type := mkEnv {
  now : Z;
  random_num : Z;
  random_den : Z;
  salt : string;
  objectId : string
}.

(** [doc.field]: a missing property reads as undefined. *)
Definition get (d : gmap string JsValue) (k : string) : JsValue :=
  default VUndefined (d !! k).

(** *** Asynchronous operations: state passing with exceptions *)

(** How an operation ends: with a value, or with an exception. *)
Inductive Outcome (A : Type) : Type :=
| Return (a : A)
| Throw (e : Thrown).
Arguments Return {A} a.
Arguments Throw {A} e.

(** An [async] function: from the world before to its outcome and the
    world after. What was written before an exception stays written. *)
Definition Async (A : Type) : Type := World -> Outcome A * World.

#[global] Instance Async_ret : MRet Async := fun A a w => (Return a, w).

#[global] Instance Async_bind : MBind Async := fun A B f m w =>
  match m w with
  | (Return a, w') => f a w'
  | (Throw e, w') => (Throw e, w')
  end.

Definition throw {A : Type} (e : Thrown) : Async A := fun w => (Throw e, w).

Definition getUsers : Async (list (gmap string JsValue)) :=
  fun w => (Return (users w), w).

Definition putUsers (us : list (gmap string JsValue)) : Async unit :=
  fun w => (Return tt, {| users := us; outbox := outbox w |}).

(** ** The user model (models/user.model.js) *)

Module UserModel.

(** The types of the paths of a schema; [SLowerString] is a String
    path that lower-cases what it stores, [SMixed] a path that stores a
    value as it comes. *)
Inductive SchemaType : Type :=
| SString
| SLowerString
| SBoolean
| SDate
| SMixed.

(** Modelled from the spec: models/user.model.js, the schema behind
    [UserModel], is not among the sources. Section 3 lists the
    attributes of a user: a unique, case-normalized email, a name, a
    password hash, a role and an account status (enumerated strings), an
    email-verified flag, a nullable refresh-token value, the
    forgot-password OTP (a nullable string) with its expiry timestamp
    (nullable), and a last-login timestamp; section 4.4 adds the
    mobile number that a profile update may write, without a type. *)
Definition userSchema : list (string * SchemaType) :=
  [ ("name", SString);
    ("email", SLowerString);
    ("password", SString);
    ("mobile", SMixed);
    ("refresh_token", SString);
    ("verify_email", SBoolean);
    ("last_login_date", SDate);
    ("status", SString);
    ("role", SString);
    ("forgot_password_otp", SString);
    ("forgot_password_expiry", SDate) ].

(** Modelled from the spec: the defaults of the missing schema. Section
    3 has a user created unverified, Active and with role USER; the
    nullable attributes start out null. *)
Definition userDefaults : list (string * JsValue) :=
  [ ("refresh_token", VNull);
    ("verify_email", VBool false);
    ("status", VString "Active");
    ("role", VString "USER");
    ("forgot_password_otp", VNull);
    ("forgot_password_expiry", VNull) ].

(** The first entry of a key in an association list. *)
Fixpoint assoc {A : Type} (k : string) (l : list (string * A)) : option A :=
  match l with
  | [] => None
  | (k', a) :: r => if String.eqb k k' then Some a else assoc k r
  end.

(** Lower case, on the letters A to Z. *)
Definition lower_char (c : ascii) : ascii :=
  let n := nat_of_ascii c in
  if (Nat.leb 65 n && Nat.leb n 90)%bool then ascii_of_nat (n + 32) else c.

Fixpoint to_lower (s : string) : string :=
  match s with
  | EmptyString => EmptyString
  | String c r => String (lower_char c) (to_lower r)
  end.

(** Modelled from the spec: the casts that the object-document mapper
    applies to a value on its way into a path of the missing schema.
    null and undefined pass; a String path takes the text of a number, a
    boolean or an identifier; a Date path keeps a Date, turns the empty
    string into null, a number into the Date of that time value and any
    other string into the Date it parses to; a Boolean path takes a
    boolean. [None] is the CastError raised for a value that has no
    such reading (a Date on a String path, whose text depends on the
    host's time zone, is left out: the service never writes one). *)
Definition castString (v : JsValue) : option JsValue :=
  match v with
  | VUndefined | VNull | VString _ => Some v
  | VNumber n => Some (VString (NumberToString n))
  | VBool b => Some (VString (if b then "true" else "false"))
  | VObjectId h => Some (VString h)
  | VDate _ => None
  end.

(** Modelled from the spec: the cast of a Date path of the missing
    schema (see [castString]). *)
Definition castDate (v : JsValue) : option JsValue :=
  match v with
  | VUndefined | VNull => Some VNull
  | VDate t => Some (VDate t)
  | VString s =>
      if String.eqb s "" then Some VNull
      else VDate <$> parseISO s
  | VNumber (Num z) => if Z.abs z >? maxTime then None else Some (VDate z)
  | VNumber NaN | VBool _ | VObjectId _ => None
  end.

(** Modelled from the spec: the cast of a Boolean path of the missing
    schema (see [castString]). *)
Definition castBoolean (v : JsValue) : option JsValue :=
  match v with
  | VUndefined | VNull | VBool _ => Some v
  | _ => None
  end.

(** Modelled from the spec: the cast of a path of the missing schema,
    by its type (see [castString]). *)
Definition cast (ty : SchemaType) (v : JsValue) : option JsValue :=
  match ty with
  | SString => castString v
  | SLowerString =>
      match castString v with
      | Some (VString s) => Some (VString (to_lower s))
      | r => r
      end
  | SBoolean => castBoolean v
  | SDate => castDate v
  | SMixed => Some v
  end.

(** The fields of an update or of a new document after casting, in the
    order they were given. A path the schema does not have is dropped
    (strict mode); the first value that cannot be cast aborts the whole
    write with a CastError on its path. *)
Fixpoint castFields (fs : list (string * JsValue)) : Thrown + list (string * JsValue) :=
  match fs with
  | [] => inr []
  | (k, v) :: r =>
      match assoc k userSchema with
      | None => castFields r
      | Some ty =>
          match cast ty v with
          | None => inl (CastError k)
          | Some v' =>
              match castFields r with
              | inl e => inl e
              | inr r' => inr ((k, v') :: r')
              end
          end
      end
  end.

(** [$set]: write the fields into a document, the later ones last. *)
Fixpoint setFields (fs : list (string * JsValue)) (d : gmap string JsValue)
  : gmap string JsValue :=
  match fs with
  | [] => d
  | (k, v) :: r => setFields r (<[k := v]> d)
  end.

(** A hexadecimal digit, in lower case. *)
Definition is_hex (c : ascii) : bool :=
  let n := nat_of_ascii c in
  ((Nat.leb 48 n && Nat.leb n 57) || (Nat.leb 97 n && Nat.leb n 102))%bool.

(** The text of an identifier: 24 lower-case hexadecimal digits. *)
Definition is_objectid_text (s : string) : bool :=
  (Nat.eqb (String.length s) 24 && forallb is_hex (list_ascii_of_string s))%bool.

(** Modelled from the spec: the cast of a value used as [_id] in a
    query. An identifier object, or a string that spells one, names a
    document; null and undefined name none ([inr None]); anything else
    is a CastError. *)
Definition castId (v : JsValue) : Thrown + option string :=
  match v with
  | VObjectId h => inr (Some h)
  | VString s =>
      if is_objectid_text (to_lower s) then inr (Some (to_lower s))
      else inl (CastError "_id")
  | VUndefined | VNull => inr None
  | _ => inl (CastError "_id")
  end.

(** The filters [{ _id: h }] and [{ email: e }], on cast values. *)
Definition has_id (h : string) (d : gmap string JsValue) : bool :=
  bool_decide (d !! "_id" = Some (VObjectId h)).

Definition has_email (e : JsValue) (d : gmap string JsValue) : bool :=
  bool_decide (d !! "email" = Some e).

(** The first document that passes a test. *)
Fixpoint first_match (p : gmap string JsValue -> bool)
  (us : list (gmap string JsValue)) : option (gmap string JsValue) :=
  match us with
  | [] => None
  | d :: r => if p d then Some d else first_match p r
  end.

(** Apply [f] to the first document that passes a test; the flag tells
    whether there was one. *)
Fixpoint update_first (p : gmap string JsValue -> bool)
  (f : gmap string JsValue -> gmap string JsValue)
  (us : list (gmap string JsValue)) : bool * list (gmap string JsValue) :=
  match us with
  | [] => (false, [])
  | d :: r =>
      if p d then (true, f d :: r)
      else let '(b, r') := update_first p f r in (b, d :: r')
  end.

(** Modelled from the spec: section 4.1, [findByEmail]. The filter value
    goes through the cast of the email path. *)
Definition findOne_email (email : JsValue) : Async (option (gmap string JsValue)) :=
  match cast SLowerString email with
  | None => throw (CastError "email")
  | Some e => us ← getUsers; mret (first_match (has_email e) us)
  end.

(** Modelled from the spec: section 4.1, [findById]; also
    [findOne({ _id: code })]. *)
Definition findById (id : JsValue) : Async (option (gmap string JsValue)) :=
  match castId id with
  | inl e => throw e
  | inr None => mret None
  | inr (Some h) => us ← getUsers; mret (first_match (has_id h) us)
  end.

(** [.select('-password -refresh_token')] on the result of a query. *)
Definition select_out (d : gmap string JsValue) : gmap string JsValue :=
  delete "refresh_token" (delete "password" d).

(** What [updateOne] reports back. *)
Record UpdateResult : Type := mkUpdateResult {
  matchedCount : Z
}.

(** Modelled from the spec: section 4.1, [update(id, partialFields)],
    behind both [findByIdAndUpdate(id, fields)] and
    [updateOne({ _id: id }, fields)]. Filter and fields are cast first;
    then the first document with that identifier takes the fields. *)
Definition updateById (id : JsValue) (fs : list (string * JsValue)) : Async UpdateResult :=
  match castId id with
  | inl e => throw e
  | inr q =>
      match castFields fs with
      | inl e => throw e
      | inr fs' =>
          match q with
          | None => mret {| matchedCount := 0 |}
          | Some h =>
              us ← getUsers;
              let '(hit, us') := update_first (has_id h) (setFields fs') us in
              putUsers us';;
              mret {| matchedCount := if hit then 1 else 0 |}
          end
      end
  end.

(** Modelled from the spec: section 4.1, [create(fields)], behind
    [new UserModel(fields).save()]. The document gets the defaults, a
    fresh identifier and the cast fields; an identifier or an email that
    a stored document already has is refused (the uniqueness
    invariant). *)
Definition create (newId : string) (fs : list (string * JsValue))
  : Async (gmap string JsValue) :=
  match castFields fs with
  | inl e => throw e
  | inr fs' =>
      let d := setFields fs' (setFields userDefaults {[ "_id" := VObjectId newId ]}) in
      us ← getUsers;
      if existsb (has_id newId) us then throw (DuplicateKey "_id")
      else if existsb (has_email (get d "email")) us then throw (DuplicateKey "email")
      else putUsers (us ++ [d])%list;; mret d
  end.

End UserModel.

(** ** The user service (services/user.service.js) *)

Section UserService.

(** The collaborators of the service that are libraries or belong to
    other parts of the server: the hash and the comparison of bcryptjs,
    the two e-mail templates, the two token generators, and the
    front-end address of the process environment. *)
Variable bcrypt_hash : string -> string -> string.
Variable bcrypt_compare : string -> string -> bool.
Variable verifyEmailTemplate : JsValue -> string -> string.
Variable forgotPasswordTemplate : JsValue -> JsValue -> string.
Variable accessTokenOf : JsValue -> Env -> string.
Variable refreshTokenOf : JsValue -> Env -> string.
Variable FRONTEND_URL : string.

(** [bcryptjs.hash(password, salt)]: bcryptjs refuses an argument that
    is not a string. *)
Definition hash (password : JsValue) (salt : string) : Async string :=
  match password with
  | VString p => mret (bcrypt_hash p salt)
  | _ => throw IllegalArguments
  end.

(** [bcryptjs.compare(password, hash)] *)
Definition compare (password hashed : JsValue) : Async bool :=
  match password, hashed with
  | VString p, VString h => mret (bcrypt_compare p h)
  | _, _ => throw IllegalArguments
  end.

(** Modelled from the spec: config/sendEmail.js is not among the
    sources. Section 6 has the e-mail sender accept a recipient, a
    subject and an HTML body; the message is put on the outbox. *)
Definition sendEmail (m : Mail) : Async unit :=
  fun w => (Return tt, {| users := users w; outbox := (outbox w ++ [m])%list |}).

(** Modelled from the spec: utils/generatedOtp.js is not among the
    sources. Section 4.3 draws the code from the range [100000, 999999];
    DESIGN.md quotes the body as
    [Math.floor(100000 + Math.random() * 900000)], a number. The draw of
    [Math.random()] is the fraction [random_num / random_den] of the
    environment (the rounding of the floating-point product is left
    out). *)
Definition generatedOtp (env : Env) : JsValue :=
  VNumber (Num ((100000 * random_den env + random_num env * 900000) / random_den env)).

(** Modelled from the spec: utils/generatedAccessToken.js is not among
    the sources. Section 4.2: the token encodes the user id and an
    expiry and is not persisted. *)
Definition generatedAccessToken (userId : JsValue) (env : Env) : Async string :=
  mret (accessTokenOf userId env).

(** Modelled from the spec: utils/generatedRefreshToken.js is not among
    the sources. Section 4.2: the token is persisted onto the user
    record, overwriting any prior value. *)
Definition genertedRefreshToken (userId : JsValue) (env : Env) : Async string :=
  let token := refreshTokenOf userId env in
  UserModel.updateById userId [("refresh_token", VString token)];;
  mret token.

(** The text a template literal puts in for an identifier or a string. *)
Definition idText (v : JsValue) : string :=
  match v with
  | VObjectId h => h
  | VString s => s
  | _ => "undefined"
  end.

(** [registerUser({ name, email, password })] *)
Definition registerUser (name email password : JsValue) (env : Env)
  : Async (gmap string JsValue) :=
  if (negb (truthy name) || negb (truthy email) || negb (truthy password))%bool then
    throw (AppErr (createError "Please provide email, name, and password" 400))
  else
    existingUser ← UserModel.findOne_email email;
    match existingUser with
    | Some _ => throw (AppErr (createError "Email already registered" 400))
    | None =>
        hashPassword ← hash password (salt env);
        savedUser ← UserModel.create (objectId env)
          [("name", name); ("email", email); ("password", VString hashPassword)];
        let verifyEmailUrl :=
          FRONTEND_URL +:+ "/verify-email?code=" +:+ idText (get savedUser "_id") in
        sendEmail {| sendTo := email;
                     subject := "Verify email from QuickPick";
                     html := verifyEmailTemplate name verifyEmailUrl |};;
        mret savedUser
    end.

(** The user part of what [loginUser] returns. *)
Record LoginUser : Type := mkLoginUser {
  lu_id : JsValue;
  lu_name : JsValue;
  lu_email : JsValue;
  lu_role : JsValue
}.

Record LoginResult : Type := mkLoginResult {
  accessToken : string;
  refreshToken : string;
  user : LoginUser
}.

(** [loginUser({ email, password })] *)
Definition loginUser (email password : JsValue) (env : Env) : Async LoginResult :=
  if (negb (truthy email) || negb (truthy password))%bool then
    throw (AppErr (createError "Please provide email and password" 400))
  else
    found ← UserModel.findOne_email email;
    match found with
    | None => throw (AppErr (createError "User not registered" 400))
    | Some user =>
        if strict_neq (get user "status") (VString "Active") then
          throw (AppErr (createError "Account is not active. Please contact admin" 400))
        else
          isPasswordValid ← compare password (get user "password");
          if negb isPasswordValid then
            throw (AppErr (createError "Invalid password" 400))
          else
            accessToken ← generatedAccessToken (get user "_id") env;
            refreshToken ← genertedRefreshToken (get user "_id") env;
            UserModel.updateById (get user "_id") [("last_login_date", VDate (now env))];;
            mret {| accessToken := accessToken;
                    refreshToken := refreshToken;
                    user := {| lu_id := get user "_id";
                               lu_name := get user "name";
                               lu_email := get user "email";
                               lu_role := get user "role" |} |}
    end.

(** [verifyEmail(code)] *)
Definition verifyEmail (code : JsValue) : Async bool :=
  if negb (truthy code) then
    throw (AppErr (createError "Verification code is required" 400))
  else
    found ← UserModel.findById code;
    match found with
    | None => throw (AppErr (createError "Invalid verification code" 400))
    | Some _ =>
        UserModel.updateById code [("verify_email", VBool true)];;
        mret true
    end.

(** [forgotPassword(email)] *)
Definition forgotPassword (email : JsValue) (env : Env) : Async bool :=
  if negb (truthy email) then
    throw (AppErr (createError "Email is required" 400))
  else
    found ← UserModel.findOne_email email;
    match found with
    | None => throw (AppErr (createError "Email not found" 400))
    | Some user =>
        let otp := generatedOtp env in
        let expireTime := now env + 60 * 60 * 1000 in
        match toISOString expireTime with
        | None => throw RangeError
        | Some expiry =>
            UserModel.updateById (get user "_id")
              [("forgot_password_otp", otp);
               ("forgot_password_expiry", VString expiry)];;
            sendEmail {| sendTo := email;
                         subject := "Forgot password from QuickPick";
                         html := forgotPasswordTemplate (get user "name") otp |};;
            mret true
        end
    end.

(** [verifyForgotPasswordOtp(email, otp)] *)
Definition verifyForgotPasswordOtp (email otp : JsValue) (env : Env) : Async bool :=
  if (negb (truthy email) || negb (truthy otp))%bool then
    throw (AppErr (createError "Email and OTP are required" 400))
  else
    found ← UserModel.findOne_email email;
    match found with
    | None => throw (AppErr (createError "Email not found" 400))
    | Some user =>
        match toISOString (now env) with
        | None => throw RangeError
        | Some currentTime =>
            if lt (get user "forgot_password_expiry") (VString currentTime) then
              throw (AppErr (createError "OTP has expired" 400))
            else if strict_neq otp (get user "forgot_password_otp") then
              throw (AppErr (createError "Invalid OTP" 400))
            else
              UserModel.updateById (get user "_id")
                [("forgot_password_otp", VString "");
                 ("forgot_password_expiry", VString "")];;
              mret true
        end
    end.

(** [resetPassword(email, newPassword, confirmPassword)] *)
Definition resetPassword (email newPassword confirmPassword : JsValue) (env : Env)
  : Async bool :=
  if (negb (truthy email) || negb (truthy newPassword)
      || negb (truthy confirmPassword))%bool then
    throw (AppErr (createError "Email, new password, and confirmation are required" 400))
  else if strict_neq newPassword confirmPassword then
    throw (AppErr (createError "Passwords do not match" 400))
  else
    found ← UserModel.findOne_email email;
    match found with
    | None => throw (AppErr (createError "Email not found" 400))
    | Some user =>
        hashPassword ← hash newPassword (salt env);
        UserModel.updateById (get user "_id") [("password", VString hashPassword)];;
        mret true
    end.

(** The object [updateData] that [updateUserDetails] builds from the
    name, the email and the mobile number of the payload. *)
Definition updateData_of (name email mobile : JsValue) : list (string * JsValue) :=
  ((if truthy name then [("name", name)] else [])
   ++ (if truthy email then [("email", email)] else [])
   ++ (if truthy mobile then [("mobile", mobile)] else []))%list.

(** [updateUserDetails(userId, updates)]; the identifier is a string,
    as the function's documentation types it. *)
Definition updateUserDetails (userId : string) (updates : gmap string JsValue)
  (env : Env) : Async UserModel.UpdateResult :=
  let name := get updates "name" in
  let email := get updates "email" in
  let mobile := get updates "mobile" in
  let password := get updates "password" in
  let updateData := updateData_of name email mobile in
  updateData ←
    (if truthy password then
       hashed ← hash password (salt env);
       mret (updateData ++ [("password", VString hashed)])%list
     else mret updateData);
  UserModel.updateById (VString userId) updateData.

(** [getUserById(userId)]; the identifier is a string, as the
    function's documentation types it. *)
Definition getUserById (userId : string) : Async (gmap string JsValue) :=
  found ← UserModel.findById (VString userId);
  match found with
  | None => throw (AppErr (createError "User not found" 404))
  | Some user => mret (UserModel.select_out user)
  end.

(** A call of one of the eight operations. *)
Inductive Call : Type :=
| CallRegister (name email password : JsValue)
| CallLogin (email password : JsValue)
| CallVerifyEmail (code : JsValue)
| CallForgotPassword (email : JsValue)
| CallVerifyOtp (email otp : JsValue)
| CallResetPassword (email newPassword confirmPassword : JsValue)
| CallUpdateDetails (userId : string) (updates : gmap string JsValue)
| CallGetUserById (userId : string).

(** The world a call leaves behind, whether it returned or threw. *)
Definition exec (c : Call) (env : Env) (w : World) : World :=
  match c with
  | CallRegister n e p => snd (registerUser n e p env w)
  | CallLogin e p => snd (loginUser e p env w)
  | CallVerifyEmail c => snd (verifyEmail c w)
  | CallForgotPassword e => snd (forgotPassword e env w)
  | CallVerifyOtp e o => snd (verifyForgotPasswordOtp e o env w)
  | CallResetPassword e p q => snd (resetPassword e p q env w)
  | CallUpdateDetails i u => snd (updateUserDetails i u env w)
  | CallGetUserById i => snd (getUserById i w)
  end.

End UserService.

(** ** Predicates the properties speak of *)

(** The forgot-password code and its expiry are both present (truthy)
    or both cleared (null, undefined or the empty string). *)
Definition otp_pair_ok (d : gmap string JsValue) : Prop :=
  truthy (get d "forgot_password_otp") = truthy (get d "forgot_password_expiry").

(** Every document carries an identifier, and no two the same one, as
    the database guarantees for [_id]. *)
Fixpoint ids_distinct (us : list (gmap string JsValue)) : bool :=
  match us with
  | [] => true
  | d :: r =>
      match d !! "_id" with
      | Some (VObjectId h) => negb (existsb (UserModel.has_id h) r) && ids_distinct r
      | _ => false
      end
  end.

(** The fields [updateUserDetails] may write. *)
Definition writable : list string := ["name"; "email"; "mobile"; "password"].

(** The stored expiry has a type the schema admits: a Date, null, or
    no value. *)
Definition expiry_typed (d : gmap string JsValue) : Prop :=
  match get d "forgot_password_expiry" with
  | VNull | VUndefined | VDate _ => True
  | _ => False
  end.

(** An operation keeps a property of the collection: if the stored
    users have it before, they have it after, whether the operation
    returns or throws. *)
Definition keeps {A : Type} (Q : list (gmap string JsValue) -> Prop) (m : Async A) : Prop :=
  forall w, Q (users w) -> Q (users (m w).2).

(** ** Sample collaborators and worlds

    Concrete stand-ins for the collaborators, and a small world, on
    which the operations can be run. *)

Module Sample.

Definition hash (password salt : string) : string := "$2a$10$" +:+ salt +:+ password.
Definition compare (password hashed : string) : bool :=
  String.eqb hashed ("$2a$10$" +:+ "pepper" +:+ password).
Definition verifyTemplate (name : JsValue) (url : string) : string := url.
Definition otpTemplate (name otp : JsValue) : string :=
  match otp with VNumber n => NumberToString n | _ => "" end.
Definition token (userId : JsValue) (env : Env) : string :=
  match userId with VObjectId h => h +:+ "." +:+ NumberToString (Num (now env)) | _ => "" end.
Definition frontend : string := "https://quickpick.example".

Definition aliceId : string := "65f0c0ffee0123456789abcd".

(** 2026-11-02T00:00:00.123Z, a draw of one third, and an identifier. *)
Definition env0 : Env :=
  {| now := 1793577600123; random_num := 1; random_den := 3;
     salt := "pepper"; objectId := aliceId |}.

(** Two hours later. *)
Definition env2h : Env :=
  {| now := 1793577600123 + 7200000; random_num := 5; random_den := 7;
     salt := "pepper"; objectId := "65f0c0ffee0123456789abce" |}.

Definition empty : World := {| users := []; outbox := [] |}.

(** register("Alice", "alice@x.com", "secret123") on the empty world. *)
Definition registered : Outcome (gmap string JsValue) * World :=
  registerUser hash verifyTemplate frontend
    (VString "Alice") (VString "alice@x.com") (VString "secret123") env0 empty.

(** The stored user after [forgotPassword]: the code 400000 and an
    expiry one hour after [env0]. *)
Definition alice : gmap string JsValue :=
  list_to_map
    [ ("_id", VObjectId aliceId);
      ("name", VString "Alice");
      ("email", VString "alice@x.com");
      ("password", VString "$2a$10$peppersecret123");
      ("refresh_token", VNull);
      ("verify_email", VBool false);
      ("status", VString "Active");
      ("role", VString "USER");
      ("forgot_password_otp", VString "400000");
      ("forgot_password_expiry", VDate 1793581200123) ].

Definition world1 : World := {| users := [alice]; outbox := [] |}.

End Sample.

(** ** Calls, their outcome and their writes *)

(** The collaborators of the service, gathered. *)
Record Collaborators : Type := mkCollaborators {
  co_hash : string -> string -> string;
  co_compare : string -> string -> bool;
  co_verifyEmailTemplate : JsValue -> string -> string;
  co_forgotPasswordTemplate : JsValue -> JsValue -> string;
  co_accessToken : JsValue -> Env -> string;
  co_refreshToken : JsValue -> Env -> string;
  co_frontend : string
}.

(** What an operation threw, if it threw. *)
Definition thrown_of {A : Type} (r : Outcome A * World) : option Thrown :=
  match r.1 with
  | Throw e => Some e
  | Return _ => None
  end.

(** A call of the service: the exception it ends with, if any, and
    the world it leaves. *)
Definition run (co : Collaborators) (c : Call) (env : Env) (w : World)
  : option Thrown * World :=
  match c with
  | CallRegister n e p =>
      let r := registerUser (co_hash co) (co_verifyEmailTemplate co) (co_frontend co)
                 n e p env w in
      (thrown_of r, r.2)
  | CallLogin e p =>
      let r := loginUser (co_compare co) (co_accessToken co) (co_refreshToken co)
                 e p env w in
      (thrown_of r, r.2)
  | CallVerifyEmail c => let r := verifyEmail c w in (thrown_of r, r.2)
  | CallForgotPassword e =>
      let r := forgotPassword (co_forgotPasswordTemplate co) e env w in
      (thrown_of r, r.2)
  | CallVerifyOtp e o => let r := verifyForgotPasswordOtp e o env w in (thrown_of r, r.2)
  | CallResetPassword e p q =>
      let r := resetPassword (co_hash co) e p q env w in (thrown_of r, r.2)
  | CallUpdateDetails i u =>
      let r := updateUserDetails (co_hash co) i u env w in (thrown_of r, r.2)
  | CallGetUserById i => let r := getUserById i w in (thrown_of r, r.2)
  end.

(** The field lists, after the casts of the schema, that a call hands to
    an update of the collection: one constructor for each update in the
    source. *)
Inductive Writes (co : Collaborators) (env : Env) : Call -> list (string * JsValue) -> Prop :=
| W_refresh_token (email password id : JsValue) :
    Writes co env (CallLogin email password)
      [("refresh_token", VString (co_refreshToken co id env))]
| W_last_login (email password : JsValue) :
    Writes co env (CallLogin email password) [("last_login_date", VDate (now env))]
| W_verify_email (code : JsValue) :
    Writes co env (CallVerifyEmail code) [("verify_email", VBool true)]
| W_forgot (email : JsValue) (n : JsNumber) (iso : string) (t : Z) :
    generatedOtp env = VNumber n ->
    toISOString (now env + 60 * 60 * 1000) = Some iso ->
    parseISO iso = Some t ->
    Writes co env (CallForgotPassword email)
      [("forgot_password_otp", VString (NumberToString n));
       ("forgot_password_expiry", VDate t)]
| W_clear (email otp : JsValue) :
    Writes co env (CallVerifyOtp email otp)
      [("forgot_password_otp", VString ""); ("forgot_password_expiry", VNull)]
| W_reset (email confirmPassword : JsValue) (p : string) :
    Writes co env (CallResetPassword email (VString p) confirmPassword)
      [("password", VString (co_hash co p (salt env)))]
| W_update (userId : string) (updates : gmap string JsValue) fs' :
    truthy (get updates "password") = false ->
    UserModel.castFields
      (updateData_of (get updates "name") (get updates "email") (get updates "mobile"))
      = inr fs' ->
    Writes co env (CallUpdateDetails userId updates) fs'
| W_update_password (userId : string) (updates : gmap string JsValue) (p : string) fs' :
    get updates "password" = VString p -> p <> "" ->
    UserModel.castFields
      (updateData_of (get updates "name") (get updates "email") (get updates "mobile")
       ++ [("password", VString (co_hash co p (salt env)))])%list = inr fs' ->
    Writes co env (CallUpdateDetails userId updates) fs'.

(** The document a call inserts: the one insertion of the source. *)
Inductive Creates (co : Collaborators) (env : Env) : Call -> gmap string JsValue -> Prop :=
| Cr_register (name email : JsValue) (p : string) fs' :
    UserModel.castFields
      [("name", name); ("email", email);
       ("password", VString (co_hash co p (salt env)))] = inr fs' ->
    Creates co env (CallRegister name email (VString p))
      (UserModel.setFields fs'
         (UserModel.setFields UserModel.userDefaults {[ "_id" := VObjectId (objectId env) ]})).

(** Two documents agree on every field outside [K]. *)
Definition agree_outside (K : list string) (d d' : gmap string JsValue) : Prop :=
  forall k, ~ In k K -> d' !! k = d !! k.

(** The fields a call may write in a stored user. *)
Definition footprint (c : Call) : list string :=
  match c with
  | CallRegister _ _ _ => []
  | CallLogin _ _ => ["refresh_token"; "last_login_date"]
  | CallVerifyEmail _ => ["verify_email"]
  | CallForgotPassword _ => ["forgot_password_otp"; "forgot_password_expiry"]
  | CallVerifyOtp _ _ => ["forgot_password_otp"; "forgot_password_expiry"]
  | CallResetPassword _ _ _ => ["password"]
  | CallUpdateDetails _ _ => writable
  | CallGetUserById _ => []
  end.

(** The stored password, where there is one, is a hash that [h] made. *)
Definition password_hashed (h : string -> string -> string) (d : gmap string JsValue) : Prop :=
  d !! "password" = None \/ exists p s, d !! "password" = Some (VString (h p s)).

(** A run in weakest-precondition form: [wp m R w] says that [m], run
    from [w], ends with an outcome and in a world that [R] accepts. *)
Definition wp {A : Type} (m : Async A) (R : Outcome A -> World -> Prop) (w : World) : Prop :=
  R (m w).1 (m w).2.

(** The mail a call sends when it returns: the verification link with
    the new identifier, or the code for a stored user. *)
Inductive Sends (co : Collaborators) (env : Env) (w : World) : Call -> Mail -> Prop :=
| S_register (name email password : JsValue) :
    Sends co env w (CallRegister name email password)
      {| sendTo := email;
         subject := "Verify email from QuickPick";
         html := co_verifyEmailTemplate co name
                   (co_frontend co +:+ "/verify-email?code=" +:+ objectId env) |}
| S_forgot (email : JsValue) (u : gmap string JsValue) :
    In u (users w) ->
    Sends co env w (CallForgotPassword email)
      {| sendTo := email;
         subject := "Forgot password from QuickPick";
         html := co_forgotPasswordTemplate co (get u "name") (generatedOtp env) |}.

(** The sample collaborators, gathered. *)
Definition sample_co : Collaborators :=
  {| co_hash := Sample.hash;
     co_compare := Sample.compare;
     co_verifyEmailTemplate := Sample.verifyTemplate;
     co_forgotPasswordTemplate := Sample.otpTemplate;
     co_accessToken := Sample.token;
     co_refreshToken := Sample.token;
     co_frontend := Sample.frontend |}.

(** ** The error middleware of utils/errorHandler.js *)

Module Middleware.

(** An error object, as far as the middleware reads it: a property that
    the object does not have reads as undefined. *)
Record Err : Type := mkErr {
  err_message : JsValue;
  err_stack : JsValue;
  err_statusCode : JsValue;
  err_status : JsValue;
  err_isOperational : JsValue
}.

(** [a || b] *)
Definition or_else (a b : JsValue) : JsValue := if truthy a then a else b.

(** A value of a JSON body: a plain value, or the error object itself. *)
Inductive Json : Type :=
| JVal (v : JsValue)
| JErr (e : Err).

(** What [res.status(code).json(body)] sends. *)
Record Response : Type := mkResponse {
  res_status : JsValue;
  res_json : list (string * Json)
}.

(** [errorHandler(err, req, res, next)]: the error with its defaults
    filled in, and the response sent. [NODE_ENV] is
    [process.env.NODE_ENV]. *)
Definition errorHandler (NODE_ENV : JsValue) (err : Err) : Err * Response :=
  let err := {| err_message := err_message err;
                err_stack := err_stack err;
                err_statusCode := or_else (err_statusCode err) (VNumber (Num 500));
                err_status := err_status err;
                err_isOperational := err_isOperational err |} in
  let err := {| err_message := err_message err;
                err_stack := err_stack err;
                err_statusCode := err_statusCode err;
                err_status := or_else (err_status err) (VString "error");
                err_isOperational := err_isOperational err |} in
  if strict_eq NODE_ENV (VString "development") then
    (err, {| res_status := err_statusCode err;
             res_json := [("status", JVal (err_status err));
                          ("error", JErr err);
                          ("message", JVal (err_message err));
                          ("stack", JVal (err_stack err));
                          ("success", JVal (VBool false))] |})
  else if truthy (err_isOperational err) then
    (err, {| res_status := err_statusCode err;
             res_json := [("status", JVal (err_status err));
                          ("message", JVal (err_message err));
                          ("error", JVal (VBool true));
                          ("success", JVal (VBool false))] |})
  else
    (err, {| res_status := VNumber (Num 500);
             res_json := [("status", JVal (VString "error"));
                          ("message", JVal (VString "Something went wrong!"));
                          ("error", JVal (VBool true));
                          ("success", JVal (VBool false))] |}).

(** The error object behind what the service throws. An [AppError]
    carries the four fields of its constructor; an error of the
    platform (the object-document mapper, bcryptjs, the Date of the
    host) has a message and a stack and none of the other three. *)
Definition error_of (text : Thrown -> string) (stack : JsValue) (t : Thrown) : Err :=
  match t with
  | AppErr e =>
      {| err_message := VString (message e);
         err_stack := stack;
         err_statusCode := VNumber (Num (statusCode e));
         err_status := VString (status e);
         err_isOperational := VBool (isOperational e) |}
  | _ =>
      {| err_message := VString (text t);
         err_stack := stack;
         err_statusCode := VUndefined;
         err_status := VUndefined;
         err_isOperational := VUndefined |}
  end.

End Middleware.

(** ** utils/responseFormatter.js *)

Module ResponseFormatter.

(** The value of [Math.ceil(a / b)] on two integers: a division by zero
    gives NaN or an infinity. (The rounding of the floating-point
    quotient is left out.) *)
Inductive Ceil : Type :=
| CNaN
| CInfinity (negative : bool)
| CNum (z : Z).

Definition ceil_div (a b : Z) : Ceil :=
  if b =? 0 then
    if a =? 0 then CNaN else CInfinity (a <? 0)
  else CNum (- ((- a) / b)).

(** The [pagination] object of a paginated body. *)
Record Pagination : Type := mkPagination {
  page : Z;
  limit : Z;
  totalCount : Z;
  totalPages : Ceil;
  hasNextPage : bool;
  hasPrevPage : bool
}.

(** A body with the fields [success], [error], [message], [data] and,
    for a page of results, [pagination]. *)
Record Body (D : Type) : Type := mkBody {
  success : bool;
  error : bool;
  message : string;
  data : D;
  pagination : option Pagination
}.

Arguments mkBody {D}.
Arguments success {D}.
Arguments error {D}.
Arguments message {D}.
Arguments data {D}.
Arguments pagination {D}.

(** [successResponse(res, data, message, statusCode)]: the status and
    the body sent. *)
Definition successResponse {D : Type} (data : D) (message : string) (statusCode : Z)
  : Z * Body D :=
  (statusCode,
   {| success := true; error := false; message := message; data := data;
      pagination := None |}).

(** [paginatedResponse(res, data, page, limit, totalCount, message)],
    with numbers for the page, the limit and the count, as the
    function's documentation types them; [parseInt] of an integer below
    10^21 is the integer. *)
Definition paginatedResponse {D : Type} (data : D) (page limit totalCount : Z)
  (message : string) : Z * Body D :=
  (200,
   {| success := true; error := false; message := message; data := data;
      pagination :=
        Some {| page := page;
                limit := limit;
                totalCount := totalCount;
                totalPages := ceil_div totalCount limit;
                hasNextPage := page * limit <? totalCount;
                hasPrevPage := 1 <? page |} |}).

(** [createdResponse(res, data, message)] *)
Definition createdResponse {D : Type} (data : D) (message : string) : Z * Body D :=
  successResponse data message 201.

End ResponseFormatter.

(** ** client/src/utils/urlHelper.js *)

Module UrlHelper.

(** A sub-category, as far as the helper reads it: its name, its
    identifier, and the identifiers of the categories it belongs to.
    Names and identifiers are strings; a missing one is the empty
    string, which [||] treats like undefined. *)
Record SubCategory : Type := mkSubCategory {
  sub_name : string;
  sub_id : string;
  category : list string
}.

(** [s || "undefined"] on a string. *)
Definition or_undefined (s : string) : string :=
  if String.eqb s "" then "undefined" else s.

(** [sub.category.some((c) => c._id == id)] *)
Definition lists_category (id : string) (sub : SubCategory) : bool :=
  existsb (fun c => String.eqb c id) (category sub).

Section GetRedirectURL.

(** valideURLConvert.js is not among the sources; the helper uses it as
    a function from strings to strings. *)
Variable valideURLConvert : string -> string.

(** [getRedirectURL(id, name, subCategoryData)] *)
Definition getRedirectURL (id name : string) (subCategoryData : list SubCategory) : string :=
  let subcategory := List.find (lists_category id) subCategoryData in
  "/" +:+ valideURLConvert name +:+ "-" +:+ id +:+ "/"
  +:+ valideURLConvert
        (match subcategory with
         | Some sub => or_undefined (sub_name sub)
         | None => "undefined"
         end)
  +:+ "-"
  +:+ (match subcategory with
       | Some sub => or_undefined (sub_id sub)
       | None => "undefined"
       end).

End GetRedirectURL.

End UrlHelper.

(** ** client/src/utils/imageUploadHelper.js *)

Module ImageUploadHelper.

(** The response of an upload, as far as the helper reads it:
    [response.data], its [data] with a [url], and its own [url]; a
    missing object is [None], a missing [url] undefined. *)
Record Inner : Type := mkInner {
  inner_url : JsValue
}.

Record Data : Type := mkData {
  data_data : option Inner;
  data_url : JsValue
}.

Record UploadResponse : Type := mkUploadResponse {
  resp_data : option Data
}.

(** [response.data?.data?.url] *)
Definition nested_url (response : UploadResponse) : JsValue :=
  match resp_data response with
  | None => VUndefined
  | Some d =>
      match data_data d with
      | None => VUndefined
      | Some i => inner_url i
      end
  end.

(** [response.data?.url] *)
Definition top_url (response : UploadResponse) : JsValue :=
  match resp_data response with
  | None => VUndefined
  | Some d => data_url d
  end.

Section UploadAndSetImage.

(** UploadImage.js is not among the sources; the helper awaits it: it
    resolves with a response or rejects with an error, here the
    message of the error. *)
Variable File : Type.
Variable uploadImage : File -> string + UploadResponse.

(** [uploadAndSetImage(e, setData, field)]: [file] is
    [e.target.files[0]], [state] the state that [setData] updates. The
    result is the message of the error thrown, if any, and the state
    afterwards. *)
Definition uploadAndSetImage (file : option File) (field : string)
  (state : gmap string JsValue) : option string * gmap string JsValue :=
  match file with
  | None => (None, state)
  | Some f =>
      match uploadImage f with
      | inl error => (Some error, state)
      | inr response =>
          let imageUrl :=
            Middleware.or_else
              (Middleware.or_else (nested_url response) (top_url response))
              (VString "") in
          if negb (truthy imageUrl) then
            (Some "Image URL not found in the upload response", state)
          else (None, <[field := imageUrl]> state)
      end
  end.

End UploadAndSetImage.

End ImageUploadHelper.

(** A world whose only user is suspended. *)
Definition suspended_world : World :=
  {| users := [<["status" := VString "Suspended"]> Sample.alice]; outbox := [] |}.

(** The sub-category of the helper's test. *)
Definition citrus : UrlHelper.SubCategory :=
  {| UrlHelper.sub_name := "citrus"; UrlHelper.sub_id := "sub1";
     UrlHelper.category := ["123"] |}.

(** * Properties *)

Import UserModel.

(** ** Values, digits and numbers *)

Example js_examples :
  truthy (VString "") = false /\ truthy (VString "0") = true /\
  NumberToString (Num 100000) = "100000" /\ NumberToString (Num (-42)) = "-42" /\
  NumberToString (Num 0) = "0" /\
  StringToNumber " 12 " = Num 12 /\ StringToNumber "2026-11-02T00:00:00.000Z" = NaN /\
  lt (VDate 5) (VString "2026-11-02T00:00:00.000Z") = false /\
  lt (VNull) (VString "2026-11-02T00:00:00.000Z") = false /\
  lt (VString "") (VString "2026-11-02T00:00:00.000Z") = true /\
  strict_eq (VString "123456") (VNumber (Num 123456)) = false.
Proof. vm_compute. repeat split. Qed.

Example date_examples :
  toISOString 0 = Some "1970-01-01T00:00:00.000Z" /\
  toISOString 1793577600123 = Some "2026-11-02T00:00:00.123Z" /\
  toISOString 951782400000 = Some "2000-02-29T00:00:00.000Z" /\
  toISOString (-1) = Some "1969-12-31T23:59:59.999Z" /\
  toISOString 253402300800000 = Some "+010000-01-01T00:00:00.000Z" /\
  toISOString (-62167219200001) = Some "-000001-12-31T23:59:59.999Z" /\
  parseISO "2026-11-02T00:00:00.123Z" = Some 1793577600123 /\
  parseISO "1969-12-31T23:59:59.999Z" = Some (-1) /\
  parseISO "" = None.
Proof. vm_compute. repeat split. Qed.

Lemma digit_val_digit (n : Z) : 0 <= n <= 9 -> digit_val (digit n) = Some n.
Proof.
  intros H. unfold digit.
  destruct n as [|p|p]; [reflexivity | | lia].
  do 4 (try destruct p as [p|p|]); try reflexivity; lia.
Qed.

Lemma digit_val_digit_mod (x : Z) : digit_val (digit (x mod 10)) = Some (x mod 10).
Proof. apply digit_val_digit. pose proof (Z.mod_pos_bound x 10). lia. Qed.

Lemma digit_is_digit (n : Z) : is_digit (digit n) = true.
Proof.
  unfold digit.
  destruct n as [|p|p]; [reflexivity | | reflexivity].
  do 4 (try destruct p as [p|p|]); reflexivity.
Qed.

Lemma digit_not_space (n : Z) : is_space (digit n) = false.
Proof.
  unfold digit.
  destruct n as [|p|p]; [reflexivity | | reflexivity].
  do 4 (try destruct p as [p|p|]); reflexivity.
Qed.

Lemma digits_of_nonempty (f : nat) (n : Z) (acc : string) :
  acc <> "" \/ f <> O -> digits_of f n acc <> "".
Proof.
  revert n acc. induction f as [|f IH]; intros n acc H; cbn [digits_of].
  - destruct H as [H|H]; [exact H | congruence].
  - destruct (n / 10 =? 0); [discriminate|].
    apply IH. left. discriminate.
Qed.

Lemma NumberToString_nonempty (n : JsNumber) : NumberToString n <> "".
Proof.
  destruct n as [|z]; [discriminate|]. unfold NumberToString.
  destruct (z <? 0); [discriminate|].
  apply digits_of_nonempty. right. discriminate.
Qed.

(** The six digits of a number between 100000 and 999999. *)
Lemma NumberToString_six (n : Z) :
  100000 <= n <= 999999 ->
  NumberToString (Num n) =
    String (digit (n / 10 / 10 / 10 / 10 / 10 mod 10))
   (String (digit (n / 10 / 10 / 10 / 10 mod 10))
   (String (digit (n / 10 / 10 / 10 mod 10))
   (String (digit (n / 10 / 10 mod 10))
   (String (digit (n / 10 mod 10))
   (String (digit (n mod 10)) ""))))).
Proof.
  intros H. unfold NumberToString.
  destruct (Z.ltb_spec n 0); [lia|].
  assert (Hl : 16 <= Z.log2 n) by (apply Z.log2_le_pow2; lia).
  destruct (Z.to_nat (Z.log2 n)) as [|[|[|[|[|f]]]]] eqn:E; try lia.
  cbn [digits_of].
  repeat match goal with
  | |- context [ ?a =? 0 ] =>
      destruct (Z.eqb_spec a 0); [ Z.div_mod_to_equations; lia | ]
  end.
  destruct (Z.eqb_spec (n / 10 / 10 / 10 / 10 / 10 / 10) 0) as [_|Hn];
    [reflexivity | exfalso; apply Hn; Z.div_mod_to_equations; lia].
Qed.

Lemma digits_value_None (acc : Z) (s : string) :
  existsb (fun c => negb (is_digit c)) (list_ascii_of_string s) = true ->
  digits_value acc s = None.
Proof.
  revert acc. induction s as [|c r IH]; intros acc; cbn [list_ascii_of_string existsb digits_value].
  - discriminate.
  - unfold is_digit. destruct (digit_val c) as [d|]; [|reflexivity].
    cbn [negb orb]. apply IH.
Qed.

Lemma trim_right_id (s : string) (c : ascii) :
  last_char s = Some c -> is_space c = false -> trim_right s = s.
Proof.
  intros Hl Hc. induction s as [|a r IH]; [reflexivity|].
  cbn [trim_right]. destruct r as [|b r'].
  - cbn in Hl. injection Hl as ->. cbn [trim_right]. rewrite Hc. reflexivity.
  - rewrite IH by exact Hl. reflexivity.
Qed.

(** A string that neither starts nor ends with white space and holds,
    after its first character, one that is no digit, is no number. *)
Lemma StringToNumber_NaN (c z x : ascii) (r : string) :
  is_space c = false ->
  last_char (String c r) = Some z -> is_space z = false ->
  In x (list_ascii_of_string r) -> is_digit x = false ->
  StringToNumber (String c r) = NaN.
Proof.
  intros Hc Hl Hz Hx Hd. unfold StringToNumber.
  cbn [trim_left]. rewrite Hc. rewrite (trim_right_id _ z Hl Hz).
  assert (He : existsb (fun c => negb (is_digit c)) (list_ascii_of_string r) = true).
  { apply existsb_exists. exists x. rewrite Hd. auto. }
  assert (Hr : digits_value 0 r = None) by (apply digits_value_None, He).
  assert (Hcr : digits_value 0 (String c r) = None).
  { apply digits_value_None. cbn [list_ascii_of_string existsb]. rewrite He. apply orb_true_r. }
  cbv beta iota. rewrite Hcr.
  destruct (Ascii.eqb c "-"); [destruct r; [reflexivity | by rewrite Hr]|].
  destruct (Ascii.eqb c "+"); [destruct r; [reflexivity | by rewrite Hr]|].
  reflexivity.
Qed.

Lemma civil_from_days_inv (z y m d : Z) :
  civil_from_days z = (y, m, d) ->
  days_from_civil y m d = z /\ 1 <= m <= 12 /\ 1 <= d <= 31.
Proof.
  unfold civil_from_days.
  set (z' := z + 719468).
  set (era := z' / 146097).
  set (doe := z' - era * 146097).
  set (yoe := (doe - doe / 1460 + doe / 36524 - doe / 146096) / 365).
  set (doy := doe - (365 * yoe + yoe / 4 - yoe / 100)).
  set (mp := (5 * doy + 2) / 153).
  assert (Hdoe : 0 <= doe < 146097) by (subst doe era; Z.div_mod_to_equations; lia).
  assert (Hy : 0 <= yoe <= 399 /\ 0 <= doy <= 365).
  { subst doy yoe. clearbody doe. clear -Hdoe. Z.div_mod_to_equations; lia. }
  assert (Hmp : 0 <= mp <= 11) by (subst mp; clearbody doy; Z.div_mod_to_equations; lia).
  intros H.
  assert (Hyr := f_equal (fun p => fst (fst p)) H).
  assert (Hm := f_equal (fun p => snd (fst p)) H).
  assert (Hd := f_equal snd H).
  cbv beta in Hyr, Hm, Hd. cbn [fst snd] in Hyr, Hm, Hd. clear H.
  assert (Hm' : 1 <= m <= 12) by (destruct (Z.ltb_spec mp 10); lia).
  assert (Hd' : 1 <= d <= 31).
  { assert (Hmpd : 153 * mp <= 5 * doy + 2 < 153 * mp + 153)
      by (subst mp; clearbody doy; Z.div_mod_to_equations; lia).
    subst d. clearbody mp doy. clear - Hmp Hmpd.
    assert (Hc : mp = 0 \/ mp = 1 \/ mp = 2 \/ mp = 3 \/ mp = 4 \/ mp = 5 \/ mp = 6 \/
                 mp = 7 \/ mp = 8 \/ mp = 9 \/ mp = 10 \/ mp = 11) by lia.
    repeat (destruct Hc as [-> | Hc]); try subst mp; Z.div_mod_to_equations; lia. }
  split; [|auto].
  unfold days_from_civil.
  assert (Hyy : (if m <=? 2 then y - 1 else y) = yoe + era * 400).
  { subst y m. destruct (Z.ltb_spec mp 10);
    [destruct (Z.leb_spec (mp + 3) 2) | destruct (Z.leb_spec (mp - 9) 2)]; lia. }
  rewrite Hyy.
  assert (He : (yoe + era * 400) / 400 = era).
  { clearbody yoe era. Z.div_mod_to_equations; lia. }
  rewrite He.
  assert (Hmm : (if m >? 2 then m - 3 else m + 9) = mp).
  { subst m. destruct (Z.ltb_spec mp 10); destruct (Z.gtb_spec (mp+3) 2); destruct (Z.gtb_spec (mp-9) 2); lia. }
  rewrite Hmm.
  replace (yoe + era * 400 - era * 400) with yoe by lia.
  subst d doy doe z'. lia.
Qed.

(** Days of the years 0000 to 9999. *)
Lemma civil_year_range (z y m d : Z) :
  civil_from_days z = (y, m, d) ->
  -719528 <= z < 2932897 ->
  0 <= y <= 9999.
Proof.
  unfold civil_from_days.
  set (z' := z + 719468).
  set (era := z' / 146097).
  set (doe := z' - era * 146097).
  set (yoe := (doe - doe / 1460 + doe / 36524 - doe / 146096) / 365).
  set (doy := doe - (365 * yoe + yoe / 4 - yoe / 100)).
  set (mp := (5 * doy + 2) / 153).
  intros H Hz.
  assert (Hyr := f_equal (fun p => fst (fst p)) H).
  cbv beta in Hyr. cbn [fst snd] in Hyr. clear H.
  assert (Hdoe : 0 <= doe < 146097) by (subst doe era; Z.div_mod_to_equations; lia).
  assert (He : -1 <= era <= 24) by (subst era z'; Z.div_mod_to_equations; lia).
  assert (Hy : 0 <= yoe <= 399 /\ 0 <= doy <= 365).
  { subst doy yoe. clearbody doe. clear -Hdoe. Z.div_mod_to_equations; lia. }
  assert (Hlate : 146037 <= doe -> yoe = 399 /\ 306 <= doy).
  { subst doy yoe. clearbody doe. clear -Hdoe. intros. Z.div_mod_to_equations; lia. }
  assert (Hearly : doe < 146037 -> yoe < 399 \/ doy < 306).
  { subst doy yoe. clearbody doe. clear -Hdoe. intros. Z.div_mod_to_equations; lia. }
  assert (Hmp1 : 306 <= doy -> 10 <= mp) by (subst mp; clearbody doy; intros; Z.div_mod_to_equations; lia).
  assert (Hmp2 : doy < 306 -> mp < 10) by (subst mp; clearbody doy; intros; Z.div_mod_to_equations; lia).
  assert (Hmp : 0 <= mp <= 11) by (subst mp; clearbody doy; Z.div_mod_to_equations; lia).
  assert (Hdz : doe = z' - era * 146097) by reflexivity.
  clearbody mp doy yoe doe era.
  subst y.
  destruct (Z.ltb_spec mp 10);
    [destruct (Z.leb_spec (mp + 3) 2) | destruct (Z.leb_spec (mp - 9) 2)]; subst z'; lia.
Qed.

(** ** Dates *)

Lemma toISOString_valid (t : Z) :
  Z.abs t <= maxTime -> exists s, toISOString t = Some s.
Proof.
  intros H. unfold toISOString.
  destruct (Z.gtb_spec (Z.abs t) maxTime); [lia|].
  destruct (civil_from_days (t / msPerDay)) as [[y m] d]. eauto.
Qed.

Lemma toISOString_nonempty (t : Z) (s : string) :
  toISOString t = Some s -> s <> "".
Proof.
  unfold toISOString. destruct (Z.abs t >? maxTime); [discriminate|].
  destruct (civil_from_days (t / msPerDay)) as [[y m] d].
  intros [= <-]. unfold iso_year.
  destruct ((0 <=? y) && (y <=? 9999))%bool; discriminate.
Qed.

(** The text of a date is no numeric literal. *)
Lemma toISOString_NaN (t : Z) (s : string) :
  toISOString t = Some s -> StringToNumber s = NaN.
Proof.
  unfold toISOString. destruct (Z.abs t >? maxTime); [discriminate|].
  destruct (civil_from_days (t / msPerDay)) as [[y m] d].
  intros [= <-]. unfold iso_year.
  destruct ((0 <=? y) && (y <=? 9999))%bool.
  - unfold pad4, pad3, pad2.
    apply (StringToNumber_NaN _ "Z" "T"); try reflexivity.
    + apply digit_not_space.
    + cbn [list_ascii_of_string In]. tauto.
  - unfold pad6, pad4, pad3, pad2.
    apply (StringToNumber_NaN _ "Z" "T"); try reflexivity.
    + by destruct (y <? 0).
    + cbn [list_ascii_of_string In]. tauto.
Qed.

Lemma two_digits (n : Z) : 0 <= n <= 99 -> 10 * (n / 10 mod 10) + n mod 10 = n.
Proof. intros H. Z.div_mod_to_equations; lia. Qed.

Lemma three_digits (n : Z) :
  0 <= n <= 999 -> 100 * (n / 100 mod 10) + (10 * (n / 10 mod 10) + n mod 10) = n.
Proof. intros H. Z.div_mod_to_equations; lia. Qed.

Lemma four_digits (n : Z) :
  0 <= n <= 9999 ->
  1000 * (n / 1000 mod 10) + (100 * (n / 100 mod 10) + (10 * (n / 10 mod 10) + n mod 10)) = n.
Proof. intros H. Z.div_mod_to_equations; lia. Qed.

(** Reading back a text written from its fields. *)
Lemma parseISO_fields (y m d hh mm ss ms : Z) :
  0 <= y <= 9999 -> 1 <= m <= 12 -> 1 <= d <= 31 ->
  0 <= hh <= 23 -> 0 <= mm <= 59 -> 0 <= ss <= 59 -> 0 <= ms <= 999 ->
  parseISO (pad4 y (String "-" (pad2 m (String "-" (pad2 d (String "T" (pad2 hh
             (String ":" (pad2 mm (String ":" (pad2 ss (String "." (pad3 ms "Z")))))))))))))
  = Some (days_from_civil y m d * msPerDay + hh * 3600000 + mm * 60000 + ss * 1000 + ms).
Proof.
  intros Hy Hm Hd Hh Hmi Hs Hms.
  unfold parseISO, pad4, pad3, pad2. cbn [list_ascii_of_string].
  replace (Ascii.eqb "-" "-") with true by reflexivity.
  replace (Ascii.eqb "T" "T") with true by reflexivity.
  replace (Ascii.eqb ":" ":") with true by reflexivity.
  replace (Ascii.eqb "." ".") with true by reflexivity.
  replace (Ascii.eqb "Z" "Z") with true by reflexivity.
  cbn [andb]. unfold num4, num3, num2.
  rewrite !digit_val_digit_mod. cbn [mbind option_bind].
  rewrite (four_digits y), (two_digits m), (two_digits d), (two_digits hh),
    (two_digits mm), (two_digits ss), (three_digits ms) by lia.
  rewrite !(proj2 (Z.leb_le _ _)) by lia. reflexivity.
Qed.

(** A date of the years 0000 to 9999 is read back from its text. *)
Lemma parseISO_toISOString (t : Z) (s : string) :
  -62167219200000 <= t < 253402300800000 ->
  toISOString t = Some s -> parseISO s = Some t.
Proof.
  intros Ht. unfold toISOString.
  destruct (Z.abs t >? maxTime); [discriminate|].
  destruct (civil_from_days (t / msPerDay)) as [[y m] d] eqn:Ec.
  destruct (civil_from_days_inv _ _ _ _ Ec) as (Hinv & Hm & Hd).
  assert (Hy : 0 <= y <= 9999).
  { apply (civil_year_range _ _ _ _ Ec). unfold msPerDay. Z.div_mod_to_equations; lia. }
  intros [= <-]. unfold iso_year.
  rewrite !(proj2 (Z.leb_le _ _)) by lia. cbn [andb].
  pose proof (Z.mod_pos_bound t msPerDay eq_refl) as Hms.
  set (r := t mod msPerDay) in *.
  rewrite parseISO_fields; try lia; unfold msPerDay in *;
    try (Z.div_mod_to_equations; lia).
  rewrite Hinv. f_equal. subst r. unfold msPerDay. Z.div_mod_to_equations; lia.
Qed.

(** ** The collection *)

Lemma world_eta (w : World) : {| users := users w; outbox := outbox w |} = w.
Proof. by destruct w. Qed.

Lemma first_match_split (p : gmap string JsValue -> bool) us d :
  first_match p us = Some d ->
  exists l1 l2, us = (l1 ++ d :: l2)%list /\ p d = true /\ Forall (fun x => p x = false) l1.
Proof.
  induction us as [|a r IH]; cbn [first_match]; [discriminate|].
  destruct (p a) eqn:Ea.
  - intros [= ->]. exists [], r. auto.
  - intros H. destruct (IH H) as (l1 & l2 & -> & Hp & Hl).
    exists (a :: l1), l2. auto.
Qed.

Lemma first_match_app (p : gmap string JsValue -> bool) l1 d l2 :
  Forall (fun x => p x = false) l1 -> p d = true ->
  first_match p (l1 ++ d :: l2) = Some d.
Proof.
  intros Hl Hd. induction Hl as [|a l1 Ha _ IH]; cbn [app first_match].
  - by rewrite Hd.
  - by rewrite Ha.
Qed.


Lemma update_first_app (p : gmap string JsValue -> bool) f l1 d l2 :
  Forall (fun x => p x = false) l1 -> p d = true ->
  update_first p f (l1 ++ d :: l2) = (true, (l1 ++ f d :: l2)%list).
Proof.
  intros Hl Hd. induction Hl as [|a l1 Ha _ IH]; cbn [app update_first].
  - by rewrite Hd.
  - by rewrite Ha, IH.
Qed.

(** A document that two tests both find first sits at one place, ahead
    of every other document that passes either test. *)
Lemma first_match_same (p q : gmap string JsValue -> bool) us d :
  first_match p us = Some d -> first_match q us = Some d ->
  exists l1 l2, us = (l1 ++ d :: l2)%list /\ p d = true /\ q d = true /\
    Forall (fun x => p x = false) l1 /\ Forall (fun x => q x = false) l1.
Proof.
  induction us as [|a r IH]; cbn [first_match]; [discriminate|].
  destruct (p a) eqn:Ea, (q a) eqn:Eb.
  - intros [= ->] _. exists [], r. repeat split; auto.
  - intros [= ->] H. apply first_match_split in H as (_ & _ & _ & H & _). congruence.
  - intros H [= ->]. apply first_match_split in H as (_ & _ & _ & H & _). congruence.
  - intros H1 H2. destruct (IH H1 H2) as (l1 & l2 & -> & ? & ? & ? & ?).
    exists (a :: l1), l2. repeat split; auto.
Qed.

Lemma first_match_existsb (p : gmap string JsValue -> bool) us d :
  first_match p us = Some d -> existsb p us = true.
Proof.
  induction us as [|a r IH]; cbn [first_match existsb]; [discriminate|].
  destruct (p a); [reflexivity|]. exact IH.
Qed.

(** Among documents with distinct identifiers, a document found by any
    test is the one its identifier names. *)
Lemma ids_distinct_found (p : gmap string JsValue -> bool) us d :
  ids_distinct us = true -> first_match p us = Some d ->
  exists h, first_match (has_id h) us = Some d.
Proof.
  induction us as [|a r IH]; cbn [ids_distinct first_match]; [discriminate|].
  destruct (a !! "_id") as [[| | | | | |h]|] eqn:Ea; try discriminate.
  intros [Hr Hd]%andb_prop. apply negb_true_iff in Hr.
  assert (Ha : has_id h a = true) by (unfold has_id; by apply bool_decide_eq_true_2).
  destruct (p a).
  - intros [= <-]. exists h. by rewrite Ha.
  - intros Hu. destruct (IH Hd Hu) as [h' Hh']. exists h'.
    destruct (has_id h' a) eqn:Ea'; [|exact Hh'].
    unfold has_id in Ea'. apply bool_decide_eq_true in Ea'.
    assert (h' = h) as -> by congruence.
    apply first_match_existsb in Hh'. congruence.
Qed.

Lemma update_first_Forall2 (p : gmap string JsValue -> bool) f us :
  Forall2 (fun d d' => d' = d \/ d' = f d) us (update_first p f us).2.
Proof.
  induction us as [|a r IH]; cbn [update_first]; [constructor|].
  destruct (p a).
  - cbn [snd]. constructor; [auto|]. apply Forall2_same_length_lookup_2; [done|].
    intros i x y Hx Hy. left. congruence.
  - destruct (update_first p f r) as [b r']. cbn [snd] in *. constructor; auto.
Qed.

Lemma update_first_Forall (P : gmap string JsValue -> Prop) p f us :
  (forall d, P d -> P (f d)) ->
  Forall P us -> Forall P (update_first p f us).2.
Proof.
  intros Hf Hus. pose proof (update_first_Forall2 p f us) as H2.
  induction H2 as [|d d' l l' Hd _ IH]; [constructor|].
  apply Forall_cons in Hus as [Hd0 Hl]. constructor; [|auto].
  destruct Hd as [-> | ->]; auto.
Qed.


Lemma setFields_lookup_ne fs (d : gmap string JsValue) k :
  ~ In k (map fst fs) -> setFields fs d !! k = d !! k.
Proof.
  revert d. induction fs as [|[k' v] r IH]; intros d Hk; cbn [setFields]; [reflexivity|].
  cbn [map fst In] in Hk. rewrite IH by tauto. apply lookup_insert_ne. tauto.
Qed.

Lemma setFields_get_ne fs (d : gmap string JsValue) k :
  ~ In k (map fst fs) -> get (setFields fs d) k = get d k.
Proof. intros H. unfold get. by rewrite setFields_lookup_ne. Qed.

Lemma castFields_keys fs fs' k :
  castFields fs = inr fs' -> In k (map fst fs') -> In k (map fst fs).
Proof.
  revert fs'. induction fs as [|[k' v] r IH]; intros fs'; cbn [castFields].
  - intros [= <-]. auto.
  - destruct (assoc k' userSchema) as [ty|]; [|intros H1 H2; right; eauto].
    destruct (cast ty v) as [v'|]; [|discriminate].
    destruct (castFields r) as [e|r']; [discriminate|].
    intros [= <-]. cbn [map fst In]. intros [->|H]; [by left | right; eauto].
Qed.

(** What the operations of the store do to the world. *)
Lemma findOne_email_run (email e : JsValue) (w : World) :
  cast SLowerString email = Some e ->
  findOne_email email w = (Return (first_match (has_email e) (users w)), w).
Proof. intros H. unfold findOne_email. by rewrite H. Qed.

Lemma findOne_email_world (email : JsValue) (w : World) :
  (findOne_email email w).2 = w.
Proof. unfold findOne_email. by destruct (cast SLowerString email). Qed.

Lemma findById_run (id : JsValue) (h : string) (w : World) :
  castId id = inr (Some h) ->
  findById id w = (Return (first_match (has_id h) (users w)), w).
Proof. intros H. unfold findById. by rewrite H. Qed.

Lemma findById_world (id : JsValue) (w : World) : (findById id w).2 = w.
Proof. unfold findById. by destruct (castId id) as [e|[h|]]. Qed.

Lemma updateById_run (id : JsValue) (h : string) fs fs' (w : World) :
  castId id = inr (Some h) ->
  castFields fs = inr fs' ->
  updateById id fs w =
    (Return {| matchedCount :=
                 if (update_first (has_id h) (setFields fs') (users w)).1 then 1 else 0 |},
     {| users := (update_first (has_id h) (setFields fs') (users w)).2;
        outbox := outbox w |}).
Proof.
  intros H1 H2. unfold updateById. rewrite H1, H2.
  unfold mbind, Async_bind, getUsers.
  by destruct (update_first (has_id h) (setFields fs') (users w)).
Qed.

(** An update leaves the outbox alone, and changes a document, if at
    all, by writing the cast fields into it. *)
Lemma updateById_world (id : JsValue) fs (w : World) :
  outbox (updateById id fs w).2 = outbox w /\
  (users (updateById id fs w).2 = users w \/
   exists fs', castFields fs = inr fs' /\
     Forall2 (fun d d' => d' = d \/ d' = setFields fs' d)
       (users w) (users (updateById id fs w).2)).
Proof.
  unfold updateById. destruct (castId id) as [e|q]; [auto|].
  destruct (castFields fs) as [e|fs'] eqn:Ec; [auto|].
  destruct q as [h|]; [|auto].
  unfold mbind, Async_bind, getUsers.
  pose proof (update_first_Forall2 (has_id h) (setFields fs') (users w)) as H2.
  destruct (update_first (has_id h) (setFields fs') (users w)) as [hit us'].
  cbn. split; [reflexivity|]. right. eauto.
Qed.

(** ** Properties kept by every step of an operation *)

Lemma updateById_users (id : JsValue) fs (w : World) :
  users (updateById id fs w).2 = users w \/
  exists h fs', castFields fs = inr fs' /\
    users (updateById id fs w).2 = (update_first (has_id h) (setFields fs') (users w)).2.
Proof.
  unfold updateById. destruct (castId id) as [e|q]; [auto|].
  destruct (castFields fs) as [e|fs'] eqn:Ec; [auto|].
  destruct q as [h|]; [|auto].
  unfold mbind, Async_bind, getUsers. right. exists h, fs'. split; [reflexivity|].
  by destruct (update_first (has_id h) (setFields fs') (users w)).
Qed.

(** The schema has no path [_id]: no write reaches the identifier. *)
Lemma castFields_no_id fs fs' :
  castFields fs = inr fs' -> ~ In "_id" (map fst fs').
Proof.
  revert fs'. induction fs as [|[k v] r IH]; intros fs'; cbn [castFields].
  - intros [= <-]. auto.
  - destruct (assoc k userSchema) as [ty|] eqn:Ek; [|by apply IH].
    destruct (cast ty v) as [v'|]; [|discriminate].
    destruct (castFields r) as [e|r']; [discriminate|].
    intros [= <-]. cbn [map fst In]. intros [Hk|H]; [|by apply (IH r')].
    subst k. vm_compute in Ek. discriminate.
Qed.

Section Keeps.

Context (Q : list (gmap string JsValue) -> Prop).

Lemma keeps_ret {A : Type} (a : A) : keeps Q (mret a).
Proof. intros w H. exact H. Qed.

Lemma keeps_throw {A : Type} (e : Thrown) : keeps Q (@throw A e).
Proof. intros w H. exact H. Qed.

Lemma keeps_bind {A B : Type} (m : Async A) (f : A -> Async B) :
  keeps Q m -> (forall a, keeps Q (f a)) -> keeps Q (m ≫= f).
Proof.
  intros Hm Hf w Hw. unfold mbind, Async_bind.
  specialize (Hm w Hw). destruct (m w) as [[a|e] w']; cbn [snd] in *.
  - by apply Hf.
  - exact Hm.
Qed.

Lemma keeps_findOne_email (email : JsValue) : keeps Q (findOne_email email).
Proof. intros w H. by rewrite findOne_email_world. Qed.

Lemma keeps_findById (id : JsValue) : keeps Q (findById id).
Proof. intros w H. by rewrite findById_world. Qed.

Lemma keeps_updateById (id : JsValue) fs :
  (forall h fs' us, castFields fs = inr fs' -> Q us ->
     Q (update_first (has_id h) (setFields fs') us).2) ->
  keeps Q (updateById id fs).
Proof.
  intros Hf w Hw. destruct (updateById_users id fs w) as [-> | (h & fs' & Hc & ->)]; auto.
Qed.

Lemma keeps_create (newId : string) fs :
  (forall fs' us, castFields fs = inr fs' -> existsb (has_id newId) us = false -> Q us ->
     Q (us ++ [setFields fs' (setFields userDefaults {[ "_id" := VObjectId newId ]})])) ->
  keeps Q (create newId fs).
Proof.
  intros Hnew w Hw. unfold create.
  destruct (castFields fs) as [e|fs'] eqn:Ec; [exact Hw|].
  unfold mbind, Async_bind, getUsers.
  destruct (existsb (has_id newId) (users w)) eqn:Ei; [exact Hw|].
  destruct (existsb (has_email _) (users w)); [exact Hw|].
  cbn. by apply Hnew.
Qed.

Lemma keeps_sendEmail (m : Mail) : keeps Q (sendEmail m).
Proof. intros w H. exact H. Qed.

Lemma keeps_hash (h : string -> string -> string) (password : JsValue) (s : string) :
  keeps Q (hash h password s).
Proof. intros w H. by destruct password. Qed.

Lemma keeps_compare (c : string -> string -> bool) (password hashed : JsValue) :
  keeps Q (compare c password hashed).
Proof. intros w H. by destruct password, hashed. Qed.

End Keeps.

Lemma updateData_of_keys (name email mobile : JsValue) (k : string) :
  In k (map fst (updateData_of name email mobile)) ->
  k = "name" \/ k = "email" \/ k = "mobile".
Proof.
  unfold updateData_of.
  destruct (truthy name), (truthy email), (truthy mobile); cbn; intuition.
Qed.

(** What [forgotPassword] writes: a code that is a non-empty text, and
    a Date. *)
Lemma forgot_fields_cast (n : JsNumber) (expiry : string) fs' :
  expiry <> "" ->
  castFields [("forgot_password_otp", VNumber n); ("forgot_password_expiry", VString expiry)]
    = inr fs' ->
  exists t, parseISO expiry = Some t /\
    fs' = [("forgot_password_otp", VString (NumberToString n));
           ("forgot_password_expiry", VDate t)].
Proof.
  intros Hne. cbn [castFields].
  replace (assoc "forgot_password_otp" userSchema) with (Some SString) by reflexivity.
  replace (assoc "forgot_password_expiry" userSchema) with (Some SDate) by reflexivity.
  cbn [cast castString castDate].
  destruct (String.eqb_spec expiry ""); [done|].
  destruct (parseISO expiry) as [t|]; [|discriminate].
  cbn. intros [= <-]. eauto.
Qed.

(** What [verifyForgotPasswordOtp] writes: the empty text as the code,
    null as the expiry. *)
Lemma clear_fields_cast :
  castFields [("forgot_password_otp", VString ""); ("forgot_password_expiry", VString "")]
  = inr [("forgot_password_otp", VString ""); ("forgot_password_expiry", VNull)].
Proof. reflexivity. Qed.

Lemma truthy_NumberToString (n : JsNumber) : truthy (VString (NumberToString n)) = true.
Proof.
  cbn [truthy]. destruct (String.eqb_spec (NumberToString n) ""); [|done].
  by destruct (NumberToString_nonempty n).
Qed.

(** *** An invariant principle for the collection

    The service writes to the collection in four ways: an update that
    names neither the code nor its expiry, the update of
    [forgotPassword] (a numeric text and a Date), the update of
    [verifyForgotPasswordOtp] (the empty text and null), and the
    insertion of a new user under a fresh identifier. A property of the
    collection that survives these four survives every operation. *)
Section Invariant.

Variable bcrypt_hash : string -> string -> string.
Variable bcrypt_compare : string -> string -> bool.
Variable verifyEmailTemplate : JsValue -> string -> string.
Variable forgotPasswordTemplate : JsValue -> JsValue -> string.
Variable accessTokenOf : JsValue -> Env -> string.
Variable refreshTokenOf : JsValue -> Env -> string.
Variable FRONTEND_URL : string.

Variable Q : list (gmap string JsValue) -> Prop.

Hypothesis Q_frame : forall h fs' us,
  ~ In "_id" (map fst fs') ->
  ~ In "forgot_password_otp" (map fst fs') ->
  ~ In "forgot_password_expiry" (map fst fs') ->
  Q us -> Q (update_first (has_id h) (setFields fs') us).2.
Hypothesis Q_set : forall h n t us,
  Q us ->
  Q (update_first (has_id h)
       (setFields [("forgot_password_otp", VString (NumberToString n));
                   ("forgot_password_expiry", VDate t)]) us).2.
Hypothesis Q_clear : forall h us,
  Q us ->
  Q (update_first (has_id h)
       (setFields [("forgot_password_otp", VString "");
                   ("forgot_password_expiry", VNull)]) us).2.
Hypothesis Q_new : forall newId fs' us,
  ~ In "_id" (map fst fs') ->
  ~ In "forgot_password_otp" (map fst fs') ->
  ~ In "forgot_password_expiry" (map fst fs') ->
  existsb (has_id newId) us = false ->
  Q us ->
  Q (us ++ [setFields fs' (setFields userDefaults {[ "_id" := VObjectId newId ]})]).

Ltac keeps_step :=
  first
    [ apply keeps_ret | apply keeps_throw | apply keeps_findOne_email
    | apply keeps_findById | apply keeps_sendEmail | apply keeps_hash
    | apply keeps_compare
    | apply keeps_bind; [ | intros ? ]
    | match goal with
      | |- keeps _ (if ?b then _ else _) => destruct b
      | |- keeps _ (match ?x with _ => _ end) => destruct x eqn:?
      end ].

Ltac other_keys Hc :=
  first
    [ exact (castFields_no_id _ _ Hc)
    | let Hin := fresh in
      intros Hin; apply (castFields_keys _ _ _ Hc) in Hin;
      try rewrite map_app, in_app_iff in Hin; cbn in Hin;
      repeat match type of Hin with
             | _ \/ _ => destruct Hin as [Hin|Hin]
             end;
      try apply updateData_of_keys in Hin; intuition discriminate ].

Ltac untouched :=
  apply keeps_updateById; intros ? ? ? Hc Hq;
  apply Q_frame; [other_keys Hc | other_keys Hc | other_keys Hc | exact Hq].

Lemma registerUser_keeps name email password env :
  keeps Q (registerUser bcrypt_hash verifyEmailTemplate FRONTEND_URL name email password env).
Proof.
  unfold registerUser. repeat keeps_step.
  apply keeps_create. intros fs' us Hc Hfresh Hq.
  apply Q_new; [other_keys Hc | other_keys Hc | other_keys Hc | exact Hfresh | exact Hq].
Qed.

Lemma loginUser_keeps email password env :
  keeps Q (loginUser bcrypt_compare accessTokenOf refreshTokenOf email password env).
Proof.
  unfold loginUser, generatedAccessToken, genertedRefreshToken.
  repeat keeps_step; untouched.
Qed.

Lemma verifyEmail_keeps code : keeps Q (verifyEmail code).
Proof. unfold verifyEmail. repeat keeps_step. untouched. Qed.

Lemma forgotPassword_keeps email env :
  keeps Q (forgotPassword forgotPasswordTemplate email env).
Proof.
  unfold forgotPassword. repeat keeps_step.
  apply keeps_updateById. intros h fs' us Hc Hq. unfold generatedOtp in Hc.
  apply forgot_fields_cast in Hc as (t & _ & ->); [|by eapply toISOString_nonempty].
  by apply Q_set.
Qed.

Lemma verifyForgotPasswordOtp_keeps email otp env :
  keeps Q (verifyForgotPasswordOtp email otp env).
Proof.
  unfold verifyForgotPasswordOtp. repeat keeps_step.
  apply keeps_updateById. intros h fs' us Hc Hq.
  rewrite clear_fields_cast in Hc. injection Hc as <-. by apply Q_clear.
Qed.

Lemma resetPassword_keeps email newPassword confirmPassword env :
  keeps Q (resetPassword bcrypt_hash email newPassword confirmPassword env).
Proof. unfold resetPassword. repeat keeps_step. untouched. Qed.

Lemma updateUserDetails_keeps userId updates env :
  keeps Q (updateUserDetails bcrypt_hash userId updates env).
Proof.
  intros w Hw. unfold updateUserDetails. cbv zeta. unfold mbind, Async_bind.
  destruct (truthy (get updates "password")).
  - destruct (get updates "password"); try exact Hw.
    cbn [hash mret Async_ret]. revert w Hw. untouched.
  - cbn [mret Async_ret]. revert w Hw. untouched.
Qed.

Lemma getUserById_keeps userId : keeps Q (getUserById userId).
Proof. unfold getUserById. repeat keeps_step. Qed.

Lemma exec_keeps (c : Call) (env : Env) (w : World) :
  Q (users w) ->
  Q (users (exec bcrypt_hash bcrypt_compare verifyEmailTemplate forgotPasswordTemplate
              accessTokenOf refreshTokenOf FRONTEND_URL c env w)).
Proof.
  destruct c; cbn [exec].
  - apply registerUser_keeps.
  - apply loginUser_keeps.
  - apply verifyEmail_keeps.
  - apply forgotPassword_keeps.
  - apply verifyForgotPasswordOtp_keeps.
  - apply resetPassword_keeps.
  - apply updateUserDetails_keeps.
  - apply getUserById_keeps.
Qed.

End Invariant.

(** The principle for a property of each document that only looks at
    the code and its expiry. *)
Section DocumentInvariant.

Variable bcrypt_hash : string -> string -> string.
Variable bcrypt_compare : string -> string -> bool.
Variable verifyEmailTemplate : JsValue -> string -> string.
Variable forgotPasswordTemplate : JsValue -> JsValue -> string.
Variable accessTokenOf : JsValue -> Env -> string.
Variable refreshTokenOf : JsValue -> Env -> string.
Variable FRONTEND_URL : string.

Variable P : gmap string JsValue -> Prop.

Hypothesis P_frame : forall d d',
  get d' "forgot_password_otp" = get d "forgot_password_otp" ->
  get d' "forgot_password_expiry" = get d "forgot_password_expiry" ->
  P d -> P d'.
Hypothesis P_new : forall d,
  get d "forgot_password_otp" = VNull -> get d "forgot_password_expiry" = VNull -> P d.
Hypothesis P_set : forall d n t,
  get d "forgot_password_otp" = VString (NumberToString n) ->
  get d "forgot_password_expiry" = VDate t -> P d.
Hypothesis P_clear : forall d,
  get d "forgot_password_otp" = VString "" -> get d "forgot_password_expiry" = VNull -> P d.

Lemma exec_keeps_documents (c : Call) (env : Env) (w : World) :
  Forall P (users w) ->
  Forall P
    (users (exec bcrypt_hash bcrypt_compare verifyEmailTemplate forgotPasswordTemplate
              accessTokenOf refreshTokenOf FRONTEND_URL c env w)).
Proof.
  apply exec_keeps.
  - intros h fs' us _ Ho Hx. apply update_first_Forall. intros d.
    apply P_frame; by apply setFields_get_ne.
  - intros h n t us. apply update_first_Forall. intros d _.
    apply (P_set _ n t); unfold get; cbn [setFields].
    + by rewrite lookup_insert_ne, lookup_insert_eq.
    + by rewrite lookup_insert_eq.
  - intros h us. apply update_first_Forall. intros d _.
    apply P_clear; unfold get; cbn [setFields].
    + by rewrite lookup_insert_ne, lookup_insert_eq.
    + by rewrite lookup_insert_eq.
  - intros newId fs' us _ Ho Hx _ Hus. apply Forall_app. split; [exact Hus|].
    constructor; [|constructor]. apply P_new; by rewrite setFields_get_ne.
Qed.

End DocumentInvariant.

(** C5. The forgot-password code and its expiry are both present or
    both cleared in every stored user: if that holds before a call of
    any of the eight operations of the service, it holds after it,
    whether the call returns or throws. [forgotPassword] writes both
    fields in its one update, [verifyForgotPasswordOtp] clears both in
    its one update, and the other operations write neither. *)
Theorem C5_otp_pair_invariant
  (bcrypt_hash : string -> string -> string) (bcrypt_compare : string -> string -> bool)
  (verifyEmailTemplate : JsValue -> string -> string)
  (forgotPasswordTemplate : JsValue -> JsValue -> string)
  (accessTokenOf refreshTokenOf : JsValue -> Env -> string) (FRONTEND_URL : string)
  (c : Call) (env : Env) (w : World) :
  Forall otp_pair_ok (users w) ->
  Forall otp_pair_ok
    (users (exec bcrypt_hash bcrypt_compare verifyEmailTemplate forgotPasswordTemplate
              accessTokenOf refreshTokenOf FRONTEND_URL c env w)).
Proof.
  apply exec_keeps_documents; unfold otp_pair_ok.
  - intros d d' -> ->. auto.
  - intros d -> ->. reflexivity.
  - intros d n t -> ->. apply truthy_NumberToString.
  - intros d -> ->. reflexivity.
Qed.

(** The stored expiry is a Date, null or missing: the schema admits
    nothing else, and every operation keeps it so. *)
Lemma expiry_typed_invariant
  (bcrypt_hash : string -> string -> string) (bcrypt_compare : string -> string -> bool)
  (verifyEmailTemplate : JsValue -> string -> string)
  (forgotPasswordTemplate : JsValue -> JsValue -> string)
  (accessTokenOf refreshTokenOf : JsValue -> Env -> string) (FRONTEND_URL : string)
  (c : Call) (env : Env) (w : World) :
  Forall expiry_typed (users w) ->
  Forall expiry_typed
    (users (exec bcrypt_hash bcrypt_compare verifyEmailTemplate forgotPasswordTemplate
              accessTokenOf refreshTokenOf FRONTEND_URL c env w)).
Proof.
  apply exec_keeps_documents; unfold expiry_typed.
  - intros d d' _ ->. auto.
  - intros d _ ->. exact I.
  - intros d n t _ ->. exact I.
  - intros d _ ->. exact I.
Qed.

(** Identifiers: whether the identifiers of a collection are distinct
    depends on the identifiers alone. *)
Lemma existsb_has_id_ext (h : string) us us' :
  Forall2 (fun d d' : gmap string JsValue => d' !! "_id" = d !! "_id") us us' ->
  existsb (has_id h) us' = existsb (has_id h) us.
Proof.
  induction 1 as [|d d' l l' Hd _ IH]; [reflexivity|].
  cbn [existsb]. unfold has_id at 1 3. by rewrite Hd, IH.
Qed.

Lemma ids_distinct_ext us us' :
  Forall2 (fun d d' : gmap string JsValue => d' !! "_id" = d !! "_id") us us' ->
  ids_distinct us' = ids_distinct us.
Proof.
  induction 1 as [|d d' l l' Hd Hl IH]; [reflexivity|].
  cbn [ids_distinct]. rewrite Hd, IH.
  destruct (d !! "_id") as [[| | | | | |h]|]; try reflexivity.
  by rewrite (existsb_has_id_ext h _ _ Hl).
Qed.

Lemma ids_distinct_update (p : gmap string JsValue -> bool) fs us :
  ~ In "_id" (map fst fs) ->
  ids_distinct (update_first p (setFields fs) us).2 = ids_distinct us.
Proof.
  intros Hid. apply ids_distinct_ext.
  eapply Forall2_impl; [apply update_first_Forall2|].
  intros d d' [-> | ->]; [reflexivity | by apply setFields_lookup_ne].
Qed.

Lemma ids_distinct_snoc (newId : string) (d : gmap string JsValue) us :
  d !! "_id" = Some (VObjectId newId) ->
  existsb (has_id newId) us = false ->
  ids_distinct us = true -> ids_distinct (us ++ [d]) = true.
Proof.
  intros Hd. induction us as [|a r IH]; cbn [app ids_distinct existsb].
  - intros _ _. by rewrite Hd.
  - intros [Ha Hr]%orb_false_elim.
    destruct (a !! "_id") as [[| | | | | |h]|] eqn:Ea; try discriminate.
    intros [Hn Hi]%andb_prop. rewrite (IH Hr Hi), andb_true_r.
    apply negb_true_iff in Hn. rewrite existsb_app, Hn. cbn [existsb orb].
    rewrite orb_false_r. apply negb_true_iff. unfold has_id.
    apply bool_decide_eq_false_2. rewrite Hd. intros [= ->].
    unfold has_id in Ha. apply bool_decide_eq_false in Ha. by apply Ha.
Qed.

(** Every operation keeps the identifiers distinct. *)
Lemma ids_distinct_invariant
  (bcrypt_hash : string -> string -> string) (bcrypt_compare : string -> string -> bool)
  (verifyEmailTemplate : JsValue -> string -> string)
  (forgotPasswordTemplate : JsValue -> JsValue -> string)
  (accessTokenOf refreshTokenOf : JsValue -> Env -> string) (FRONTEND_URL : string)
  (c : Call) (env : Env) (w : World) :
  ids_distinct (users w) = true ->
  ids_distinct
    (users (exec bcrypt_hash bcrypt_compare verifyEmailTemplate forgotPasswordTemplate
              accessTokenOf refreshTokenOf FRONTEND_URL c env w)) = true.
Proof.
  apply (exec_keeps _ _ _ _ _ _ _ (fun us => ids_distinct us = true)).
  - intros h fs' us Hid _ _. by rewrite ids_distinct_update.
  - intros h n t us. rewrite ids_distinct_update; [done|]. cbn. intuition discriminate.
  - intros h us. rewrite ids_distinct_update; [done|]. cbn. intuition discriminate.
  - intros newId fs' us Hid _ _ Hfresh Hus. apply (ids_distinct_snoc newId); try done.
    by rewrite setFields_lookup_ne.
Qed.

(** ** Registration *)

Section Register.

Variable bcrypt_hash : string -> string -> string.
Variable verifyEmailTemplate : JsValue -> string -> string.
Variable FRONTEND_URL : string.

(** Whatever [registerUser] returns carries the hash of the password
    under the key password, and a refresh-token field. *)
Lemma registerUser_returns_hash name email password env w d w' :
  registerUser bcrypt_hash verifyEmailTemplate FRONTEND_URL name email password env w
    = (Return d, w') ->
  (exists p, password = VString p /\
     d !! "password" = Some (VString (bcrypt_hash p (salt env)))) /\
  d !! "refresh_token" = Some VNull.
Proof.
  unfold registerUser.
  destruct (negb (truthy name) || negb (truthy email) || negb (truthy password))%bool;
    [discriminate|].
  unfold mbind, Async_bind.
  destruct (findOne_email email w) as [[[u|]|e] w1]; try discriminate.
  destruct password as [| | | |p| |]; try discriminate.
  cbn [hash mret Async_ret]. unfold create. cbn [castFields].
  replace (assoc "name" userSchema) with (Some SString) by reflexivity.
  replace (assoc "email" userSchema) with (Some SLowerString) by reflexivity.
  replace (assoc "password" userSchema) with (Some SString) by reflexivity.
  destruct (cast SString name) as [n'|]; [|discriminate].
  destruct (cast SLowerString email) as [e'|]; [|discriminate].
  cbn [cast castString]. unfold mbind, Async_bind, getUsers.
  destruct (existsb (has_id (objectId env)) (users w1)); [discriminate|].
  destruct (existsb (has_email _) (users w1)); [discriminate|].
  cbn [setFields putUsers mret Async_ret]. intros [= <- _]. split.
  - exists p. split; [reflexivity|]. apply lookup_insert_eq.
  - rewrite !lookup_insert_ne by done. reflexivity.
Qed.

(** C1, at a failing input. Registering Alice on the empty world
    succeeds, and what the caller gets back holds the password hash
    under the key password and a refresh-token field. *)
Theorem C1_register_exposes_password_hash :
  match registerUser Sample.hash Sample.verifyTemplate Sample.frontend
          (VString "Alice") (VString "alice@x.com") (VString "secret123")
          Sample.env0 Sample.empty with
  | (Return d, _) =>
      d !! "password" = Some (VString "$2a$10$peppersecret123") /\
      d !! "refresh_token" = Some VNull
  | (Throw _, _) => False
  end.
Proof. vm_compute. split; reflexivity. Qed.

(** C6. When the email of a registration (as the store normalises it)
    already belongs to a stored user, [registerUser] throws
    'Email already registered' and leaves the world as it was: nothing
    is stored and nothing is sent, so the collection holds the records
    it held for that email, one if it held one. *)
Theorem C6_register_existing_email_conflict name email password env w e u :
  truthy name = true -> truthy email = true -> truthy password = true ->
  cast SLowerString email = Some e ->
  first_match (has_email e) (users w) = Some u ->
  registerUser bcrypt_hash verifyEmailTemplate FRONTEND_URL name email password env w
    = (Throw (AppErr (createError "Email already registered" 400)), w).
Proof.
  intros Hn He Hp Hc Hu. unfold registerUser. rewrite Hn, He, Hp. cbn [negb orb].
  unfold mbind, Async_bind. rewrite (findOne_email_run _ _ _ Hc), Hu. reflexivity.
Qed.

End Register.

(** ** Reading a user *)

(** C7. What [getUserById] returns has neither a password field nor a
    refresh-token field; for the identifier of a stored user it returns
    that user without the two fields, and for an identifier that no
    stored user has it throws 'User not found' with status 404. *)
Theorem C7_getUserById_redacts (userId : string) (w : World) :
  (forall d w', getUserById userId w = (Return d, w') ->
     d !! "password" = None /\ d !! "refresh_token" = None) /\
  (forall h u, castId (VString userId) = inr (Some h) ->
     first_match (has_id h) (users w) = Some u ->
     getUserById userId w = (Return (select_out u), w)) /\
  (forall h, castId (VString userId) = inr (Some h) ->
     first_match (has_id h) (users w) = None ->
     getUserById userId w = (Throw (AppErr (createError "User not found" 404)), w)).
Proof.
  split; [|split].
  - intros d w'. unfold getUserById, mbind, Async_bind.
    destruct (findById (VString userId) w) as [[[u|]|e] w1]; intros H; try discriminate.
    injection H as <- <-. unfold select_out. split.
    + rewrite lookup_delete_ne by done. apply lookup_delete_eq.
    + apply lookup_delete_eq.
  - intros h u Hc Hu. unfold getUserById, mbind, Async_bind.
    by rewrite (findById_run _ h), Hu.
  - intros h Hc Hn. unfold getUserById, mbind, Async_bind.
    by rewrite (findById_run _ h), Hn.
Qed.

(** ** Verifying an email *)

Lemma castId_truthy (v : JsValue) (h : string) :
  castId v = inr (Some h) -> truthy v = true.
Proof.
  destruct v as [| | | |s| |]; try discriminate; [|reflexivity].
  cbn [castId truthy]. destruct s; [discriminate | reflexivity].
Qed.

Lemma verify_email_fields_cast :
  castFields [("verify_email", VBool true)] = inr [("verify_email", VBool true)].
Proof. reflexivity. Qed.

Lemma has_id_insert (h k : string) (v : JsValue) (d : gmap string JsValue) :
  k <> "_id" -> has_id h (<[k := v]> d) = has_id h d.
Proof. intros Hk. unfold has_id. by rewrite lookup_insert_ne. Qed.

(** C9. For the identifier of a stored user, [verifyEmail] returns true
    and sets the verified flag of that user; called again on the world
    it left, it returns true again and changes nothing; and on a user
    whose flag is already set it changes nothing in the first place. *)
Theorem C9_verifyEmail_idempotent (code : JsValue) (h : string)
  (u : gmap string JsValue) (w : World) :
  castId code = inr (Some h) ->
  first_match (has_id h) (users w) = Some u ->
  exists w1,
    verifyEmail code w = (Return true, w1) /\
    first_match (has_id h) (users w1) = Some (<["verify_email" := VBool true]> u) /\
    verifyEmail code w1 = (Return true, w1) /\
    (u !! "verify_email" = Some (VBool true) -> w1 = w).
Proof.
  intros Hc Hu.
  destruct (first_match_split _ _ _ Hu) as (l1 & l2 & Hus & Hid & Hl1).
  set (u1 := <["verify_email" := VBool true]> u).
  assert (Hid1 : has_id h u1 = true) by (unfold u1; by rewrite has_id_insert).
  assert (Hrun : forall d w0, users w0 = (l1 ++ d :: l2)%list -> has_id h d = true ->
            verifyEmail code w0 =
              (Return true,
               {| users := (l1 ++ <["verify_email" := VBool true]> d :: l2)%list;
                  outbox := outbox w0 |})).
  { intros d w0 Hw0 Hd. unfold verifyEmail. rewrite (castId_truthy _ _ Hc). cbn [negb].
    unfold mbind, Async_bind. rewrite (findById_run _ _ _ Hc), Hw0.
    rewrite (first_match_app _ _ _ _ Hl1 Hd).
    rewrite (updateById_run _ _ _ _ _ Hc verify_email_fields_cast), Hw0.
    rewrite (update_first_app _ _ _ _ _ Hl1 Hd). reflexivity. }
  exists {| users := (l1 ++ u1 :: l2)%list; outbox := outbox w |}.
  split; [by apply Hrun|]. split; [by apply first_match_app|]. split.
  - rewrite (Hrun u1) by done. unfold u1. by rewrite insert_insert_eq.
  - intros Hv. unfold u1. rewrite (insert_id _ _ _ Hv), <- Hus. apply world_eta.
Qed.

(** ** Updating the profile *)

Lemma Forall2_refl_on {A : Type} (R : A -> A -> Prop) (l : list A) :
  (forall x, R x x) -> Forall2 R l l.
Proof. intros HR. induction l; constructor; auto. Qed.

Lemma updateData_of_truthy (updates : gmap string JsValue) (k : string) :
  In k (map fst (updateData_of (get updates "name") (get updates "email")
                   (get updates "mobile"))) ->
  In k writable /\ truthy (get updates k) = true.
Proof.
  unfold updateData_of, writable.
  destruct (truthy (get updates "name")) eqn:E1,
           (truthy (get updates "email")) eqn:E2,
           (truthy (get updates "mobile")) eqn:E3;
    cbn; intros H; repeat destruct H as [<- | H]; try contradiction; split; auto; tauto.
Qed.

Lemma get_filter_truthy (updates : gmap string JsValue) (k : string) :
  get (filter (fun kv => truthy kv.2 = true) updates) k =
    if truthy (get updates k) then get updates k else VUndefined.
Proof.
  unfold get. destruct (updates !! k) as [v|] eqn:E; cbn [from_option id].
  - destruct (truthy v) eqn:Ev.
    + by rewrite (proj2 (map_lookup_filter_Some _ _ _ _) (conj E Ev)).
    + replace (filter _ updates !! k) with (@None JsValue); [done|].
      symmetry. apply map_lookup_filter_None. right. intros x Hx. cbn. congruence.
  - replace (filter _ updates !! k) with (@None JsValue); [done|].
    symmetry. apply map_lookup_filter_None. by left.
Qed.

Section UpdateDetails.

Variable bcrypt_hash : string -> string -> string.

(** C10. [updateUserDetails] writes no field but name, email, mobile
    and password, and none of these when the payload's value for it is
    falsy: every other field of every stored user, and the outbox, are
    as before. A falsy value is skipped, not rejected: the call does
    what it does on the payload without its falsy entries. *)
Theorem C10_updateUserDetails_frame (userId : string) (updates : gmap string JsValue)
  (env : Env) (w : World) :
  outbox (updateUserDetails bcrypt_hash userId updates env w).2 = outbox w /\
  Forall2
    (fun d d' => forall k,
       ~ In k writable \/ truthy (get updates k) = false -> d' !! k = d !! k)
    (users w) (users (updateUserDetails bcrypt_hash userId updates env w).2) /\
  updateUserDetails bcrypt_hash userId updates env w =
    updateUserDetails bcrypt_hash userId
      (filter (fun kv => truthy kv.2 = true) updates) env w.
Proof.
  assert (Hframe : forall fs,
    (forall k, In k (map fst fs) -> In k writable /\ truthy (get updates k) = true) ->
    outbox (updateById (VString userId) fs w).2 = outbox w /\
    Forall2
      (fun d d' => forall k,
         ~ In k writable \/ truthy (get updates k) = false -> d' !! k = d !! k)
      (users w) (users (updateById (VString userId) fs w).2)).
  { intros fs Hfs. destruct (updateById_world (VString userId) fs w) as [Ho Hu].
    split; [exact Ho|]. destruct Hu as [-> | (fs' & Hc & H2)].
    - by apply Forall2_refl_on.
    - eapply Forall2_impl; [exact H2|]. intros d d' [-> | ->] k Hk; [reflexivity|].
      apply setFields_lookup_ne. intros Hin.
      apply (castFields_keys _ _ _ Hc), Hfs in Hin as [Hw Ht].
      destruct Hk as [Hk|Hk]; [tauto | congruence]. }
  apply and_assoc. split.
  - unfold updateUserDetails. cbv zeta. unfold mbind, Async_bind.
    destruct (truthy (get updates "password")) eqn:Ep.
    + destruct (get updates "password") eqn:Eg;
        try (split; [reflexivity | by apply Forall2_refl_on]).
      cbn [hash mret Async_ret]. apply Hframe. intros k. rewrite map_app, in_app_iff.
      intros [H|H]; [by apply updateData_of_truthy|].
      cbn in H. destruct H as [<-|[]]. split; [unfold writable; cbn; tauto|].
      by rewrite Eg.
    + cbn [mret Async_ret]. apply Hframe, updateData_of_truthy.
  - unfold updateUserDetails. cbv zeta. rewrite !get_filter_truthy.
    assert (Hud : forall a b c,
      updateData_of (if truthy a then a else VUndefined) (if truthy b then b else VUndefined)
        (if truthy c then c else VUndefined) = updateData_of a b c).
    { intros a b c. unfold updateData_of.
      by destruct (truthy a) eqn:Ea, (truthy b) eqn:Eb, (truthy c) eqn:Ec;
        rewrite ?Ea, ?Eb, ?Ec. }
    rewrite Hud.
    destruct (truthy (get updates "password")) eqn:Ep; rewrite ?Ep; reflexivity.
Qed.

End UpdateDetails.

(** ** Verifying the one-time code *)

(** The comparison that guards the expiry branch: against the text of a
    date, a Date or null is never smaller. *)
Lemma lt_date_text (e t : Z) (s : string) :
  toISOString t = Some s -> lt (VDate e) (VString s) = false.
Proof.
  intros H. unfold lt. cbn [ToPrimitive ToNumber]. by rewrite (toISOString_NaN _ _ H).
Qed.

Lemma lt_null_text (t : Z) (s : string) :
  toISOString t = Some s -> lt VNull (VString s) = false.
Proof.
  intros H. unfold lt. cbn [ToPrimitive ToNumber]. by rewrite (toISOString_NaN _ _ H).
Qed.


Lemma has_id_get (h : string) (d : gmap string JsValue) :
  has_id h d = true -> get d "_id" = VObjectId h.
Proof. unfold has_id, get. intros H. apply bool_decide_eq_true in H. by rewrite H. Qed.

Lemma has_email_insert (e : JsValue) (k : string) (v : JsValue) (d : gmap string JsValue) :
  k <> "email" -> has_email e (<[k := v]> d) = has_email e d.
Proof. intros Hk. unfold has_email. by rewrite lookup_insert_ne. Qed.

(** A mismatch is reported, and nothing written, whenever the stored
    expiry is a Date or null. *)
Lemma verify_mismatch (email otp e : JsValue) (env : Env) (w : World)
  (u : gmap string JsValue) :
  truthy email = true -> truthy otp = true ->
  cast SLowerString email = Some e ->
  first_match (has_email e) (users w) = Some u ->
  Z.abs (now env) <= maxTime ->
  (get u "forgot_password_expiry" = VNull \/
   exists t, get u "forgot_password_expiry" = VDate t) ->
  strict_eq otp (get u "forgot_password_otp") = false ->
  verifyForgotPasswordOtp email otp env w
    = (Throw (AppErr (createError "Invalid OTP" 400)), w).
Proof.
  intros He Ho Hc Hu Hnow Hexp Hneq. unfold verifyForgotPasswordOtp.
  rewrite He, Ho. cbn [negb orb]. unfold mbind, Async_bind.
  rewrite (findOne_email_run _ _ _ Hc), Hu.
  destruct (toISOString_valid _ Hnow) as [s Hs]. rewrite Hs.
  assert (Hlt : lt (get u "forgot_password_expiry") (VString s) = false).
  { destruct Hexp as [-> | [t ->]]; [by apply (lt_null_text (now env)) | by apply (lt_date_text _ (now env))]. }
  rewrite Hlt. unfold strict_neq. by rewrite Hneq.
Qed.

(** A match is accepted, and both fields cleared, whenever the stored
    expiry is a Date or null: the clock plays no part. *)
Lemma verify_match (email otp e : JsValue) (env : Env) (w : World)
  (l1 l2 : list (gmap string JsValue)) (u : gmap string JsValue) (h : string) :
  truthy email = true -> truthy otp = true ->
  cast SLowerString email = Some e ->
  users w = (l1 ++ u :: l2)%list ->
  Forall (fun x => has_email e x = false) l1 -> has_email e u = true ->
  Forall (fun x => has_id h x = false) l1 -> has_id h u = true ->
  Z.abs (now env) <= maxTime ->
  (get u "forgot_password_expiry" = VNull \/
   exists t, get u "forgot_password_expiry" = VDate t) ->
  strict_eq otp (get u "forgot_password_otp") = true ->
  verifyForgotPasswordOtp email otp env w
    = (Return true,
       {| users := (l1 ++ <["forgot_password_expiry" := VNull]>
                            (<["forgot_password_otp" := VString ""]> u) :: l2)%list;
          outbox := outbox w |}).
Proof.
  intros He Ho Hc Hw Hl1e Hue Hl1i Hui Hnow Hexp Heq. unfold verifyForgotPasswordOtp.
  rewrite He, Ho. cbn [negb orb]. unfold mbind, Async_bind.
  rewrite (findOne_email_run _ _ _ Hc), Hw, (first_match_app _ _ _ _ Hl1e Hue).
  destruct (toISOString_valid _ Hnow) as [s Hs]. rewrite Hs.
  assert (Hlt : lt (get u "forgot_password_expiry") (VString s) = false).
  { destruct Hexp as [-> | [t ->]]; [by apply (lt_null_text (now env)) | by apply (lt_date_text _ (now env))]. }
  rewrite Hlt. unfold strict_neq. rewrite Heq. cbn [negb].
  rewrite (has_id_get _ _ Hui).
  rewrite (updateById_run (VObjectId h) h _ _ _ eq_refl clear_fields_cast), Hw.
  rewrite (update_first_app _ _ _ _ _ Hl1i Hui). reflexivity.
Qed.

Lemma strict_eq_string_refl (s : string) : strict_eq (VString s) (VString s) = true.
Proof. cbn. apply String.eqb_refl. Qed.

Lemma generatedOtp_range (env : Env) :
  0 <= random_num env < random_den env ->
  exists n, generatedOtp env = VNumber (Num n) /\ 100000 <= n <= 999999.
Proof.
  intros H. unfold generatedOtp. eexists. split; [reflexivity|]. split.
  - apply Z.div_le_lower_bound; lia.
  - apply Z.lt_succ_r. apply Z.div_lt_upper_bound; lia.
Qed.

Lemma six_digit_text (n : Z) :
  100000 <= n <= 999999 ->
  String.length (NumberToString (Num n)) = 6%nat /\
  forallb is_digit (list_ascii_of_string (NumberToString (Num n))) = true /\
  StringToNumber (NumberToString (Num n)) = Num n.
Proof.
  intros H. rewrite (NumberToString_six n H). split; [reflexivity|]. split.
  - cbn [list_ascii_of_string forallb]. by rewrite !digit_is_digit.
  - unfold StringToNumber. cbn [trim_left]. rewrite digit_not_space.
    erewrite trim_right_id; [|reflexivity|apply digit_not_space].
    assert (Hm : forall x, Ascii.eqb (digit x) "-" = false).
    { intros x. unfold digit. destruct x as [|p|p]; [reflexivity| |reflexivity].
      do 4 (try destruct p as [p|p|]); reflexivity. }
    assert (Hp : forall x, Ascii.eqb (digit x) "+" = false).
    { intros x. unfold digit. destruct x as [|p|p]; [reflexivity| |reflexivity].
      do 4 (try destruct p as [p|p|]); reflexivity. }
    rewrite Hm, Hp.
    repeat (cbn [digits_value]; rewrite digit_val_digit_mod).
    cbn [digits_value]. f_equal. Z.div_mod_to_equations; lia.
Qed.

Section ForgotPassword.

Variable forgotPasswordTemplate : JsValue -> JsValue -> string.

(** One run of [forgotPassword] for a user that the email finds and the
    identifier names. *)
Lemma forgotPassword_run (email e : JsValue) (env : Env) (w : World)
  (u : gmap string JsValue) :
  truthy email = true ->
  cast SLowerString email = Some e ->
  ids_distinct (users w) = true ->
  first_match (has_email e) (users w) = Some u ->
  0 <= random_num env < random_den env ->
  -62167219200000 <= now env + 3600000 < 253402300800000 ->
  exists n h l1 l2,
    100000 <= n <= 999999 /\
    users w = (l1 ++ u :: l2)%list /\
    Forall (fun x => has_email e x = false) l1 /\
    Forall (fun x => has_id h x = false) l1 /\
    has_email e u = true /\ has_id h u = true /\
    forgotPassword forgotPasswordTemplate email env w =
      (Return true,
       {| users := (l1 ++ <["forgot_password_expiry" := VDate (now env + 3600000)]>
                            (<["forgot_password_otp" := VString (NumberToString (Num n))]> u)
                          :: l2)%list;
          outbox := (outbox w ++
                     [{| sendTo := email;
                         subject := "Forgot password from QuickPick";
                         html := forgotPasswordTemplate (get u "name") (VNumber (Num n)) |}])%list |}).
Proof.
  intros He Hc Hids Hue Hr Ht.
  destruct (ids_distinct_found _ _ _ Hids Hue) as [h Hui].
  destruct (first_match_same _ _ _ _ Hue Hui) as (l1 & l2 & Hw & Hpe & Hpi & Hl1e & Hl1i).
  destruct (generatedOtp_range env Hr) as (n & Hn & Hrange).
  exists n, h, l1, l2. repeat (split; [assumption|]).
  unfold forgotPassword. rewrite He. cbn [negb]. unfold mbind, Async_bind.
  rewrite (findOne_email_run _ _ _ Hc), Hue. cbv zeta. rewrite Hn.
  change (now env + 60 * 60 * 1000) with (now env + 3600000).
  destruct (toISOString_valid (now env + 3600000)) as [s Hs]; [unfold maxTime; lia|].
  rewrite Hs. rewrite (has_id_get _ _ Hpi).
  assert (Hcast : castFields [("forgot_password_otp", VNumber (Num n));
                              ("forgot_password_expiry", VString s)]
                  = inr [("forgot_password_otp", VString (NumberToString (Num n)));
                         ("forgot_password_expiry", VDate (now env + 3600000))]).
  { cbn [castFields].
    replace (assoc "forgot_password_otp" userSchema) with (Some SString) by reflexivity.
    replace (assoc "forgot_password_expiry" userSchema) with (Some SDate) by reflexivity.
    cbn [cast castString castDate].
    destruct (String.eqb_spec s ""); [by destruct (toISOString_nonempty _ _ Hs)|].
    by rewrite (parseISO_toISOString _ _ Ht Hs). }
  rewrite (updateById_run (VObjectId h) h _ _ _ eq_refl Hcast), Hw.
  rewrite (update_first_app _ _ _ _ _ Hl1i Hpi). reflexivity.
Qed.

(** C8. For a known email, [forgotPassword] returns true and stores,
    for the user the email finds, a code that is the decimal text of a
    number between 100000 and 999999 -- six characters, all digits --
    and an expiry that is the Date one hour (3600000 ms) after the
    clock. The stored users have distinct identifiers, the draw of
    [Math.random()] lies in [0, 1), and the clock in the years that
    [toISOString] writes with four digits. *)
Theorem C8_forgotPassword_stores_code (email e : JsValue) (env : Env) (w : World)
  (u : gmap string JsValue) :
  truthy email = true ->
  cast SLowerString email = Some e ->
  ids_distinct (users w) = true ->
  first_match (has_email e) (users w) = Some u ->
  0 <= random_num env < random_den env ->
  -62167219200000 <= now env + 3600000 < 253402300800000 ->
  exists n w' u',
    forgotPassword forgotPasswordTemplate email env w = (Return true, w') /\
    first_match (has_email e) (users w') = Some u' /\
    100000 <= n <= 999999 /\
    get u' "forgot_password_otp" = VString (NumberToString (Num n)) /\
    String.length (NumberToString (Num n)) = 6%nat /\
    forallb is_digit (list_ascii_of_string (NumberToString (Num n))) = true /\
    StringToNumber (NumberToString (Num n)) = Num n /\
    get u' "forgot_password_expiry" = VDate (now env + 3600000).
Proof.
  intros He Hc Hids Hue Hr Ht.
  destruct (forgotPassword_run _ _ _ _ _ He Hc Hids Hue Hr Ht)
    as (n & h & l1 & l2 & Hn & Hw & Hl1e & Hl1i & Hpe & Hpi & Hrun).
  destruct (six_digit_text n Hn) as (Hlen & Hdig & Hval).
  eexists n, _, _. split; [exact Hrun|]. cbn [users].
  split; [apply first_match_app; [exact Hl1e | by rewrite !has_email_insert]|].
  repeat (split; [assumption|]). split.
  - unfold get. by rewrite lookup_insert_ne, lookup_insert_eq.
  - unfold get. by rewrite lookup_insert_eq.
Qed.

(** C2. After [forgotPassword] has stored a code and its expiry for a
    user, [verifyForgotPasswordOtp] with that code, called before the
    expiry, returns true and clears both fields (the code to the empty
    string, the expiry to null); a second call with the same code then
    throws 'Invalid OTP' and changes nothing. The stored users have
    distinct identifiers, and the clocks are valid time values. *)
Theorem C2_otp_round_trip (email e : JsValue) (env0 env1 env2 : Env) (w : World)
  (u : gmap string JsValue) :
  truthy email = true ->
  cast SLowerString email = Some e ->
  ids_distinct (users w) = true ->
  first_match (has_email e) (users w) = Some u ->
  0 <= random_num env0 < random_den env0 ->
  -62167219200000 <= now env0 + 3600000 < 253402300800000 ->
  Z.abs (now env1) <= maxTime -> now env1 <= now env0 + 3600000 ->
  Z.abs (now env2) <= maxTime ->
  exists n w0 w1 u0 u1,
    forgotPassword forgotPasswordTemplate email env0 w = (Return true, w0) /\
    100000 <= n <= 999999 /\
    first_match (has_email e) (users w0) = Some u0 /\
    get u0 "forgot_password_otp" = VString (NumberToString (Num n)) /\
    get u0 "forgot_password_expiry" = VDate (now env0 + 3600000) /\
    verifyForgotPasswordOtp email (VString (NumberToString (Num n))) env1 w0
      = (Return true, w1) /\
    first_match (has_email e) (users w1) = Some u1 /\
    get u1 "forgot_password_otp" = VString "" /\
    get u1 "forgot_password_expiry" = VNull /\
    verifyForgotPasswordOtp email (VString (NumberToString (Num n))) env2 w1
      = (Throw (AppErr (createError "Invalid OTP" 400)), w1).
Proof.
  intros He Hc Hids Hue Hr Ht Hn1 _ Hn2.
  destruct (forgotPassword_run _ _ _ _ _ He Hc Hids Hue Hr Ht)
    as (n & h & l1 & l2 & Hn & Hw & Hl1e & Hl1i & Hpe & Hpi & Hrun).
  set (u0 := <["forgot_password_expiry" := VDate (now env0 + 3600000)]>
               (<["forgot_password_otp" := VString (NumberToString (Num n))]> u)) in *.
  set (u1 := <["forgot_password_expiry" := VNull]> (<["forgot_password_otp" := VString ""]> u0)).
  assert (Hotp0 : get u0 "forgot_password_otp" = VString (NumberToString (Num n))).
  { unfold get, u0. by rewrite lookup_insert_ne, lookup_insert_eq. }
  assert (Hexp0 : get u0 "forgot_password_expiry" = VDate (now env0 + 3600000)).
  { unfold get, u0. by rewrite lookup_insert_eq. }
  assert (Hpe0 : has_email e u0 = true) by (unfold u0; by rewrite !has_email_insert).
  assert (Hpi0 : has_id h u0 = true) by (unfold u0; by rewrite !has_id_insert).
  assert (Hpe1 : has_email e u1 = true) by (unfold u1; by rewrite !has_email_insert).
  assert (Htr : truthy (VString (NumberToString (Num n))) = true)
    by apply truthy_NumberToString.
  eexists n, _, _, u0, u1. split; [exact Hrun|]. cbn [users].
  split; [exact Hn|]. split; [by apply first_match_app|]. split; [exact Hotp0|]. split; [exact Hexp0|].
  split.
  { apply (verify_match _ _ e _ _ l1 l2 u0 h); try done.
    - right. eauto.
    - rewrite Hotp0. apply strict_eq_string_refl. }
  cbn [users outbox].
  split; [by apply first_match_app|].
  split; [unfold get, u1; by rewrite lookup_insert_ne, lookup_insert_eq|].
  split; [unfold get, u1; by rewrite lookup_insert_eq|].
  apply (verify_mismatch _ _ e _ _ u1); try done.
  - cbn [users]. by apply first_match_app.
  - left. unfold get, u1. by rewrite lookup_insert_eq.
  - replace (get u1 "forgot_password_otp") with (VString "")
      by (unfold get, u1; by rewrite lookup_insert_ne, lookup_insert_eq).
    cbn [strict_eq]. destruct (String.eqb_spec (NumberToString (Num n)) ""); [|done].
    by destruct (NumberToString_nonempty (Num n)).
Qed.

End ForgotPassword.
(** C4. For a user found by the email whose stored expiry is a Date not
    yet reached, [verifyForgotPasswordOtp] with a code that is not
    strictly equal to the stored one throws 'Invalid OTP' and leaves the
    world, the stored code and expiry included, as it was. *)
Theorem C4_wrong_otp_rejected (email otp e : JsValue) (env : Env) (w : World)
  (u : gmap string JsValue) (expiry : Z) :
  truthy email = true -> truthy otp = true ->
  cast SLowerString email = Some e ->
  first_match (has_email e) (users w) = Some u ->
  Z.abs (now env) <= maxTime ->
  get u "forgot_password_expiry" = VDate expiry ->
  now env <= expiry ->
  strict_eq otp (get u "forgot_password_otp") = false ->
  verifyForgotPasswordOtp email otp env w
    = (Throw (AppErr (createError "Invalid OTP" 400)), w).
Proof.
  intros He Ho Hc Hu Hnow Hexp _ Hneq.
  apply (verify_mismatch _ _ e _ _ u); eauto.
Qed.

(** ** The expiry branch *)

(** In a world whose stored expiries are of the schema's type,
    [verifyForgotPasswordOtp] never reports an expired code, whatever
    the clock says. *)
Lemma verify_never_reports_expiry (email otp : JsValue) (env : Env) (w : World) :
  Forall expiry_typed (users w) ->
  (verifyForgotPasswordOtp email otp env w).1
    <> Throw (AppErr (createError "OTP has expired" 400)).
Proof.
  intros Hw. unfold verifyForgotPasswordOtp.
  destruct (negb (truthy email) || negb (truthy otp))%bool; [discriminate|].
  unfold mbind, Async_bind.
  destruct (findOne_email email w) as [[[u|]|e] w1] eqn:Ef; try discriminate.
  - assert (Hu : expiry_typed u).
    { unfold findOne_email in Ef. destruct (cast SLowerString email); [|discriminate].
      injection Ef as Ef _. apply first_match_split in Ef as (l1 & l2 & Hus & _).
      rewrite Hus in Hw. apply Forall_app in Hw as [_ Hw]. by apply Forall_cons in Hw as [? _]. }
    destruct (toISOString (now env)) as [s|] eqn:Es; [|discriminate].
    assert (Hlt : lt (get u "forgot_password_expiry") (VString s) = false).
    { unfold expiry_typed in Hu.
      destruct (get u "forgot_password_expiry") eqn:Eg; try contradiction.
      - unfold lt. cbn [ToPrimitive ToNumber]. reflexivity.
      - by apply (lt_null_text (now env)).
      - by apply (lt_date_text _ (now env)). }
    rewrite Hlt. destruct (strict_neq otp (get u "forgot_password_otp")); [discriminate|].
    unfold updateById. rewrite clear_fields_cast.
    destruct (castId (get u "_id")) as [e|[h|]] eqn:Ei.
    + destruct (get u "_id") as [| | | |x| |]; cbn in Ei; try discriminate;
        try (injection Ei as <-; discriminate).
      destruct (is_objectid_text (to_lower x)); [discriminate|].
      injection Ei as <-. discriminate.
    + unfold mbind, Async_bind, getUsers.
      by destruct (update_first _ _ (users w1)).
    + discriminate.
  - unfold findOne_email in Ef. destruct (cast SLowerString email); [discriminate|].
    injection Ef as <- _. discriminate.
Qed.

(** Remark. The verdict rests on the type of the expiry path. In a
    collection that kept the expiry as the text that was written, an
    expiry cleared to the empty string would compare below every
    rendering of the clock, and a verification after a successful one
    would report 'OTP has expired' instead of 'Invalid OTP'. *)
Lemma verify_cleared_text_reports_expiry (email otp e : JsValue) (env : Env) (w : World)
  (u : gmap string JsValue) :
  truthy email = true -> truthy otp = true ->
  cast SLowerString email = Some e ->
  first_match (has_email e) (users w) = Some u ->
  Z.abs (now env) <= maxTime ->
  get u "forgot_password_expiry" = VString "" ->
  verifyForgotPasswordOtp email otp env w
    = (Throw (AppErr (createError "OTP has expired" 400)), w).
Proof.
  intros He Ho Hc Hu Hnow Hexp. unfold verifyForgotPasswordOtp.
  rewrite He, Ho. cbn [negb orb]. unfold mbind, Async_bind.
  rewrite (findOne_email_run _ _ _ Hc), Hu.
  destruct (toISOString_valid _ Hnow) as [s Hs]. rewrite Hs, Hexp.
  pose proof (toISOString_nonempty _ _ Hs) as Hne.
  destruct s as [|c r]; [done|]. reflexivity.
Qed.

(** C3, at a failing input. [forgotPassword] at [Sample.env0] leaves
    Alice with the code 400000 and an expiry one hour later; two hours
    later, after the expiry, [verifyForgotPasswordOtp] with that code
    does not throw 'OTP has expired': it returns true. *)
Theorem C3_expired_code_accepted :
  users (forgotPassword Sample.otpTemplate (VString "alice@x.com") Sample.env0
           Sample.registered.2).2 = [Sample.alice] /\
  get Sample.alice "forgot_password_expiry" = VDate (now Sample.env0 + 3600000) /\
  now Sample.env0 + 3600000 < now Sample.env2h /\
  (verifyForgotPasswordOtp (VString "alice@x.com") (VString "400000") Sample.env2h
     Sample.world1).1 = Return true.
Proof. repeat split; reflexivity. Qed.

(** ** The theorems at sample inputs *)

(** Decide a closed hypothesis by evaluation. *)
Ltac by_eval := first [ reflexivity | vm_compute; repeat split; discriminate ].

Lemma C2_witness :
  exists n w0 w1 u0 u1,
    forgotPassword Sample.otpTemplate (VString "alice@x.com") Sample.env0 Sample.world1
      = (Return true, w0) /\
    100000 <= n <= 999999 /\
    first_match (has_email (VString "alice@x.com")) (users w0) = Some u0 /\
    get u0 "forgot_password_otp" = VString (NumberToString (Num n)) /\
    get u0 "forgot_password_expiry" = VDate (now Sample.env0 + 3600000) /\
    verifyForgotPasswordOtp (VString "alice@x.com") (VString (NumberToString (Num n)))
      Sample.env0 w0 = (Return true, w1) /\
    first_match (has_email (VString "alice@x.com")) (users w1) = Some u1 /\
    get u1 "forgot_password_otp" = VString "" /\
    get u1 "forgot_password_expiry" = VNull /\
    verifyForgotPasswordOtp (VString "alice@x.com") (VString (NumberToString (Num n)))
      Sample.env2h w1 = (Throw (AppErr (createError "Invalid OTP" 400)), w1).
Proof.
  apply (C2_otp_round_trip Sample.otpTemplate (VString "alice@x.com") (VString "alice@x.com")
           Sample.env0 Sample.env0 Sample.env2h Sample.world1 Sample.alice);
    by_eval.
Defined.

Lemma C4_witness :
  verifyForgotPasswordOtp (VString "alice@x.com") (VString "123456") Sample.env0 Sample.world1
    = (Throw (AppErr (createError "Invalid OTP" 400)), Sample.world1).
Proof.
  apply (C4_wrong_otp_rejected (VString "alice@x.com") (VString "123456")
           (VString "alice@x.com") Sample.env0 Sample.world1 Sample.alice 1793581200123);
    by_eval.
Defined.

Lemma C5_witness :
  Forall otp_pair_ok
    (users (exec Sample.hash Sample.compare Sample.verifyTemplate Sample.otpTemplate
              Sample.token Sample.token Sample.frontend
              (CallVerifyOtp (VString "alice@x.com") (VString "400000"))
              Sample.env0 Sample.world1)).
Proof.
  apply (C5_otp_pair_invariant Sample.hash Sample.compare Sample.verifyTemplate
           Sample.otpTemplate Sample.token Sample.token Sample.frontend).
  constructor; [by_eval | constructor].
Defined.

Lemma C6_witness :
  registerUser Sample.hash Sample.verifyTemplate Sample.frontend
    (VString "Alice again") (VString "alice@x.com") (VString "other") Sample.env2h Sample.world1
    = (Throw (AppErr (createError "Email already registered" 400)), Sample.world1).
Proof.
  apply (C6_register_existing_email_conflict Sample.hash Sample.verifyTemplate Sample.frontend
           (VString "Alice again") (VString "alice@x.com") (VString "other") Sample.env2h
           Sample.world1 (VString "alice@x.com") Sample.alice);
    by_eval.
Defined.

Lemma C8_witness :
  exists n w' u',
    forgotPassword Sample.otpTemplate (VString "alice@x.com") Sample.env2h Sample.world1
      = (Return true, w') /\
    first_match (has_email (VString "alice@x.com")) (users w') = Some u' /\
    100000 <= n <= 999999 /\
    get u' "forgot_password_otp" = VString (NumberToString (Num n)) /\
    String.length (NumberToString (Num n)) = 6%nat /\
    forallb is_digit (list_ascii_of_string (NumberToString (Num n))) = true /\
    StringToNumber (NumberToString (Num n)) = Num n /\
    get u' "forgot_password_expiry" = VDate (now Sample.env2h + 3600000).
Proof.
  apply (C8_forgotPassword_stores_code Sample.otpTemplate (VString "alice@x.com")
           (VString "alice@x.com") Sample.env2h Sample.world1 Sample.alice);
    by_eval.
Defined.

Lemma C9_witness :
  exists w1,
    verifyEmail (VString Sample.aliceId) Sample.world1 = (Return true, w1) /\
    first_match (has_id Sample.aliceId) (users w1)
      = Some (<["verify_email" := VBool true]> Sample.alice) /\
    verifyEmail (VString Sample.aliceId) w1 = (Return true, w1) /\
    (Sample.alice !! "verify_email" = Some (VBool true) -> w1 = Sample.world1).
Proof.
  apply (C9_verifyEmail_idempotent (VString Sample.aliceId) Sample.aliceId Sample.alice
           Sample.world1); by_eval.
Defined.

(** * Further properties of the user service *)

(** ** Running an operation step by step *)

Lemma wp_ret {A : Type} (a : A) (R : Outcome A -> World -> Prop) (w : World) :
  R (Return a) w -> wp (mret a) R w.
Proof. intros H. exact H. Qed.

Lemma wp_throw {A : Type} (e : Thrown) (R : Outcome A -> World -> Prop) (w : World) :
  R (Throw e) w -> wp (throw e) R w.
Proof. intros H. exact H. Qed.

Lemma wp_bind {A B : Type} (m : Async A) (f : A -> Async B)
  (R : Outcome B -> World -> Prop) (w : World) :
  wp m (fun o w' => match o with
                    | Return a => wp (f a) R w'
                    | Throw e => R (Throw e) w'
                    end) w ->
  wp (m ≫= f) R w.
Proof.
  unfold wp, mbind, Async_bind. destruct (m w) as [[a|e] w']; cbn [fst snd]; auto.
Qed.

Lemma castId_error (id : JsValue) (e : Thrown) :
  castId id = inl e -> e = CastError "_id".
Proof.
  destruct id as [| | | |s| |]; cbn; try congruence.
  destruct (is_objectid_text (to_lower s)); congruence.
Qed.

Lemma castFields_error fs (e : Thrown) :
  castFields fs = inl e -> exists k, e = CastError k.
Proof.
  induction fs as [|[k v] r IH]; cbn [castFields]; [discriminate|].
  destruct (assoc k userSchema) as [ty|]; [|exact IH].
  destruct (cast ty v); [|intros [= <-]; eauto].
  destruct (castFields r); [|discriminate].
  intros [= <-]. by apply IH.
Qed.

Lemma wp_findOne_email (email : JsValue)
  (R : Outcome (option (gmap string JsValue)) -> World -> Prop) (w : World) :
  (forall e, cast SLowerString email = Some e ->
     R (Return (first_match (has_email e) (users w))) w) ->
  (cast SLowerString email = None -> R (Throw (CastError "email")) w) ->
  wp (findOne_email email) R w.
Proof.
  intros H1 H2. unfold wp, findOne_email.
  destruct (cast SLowerString email) as [e|]; [by apply H1 | by apply H2].
Qed.

Lemma wp_findById (id : JsValue)
  (R : Outcome (option (gmap string JsValue)) -> World -> Prop) (w : World) :
  (castId id = inl (CastError "_id") -> R (Throw (CastError "_id")) w) ->
  (castId id = inr None -> R (Return None) w) ->
  (forall h, castId id = inr (Some h) ->
     R (Return (first_match (has_id h) (users w))) w) ->
  wp (findById id) R w.
Proof.
  intros H1 H2 H3. unfold wp, findById.
  destruct (castId id) as [e|[h|]] eqn:E; [|by apply H3|by apply H2].
  pose proof (castId_error _ _ E) as ->. by apply H1.
Qed.

Lemma wp_updateById (id : JsValue) fs
  (R : Outcome UpdateResult -> World -> Prop) (w : World) :
  (castId id = inl (CastError "_id") -> R (Throw (CastError "_id")) w) ->
  (forall k, castFields fs = inl (CastError k) -> R (Throw (CastError k)) w) ->
  (forall fs', castId id = inr None -> castFields fs = inr fs' ->
     R (Return {| matchedCount := 0 |}) w) ->
  (forall h fs', castId id = inr (Some h) -> castFields fs = inr fs' ->
     R (Return {| matchedCount :=
                    if (update_first (has_id h) (setFields fs') (users w)).1 then 1 else 0 |})
       {| users := (update_first (has_id h) (setFields fs') (users w)).2;
          outbox := outbox w |}) ->
  wp (updateById id fs) R w.
Proof.
  intros H1 H2 H3 H4. unfold wp.
  destruct (castId id) as [e|[h|]] eqn:E.
  - unfold updateById. rewrite E. pose proof (castId_error _ _ E) as ->. by apply H1.
  - destruct (castFields fs) as [e|fs'] eqn:Ef.
    + unfold updateById. rewrite E, Ef.
      destruct (castFields_error _ _ Ef) as [k ->]. by apply H2.
    + rewrite (updateById_run _ _ _ _ _ E Ef). by apply H4.
  - unfold updateById. rewrite E.
    destruct (castFields fs) as [e|fs'] eqn:Ef.
    + destruct (castFields_error _ _ Ef) as [k ->]. by apply H2.
    + by apply (H3 fs').
Qed.

Lemma wp_create (newId : string) fs
  (R : Outcome (gmap string JsValue) -> World -> Prop) (w : World) :
  (forall k, castFields fs = inl (CastError k) -> R (Throw (CastError k)) w) ->
  (forall k, R (Throw (DuplicateKey k)) w) ->
  (forall fs', castFields fs = inr fs' ->
     existsb (has_id newId) (users w) = false ->
     let d := setFields fs' (setFields userDefaults {[ "_id" := VObjectId newId ]}) in
     existsb (has_email (get d "email")) (users w) = false ->
     R (Return d) {| users := (users w ++ [d])%list; outbox := outbox w |}) ->
  wp (create newId fs) R w.
Proof.
  intros H1 H2 H3. unfold wp, create.
  destruct (castFields fs) as [e|fs'] eqn:Ef.
  - destruct (castFields_error _ _ Ef) as [k ->]. by apply H1.
  - unfold mbind, Async_bind, getUsers. cbn [fst snd].
    destruct (existsb (has_id newId) (users w)) eqn:Ei; [apply H2|].
    destruct (existsb (has_email _) (users w)) eqn:Ee; [apply H2|].
    by apply H3.
Qed.

Lemma wp_sendEmail (m : Mail) (R : Outcome unit -> World -> Prop) (w : World) :
  R (Return tt) {| users := users w; outbox := (outbox w ++ [m])%list |} ->
  wp (sendEmail m) R w.
Proof. intros H. exact H. Qed.

Lemma wp_hash (h : string -> string -> string) (password : JsValue) (s : string)
  (R : Outcome string -> World -> Prop) (w : World) :
  (forall p, password = VString p -> R (Return (h p s)) w) ->
  R (Throw IllegalArguments) w ->
  wp (hash h password s) R w.
Proof. intros H1 H2. destruct password; try exact H2. by apply H1. Qed.

Lemma wp_compare (c : string -> string -> bool) (password hashed : JsValue)
  (R : Outcome bool -> World -> Prop) (w : World) :
  (forall p h, password = VString p -> hashed = VString h -> R (Return (c p h)) w) ->
  R (Throw IllegalArguments) w ->
  wp (compare c password hashed) R w.
Proof. intros H1 H2. destruct password, hashed; try exact H2. by apply H1. Qed.

(** One step of a run. *)
Ltac wp_step :=
  lazymatch goal with
  | |- wp (mret _) _ _ => apply wp_ret
  | |- wp (throw _) _ _ => apply wp_throw
  | |- wp (mbind _ _) _ _ => apply wp_bind
  | |- wp (findOne_email _) _ _ => apply wp_findOne_email; [intros ? ? | intros ?]
  | |- wp (findById _) _ _ => apply wp_findById; [intros ? | intros ? | intros ? ?]
  | |- wp (updateById _ _) _ _ =>
      apply wp_updateById; [intros ? | intros ? ? | intros ? ? ? | intros ? ? ? ? ]
  | |- wp (create _ _) _ _ => apply wp_create; [intros ? ? | intros ? | intros ? ? ? ? ?; cbv zeta]
  | |- wp (sendEmail _) _ _ => apply wp_sendEmail
  | |- wp (hash _ _ _) _ _ => apply wp_hash; [intros ? ? | ]
  | |- wp (compare _ _ _) _ _ => apply wp_compare; [intros ? ? ? ? | ]
  | |- wp (generatedAccessToken _ _ _) _ _ => unfold generatedAccessToken
  | |- wp (genertedRefreshToken _ _ _) _ _ => unfold genertedRefreshToken; cbv zeta
  | |- wp (if ?b then _ else _) _ _ => destruct b eqn:?
  | |- wp (match ?x with _ => _ end) _ _ => destruct x eqn:?
  | |- wp (let _ := _ in _) _ _ => cbv zeta
  end; cbv beta iota.

(** The outcome of a call, from the run of its operation. *)
Lemma run_wp (co : Collaborators) (c : Call) (env : Env) (w : World)
  (R : option Thrown -> World -> Prop) :
  match c with
  | CallRegister n e p =>
      wp (registerUser (co_hash co) (co_verifyEmailTemplate co) (co_frontend co) n e p env)
        (fun o w' => R (thrown_of (o, w')) w') w
  | CallLogin e p =>
      wp (loginUser (co_compare co) (co_accessToken co) (co_refreshToken co) e p env)
        (fun o w' => R (thrown_of (o, w')) w') w
  | CallVerifyEmail code => wp (verifyEmail code) (fun o w' => R (thrown_of (o, w')) w') w
  | CallForgotPassword e =>
      wp (forgotPassword (co_forgotPasswordTemplate co) e env)
        (fun o w' => R (thrown_of (o, w')) w') w
  | CallVerifyOtp e o =>
      wp (verifyForgotPasswordOtp e o env) (fun o w' => R (thrown_of (o, w')) w') w
  | CallResetPassword e p q =>
      wp (resetPassword (co_hash co) e p q env) (fun o w' => R (thrown_of (o, w')) w') w
  | CallUpdateDetails i u =>
      wp (updateUserDetails (co_hash co) i u env) (fun o w' => R (thrown_of (o, w')) w') w
  | CallGetUserById i => wp (getUserById i) (fun o w' => R (thrown_of (o, w')) w') w
  end ->
  R (run co c env w).1 (run co c env w).2.
Proof. destruct c; cbn [run]; cbv zeta; unfold wp, thrown_of; cbn [fst snd]; auto. Qed.

(** Start the run of the operation behind a call. *)
Ltac run_start c :=
  apply run_wp; destruct c;
  [ unfold registerUser | unfold loginUser | unfold verifyEmail | unfold forgotPassword
  | unfold verifyForgotPasswordOtp | unfold resetPassword
  | unfold updateUserDetails | unfold getUserById ].

(** ** Service errors come before any write *)

Lemma run_service_error (co : Collaborators) (c : Call) (env : Env) (w : World)
  (e : AppError) :
  (run co c env w).1 = Some (AppErr e) ->
  (run co c env w).2 = w /\
  isOperational e = true /\ status e = "fail" /\
  statusCode e = (match c with CallGetUserById _ => 404 | _ => 400 end).
Proof.
  revert e.
  refine (run_wp co c env w (fun o w' => forall e, o = Some (AppErr e) ->
            w' = w /\ isOperational e = true /\ status e = "fail" /\
            statusCode e = (match c with CallGetUserById _ => 404 | _ => 400 end)) _).
  destruct c;
  [ unfold registerUser | unfold loginUser | unfold verifyEmail | unfold forgotPassword
  | unfold verifyForgotPasswordOtp | unfold resetPassword
  | unfold updateUserDetails | unfold getUserById ];
    repeat wp_step; unfold thrown_of; cbn [fst];
    try (intros e' He'; discriminate He'); try (intros e' [= <-]; auto).
Qed.

(** X1. When a call ends with an error of the service itself, nothing
    has been written and no mail has been sent: the world is the one the
    call started from. The error is operational, its status is 'fail',
    and its code is 400, or 404 for [getUserById]. *)
Theorem service_error_fail_fast (co : Collaborators) (c : Call) (env : Env) (w : World)
  (e : AppError) :
  (run co c env w).1 = Some (AppErr e) ->
  (run co c env w).2 = w /\
  isOperational e = true /\ status e = "fail" /\
  statusCode e = (match c with CallGetUserById _ => 404 | _ => 400 end).
Proof. apply run_service_error. Qed.

(** ** Every write of the service *)

Lemma run_writes_keep (co : Collaborators) (Q : list (gmap string JsValue) -> Prop)
  (c : Call) (env : Env) (w : World) :
  (forall fs' h us, Writes co env c fs' -> Q us ->
     Q (update_first (has_id h) (setFields fs') us).2) ->
  (forall d us, Creates co env c d -> existsb (has_id (objectId env)) us = false ->
     Q us -> Q (us ++ [d])%list) ->
  Q (users w) -> Q (users (run co c env w).2).
Proof.
  intros Hw Hc Hq.
  apply (run_wp co c env w (fun _ w' => Q (users w'))).
  destruct c as [n e p|e p|code|e|e o|e p q|i u|i].
  - unfold registerUser. repeat wp_step; cbn [users]; try exact Hq.
    apply Hc; [|assumption|exact Hq]. subst p. by constructor.
  - unfold loginUser. repeat wp_step; cbn [users]; try exact Hq.
    all: repeat match goal with
           | H : castFields _ = inr _ |- _ => cbn in H; injection H as <-
           end.
    all: repeat (apply Hw; [constructor|]); exact Hq.
  - unfold verifyEmail. repeat wp_step; cbn [users]; try exact Hq.
    match goal with
    | H : castFields _ = inr _ |- _ => cbn in H; injection H as <-
    end.
    apply Hw; [constructor | exact Hq].
  - unfold forgotPassword. repeat wp_step; cbn [users]; try exact Hq.
    match goal with
    | H : castFields _ = inr _, E : toISOString _ = Some _ |- _ =>
        pose proof H as H'; unfold generatedOtp in H';
        apply forgot_fields_cast in H' as (t & Ht & ->);
        [|by eapply toISOString_nonempty]
    end.
    apply Hw; [|exact Hq]. by econstructor.
  - unfold verifyForgotPasswordOtp. repeat wp_step; cbn [users]; try exact Hq.
    match goal with
    | H : castFields _ = inr _ |- _ => rewrite clear_fields_cast in H; injection H as <-
    end.
    apply Hw; [constructor | exact Hq].
  - unfold resetPassword. repeat wp_step; cbn [users]; try exact Hq.
    match goal with
    | H : castFields _ = inr _ |- _ => cbn in H; injection H as <-
    end.
    subst p. apply Hw; [constructor | exact Hq].
  - unfold updateUserDetails. repeat wp_step; cbn [users]; try exact Hq.
    + apply Hw; [|exact Hq].
      match goal with
      | H : get u "password" = VString ?p |- _ => apply (W_update_password co env i u p)
      end; try assumption.
      intros ->.
      match goal with
      | H : get u "password" = VString "", T : truthy _ = true |- _ =>
          rewrite H in T; discriminate T
      end.
    + apply Hw; [|exact Hq]. by apply W_update.
  - unfold getUserById. repeat wp_step; cbn [users]; exact Hq.
Qed.

(** X2. The writes of a call are the ones listed in [Writes] and
    [Creates]: a property of the collection that survives each update
    and each insertion listed for the call survives the call, whether it
    returns or throws. *)
Theorem run_keeps (co : Collaborators) (Q : list (gmap string JsValue) -> Prop)
  (c : Call) (env : Env) (w : World) :
  (forall fs' h us, Writes co env c fs' -> Q us ->
     Q (update_first (has_id h) (setFields fs') us).2) ->
  (forall d us, Creates co env c d -> existsb (has_id (objectId env)) us = false ->
     Q us -> Q (us ++ [d])%list) ->
  Q (users w) -> Q (users (run co c env w).2).
Proof. apply run_writes_keep. Qed.


Lemma castFields_app fs1 fs2 :
  castFields (fs1 ++ fs2) =
    match castFields fs1 with
    | inl e => inl e
    | inr a =>
        match castFields fs2 with
        | inl e => inl e
        | inr b => inr (a ++ b)%list
        end
    end.
Proof.
  induction fs1 as [|[k v] r IH]; cbn [castFields app].
  - by destruct (castFields fs2).
  - destruct (assoc k userSchema) as [ty|]; [|exact IH].
    destruct (cast ty v); [|reflexivity].
    rewrite IH. destruct (castFields r); [reflexivity|].
    by destruct (castFields fs2).
Qed.

Lemma setFields_app fs1 fs2 (d : gmap string JsValue) :
  setFields (fs1 ++ fs2) d = setFields fs2 (setFields fs1 d).
Proof. revert d. induction fs1 as [|[k v] r IH]; intros d; cbn; [reflexivity|apply IH]. Qed.

(** The fields of a listed update lie in the footprint of the call. *)
Lemma Writes_footprint (co : Collaborators) (env : Env) (c : Call) fs' (k : string) :
  Writes co env c fs' -> In k (map fst fs') -> In k (footprint c).
Proof.
  intros [email password id|email password|code|email n iso t _ _ _|email otp|email q p
         |userId updates fs1 _ Hc|userId updates p fs1 _ _ Hc]; cbn [footprint];
    try (cbn; tauto).
  - intros Hin. apply (castFields_keys _ _ _ Hc) in Hin.
    apply updateData_of_keys in Hin. unfold writable. cbn. intuition.
  - intros Hin. apply (castFields_keys _ _ _ Hc) in Hin.
    rewrite map_app, in_app_iff in Hin. destruct Hin as [Hin|Hin].
    + apply updateData_of_keys in Hin. unfold writable. cbn. intuition.
    + unfold writable. cbn in *. intuition.
Qed.

Lemma agree_outside_refl (K : list string) (d : gmap string JsValue) : agree_outside K d d.
Proof. by intros k _. Qed.

Lemma agree_outside_trans (K : list string) (d1 d2 d3 : gmap string JsValue) :
  agree_outside K d1 d2 -> agree_outside K d2 d3 -> agree_outside K d1 d3.
Proof. intros H1 H2 k Hk. by rewrite (H2 k Hk), (H1 k Hk). Qed.

Lemma Forall2_compose {A : Type} (R S T : A -> A -> Prop) (l1 l2 l3 : list A) :
  (forall x y z, R x y -> S y z -> T x z) ->
  Forall2 R l1 l2 -> Forall2 S l2 l3 -> Forall2 T l1 l3.
Proof.
  intros H H1. revert l3. induction H1 as [|x y l1 l2 Hxy _ IH]; intros l3 H2.
  - inversion H2. constructor.
  - inversion H2 as [|y' z l2' l3' Hyz Hr]; subst. constructor; [by eapply H|by apply IH].
Qed.

(** ** The footprint of a call *)

(** X3. A call leaves every stored user in place and in order, and
    changes in it at most the fields of its footprint: the two login
    fields, the verified flag, the code and its expiry, the password, or
    the four fields of a profile update; the identifier never changes.
    Only a registration adds a document, a single one, at the end, under
    the identifier drawn for it. *)
Theorem run_footprint (co : Collaborators) (c : Call) (env : Env) (w : World) :
  exists us' extra,
    users (run co c env w).2 = (us' ++ extra)%list /\
    Forall2 (agree_outside (footprint c)) (users w) us' /\
    (extra = [] \/
     exists n e p d, c = CallRegister n e p /\ extra = [d] /\
       d !! "_id" = Some (VObjectId (objectId env))).
Proof.
  apply (run_writes_keep co (fun us => exists us' extra,
    us = (us' ++ extra)%list /\
    Forall2 (agree_outside (footprint c)) (users w) us' /\
    (extra = [] \/
     exists n e p d, c = CallRegister n e p /\ extra = [d] /\
       d !! "_id" = Some (VObjectId (objectId env))))).
  - intros fs' h us HW (us' & extra & -> & Hf & Hx).
    destruct Hx as [->|(n & e & p & d & -> & _)]; [|inversion HW].
    rewrite app_nil_r. exists (update_first (has_id h) (setFields fs') us').2, [].
    split; [by rewrite app_nil_r|]. split; [|by left].
    eapply Forall2_compose; [|exact Hf|apply update_first_Forall2].
    intros x y z Hxy [->| ->]; [exact Hxy|].
    eapply agree_outside_trans; [exact Hxy|].
    intros k Hk. apply setFields_lookup_ne. intros Hin. apply Hk.
    by eapply Writes_footprint.
  - intros d us HC Hfresh (us' & extra & -> & Hf & Hx).
    inversion HC as [n e p fs' Hcast Hc Hd]; subst.
    assert (Hid : setFields fs' (setFields userDefaults {[ "_id" := VObjectId (objectId env) ]})
                    !! "_id" = Some (VObjectId (objectId env))).
    { rewrite setFields_lookup_ne by exact (castFields_no_id _ _ Hcast).
      rewrite setFields_lookup_ne by (cbn; intuition discriminate).
      apply lookup_singleton_eq. }
    destruct Hx as [->|(n' & e' & p' & d' & _ & -> & Hd')].
    + exists us', [setFields fs' (setFields userDefaults {[ "_id" := VObjectId (objectId env) ]})].
      rewrite app_nil_r. split; [reflexivity|]. split; [exact Hf|].
      right. eexists n, e, (VString p), _. split; [reflexivity|]. split; [reflexivity|exact Hid].
    + rewrite existsb_app in Hfresh. apply orb_false_elim in Hfresh as [_ Hfresh].
      cbn in Hfresh. unfold has_id in Hfresh. rewrite bool_decide_eq_true_2 in Hfresh by exact Hd'.
      discriminate.
  - exists (users w), []. rewrite app_nil_r. split; [reflexivity|]. split; [|by left].
    apply Forall2_refl_on. apply agree_outside_refl.
Qed.

Lemma created_id fs fs' (h : string) :
  castFields fs = inr fs' ->
  setFields fs' (setFields userDefaults {[ "_id" := VObjectId h ]}) !! "_id"
    = Some (VObjectId h).
Proof.
  intros Hcast.
  rewrite setFields_lookup_ne by exact (castFields_no_id _ _ Hcast).
  rewrite setFields_lookup_ne by (cbn; intuition discriminate).
  apply lookup_singleton_eq.
Qed.

Lemma first_match_In (p : gmap string JsValue -> bool) us d :
  first_match p us = Some d -> In d us.
Proof.
  induction us as [|x r IH]; cbn; [discriminate|].
  destruct (p x); [intros [= ->]; by left | intros H; right; by apply IH].
Qed.

(** ** The mail of a call *)

(** X4. A call that throws sends nothing. A registration that returns
    has sent exactly one mail, to the address given, with the link that
    carries the new identifier; a forgot-password request that returns
    has sent exactly one mail, to the address given, with the name of a
    stored user and the number drawn. No other call sends mail. *)
Theorem run_outbox (co : Collaborators) (c : Call) (env : Env) (w : World) :
  match (run co c env w).1 with
  | Some _ => outbox (run co c env w).2 = outbox w
  | None =>
      match c with
      | CallRegister _ _ _ | CallForgotPassword _ =>
          exists m, Sends co env w c m /\
            outbox (run co c env w).2 = (outbox w ++ [m])%list
      | _ => outbox (run co c env w).2 = outbox w
      end
  end.
Proof.
  apply (run_wp co c env w (fun o w' =>
    match o with
    | Some _ => outbox w' = outbox w
    | None =>
        match c with
        | CallRegister _ _ _ | CallForgotPassword _ =>
            exists m, Sends co env w c m /\ outbox w' = (outbox w ++ [m])%list
        | _ => outbox w' = outbox w
        end
    end)).
  destruct c as [n e p|e p|code|e|e o|e p q|i u|i];
  [ unfold registerUser | unfold loginUser | unfold verifyEmail | unfold forgotPassword
  | unfold verifyForgotPasswordOtp | unfold resetPassword
  | unfold updateUserDetails | unfold getUserById ];
    repeat wp_step; unfold thrown_of; cbn [fst outbox]; try reflexivity.
  - eexists. split; [|reflexivity].
    match goal with d := _ |- _ => subst d end.
    unfold get. erewrite created_id by eassumption. cbn [from_option id idText].
    constructor.
  - eexists. split; [|reflexivity]. constructor. by eapply first_match_In.
  - eexists. split; [|reflexivity]. constructor. by eapply first_match_In.
Qed.

(** ** Stored passwords *)

Lemma password_hashed_set (h : string -> string -> string) fs (d : gmap string JsValue) :
  ~ In "password" (map fst fs) -> password_hashed h d -> password_hashed h (setFields fs d).
Proof. intros Hk Hd. unfold password_hashed. by rewrite setFields_lookup_ne. Qed.

Lemma password_hashed_snoc (h : string -> string -> string) fs (p s : string)
  (d : gmap string JsValue) :
  password_hashed h (setFields (fs ++ [("password", VString (h p s))]) d).
Proof.
  right. exists p, s. rewrite setFields_app. cbn [setFields]. apply lookup_insert_eq.
Qed.

(** X5. No call stores a password in the clear: if every stored
    password is a hash made by the hash function, the same holds after
    any call, whatever it was given and whether it returned or threw. *)
Theorem passwords_stay_hashed (co : Collaborators) (c : Call) (env : Env) (w : World) :
  Forall (password_hashed (co_hash co)) (users w) ->
  Forall (password_hashed (co_hash co)) (users (run co c env w).2).
Proof.
  apply run_writes_keep.
  - intros fs' h us HW Hq. apply update_first_Forall; [|exact Hq].
    intros d Hd.
    destruct HW as [email password id|email password|code|email n iso t _ _ _|email otp
                   |email q p|userId updates fs1 _ Hc|userId updates p fs1 _ _ Hc].
    1-5: apply password_hashed_set; [cbn; intuition discriminate | exact Hd].
    + apply (password_hashed_snoc _ []).
    + apply password_hashed_set; [|exact Hd].
      intros Hin. apply (castFields_keys _ _ _ Hc) in Hin.
      apply updateData_of_keys in Hin. intuition discriminate.
    + rewrite castFields_app in Hc.
      destruct (castFields (updateData_of _ _ _)) as [e|a]; [discriminate|].
      cbn in Hc. injection Hc as <-. apply password_hashed_snoc.
  - intros d us HC _ Hq. apply Forall_app. split; [exact Hq|].
    constructor; [|constructor].
    destruct HC as [n e p fs' Hcast].
    change [("name", n); ("email", e); ("password", VString (co_hash co p (salt env)))]
      with ([("name", n); ("email", e)]
            ++ [("password", VString (co_hash co p (salt env)))])%list in Hcast.
    rewrite castFields_app in Hcast.
    destruct (castFields [("name", n); ("email", e)]) as [e'|a]; [discriminate|].
    cbn in Hcast. injection Hcast as <-. apply password_hashed_snoc.
Qed.

(** ** Logging in *)

Section Login.

Variable bcrypt_compare : string -> string -> bool.
Variable accessTokenOf : JsValue -> Env -> string.
Variable refreshTokenOf : JsValue -> Env -> string.

(** One run of [loginUser] for an active user that the email finds and
    the identifier names, with the password that the comparison
    accepts. *)
Lemma loginUser_run (email e : JsValue) (p hp : string) (env : Env) (w : World)
  (l1 l2 : list (gmap string JsValue)) (u : gmap string JsValue) (h : string) :
  truthy email = true -> p <> "" ->
  cast SLowerString email = Some e ->
  users w = (l1 ++ u :: l2)%list ->
  Forall (fun x => has_email e x = false) l1 -> has_email e u = true ->
  Forall (fun x => has_id h x = false) l1 -> has_id h u = true ->
  get u "status" = VString "Active" ->
  get u "password" = VString hp ->
  bcrypt_compare p hp = true ->
  loginUser bcrypt_compare accessTokenOf refreshTokenOf email (VString p) env w =
    (Return {| accessToken := accessTokenOf (VObjectId h) env;
               refreshToken := refreshTokenOf (VObjectId h) env;
               user := {| lu_id := VObjectId h;
                          lu_name := get u "name";
                          lu_email := get u "email";
                          lu_role := get u "role" |} |},
     {| users := (l1 ++ <["last_login_date" := VDate (now env)]>
                          (<["refresh_token" := VString (refreshTokenOf (VObjectId h) env)]> u)
                        :: l2)%list;
        outbox := outbox w |}).
Proof.
  intros He Hp Hc Hw Hl1e Hue Hl1i Hui Hst Hpw Hcmp. unfold loginUser.
  assert (Htp : truthy (VString p) = true).
  { cbn. destruct p; [done|reflexivity]. }
  rewrite He, Htp. cbn [negb orb]. unfold mbind at 1, Async_bind at 1.
  rewrite (findOne_email_run _ _ _ Hc), Hw, (first_match_app _ _ _ _ Hl1e Hue).
  rewrite Hst. change (strict_neq (VString "Active") (VString "Active")) with false.
  cbv beta iota.
  rewrite Hpw, (has_id_get _ _ Hui).
  unfold generatedAccessToken, genertedRefreshToken, compare. cbv zeta.
  unfold mbind, Async_bind, mret, Async_ret. rewrite Hcmp. cbn [negb].
  rewrite (updateById_run (VObjectId h) h
             [("refresh_token", VString (refreshTokenOf (VObjectId h) env))]
             [("refresh_token", VString (refreshTokenOf (VObjectId h) env))]
             _ eq_refl eq_refl), Hw.
  rewrite (update_first_app _ _ _ _ _ Hl1i Hui). cbn [users outbox fst snd setFields].
  rewrite (updateById_run (VObjectId h) h
             [("last_login_date", VDate (now env))] [("last_login_date", VDate (now env))]
             _ eq_refl eq_refl). cbn [users outbox].
  rewrite (update_first_app _ _ _ _ _ Hl1i) by (by rewrite has_id_insert).
  reflexivity.
Qed.

(** X6. An active user who gives the password that the comparison
    accepts is logged in, whether the email has been verified or not:
    the call returns the two tokens made for the stored identifier and
    the projection of the stored identifier, name, email and role;
    it stores the clock as the time of the last login for that user,
    leaves every field of the user other than that and the refresh
    token as it was, and sends no mail. The stored users have distinct
    identifiers. *)
Theorem login_success (email e : JsValue) (p hp : string) (env : Env) (w : World)
  (u : gmap string JsValue) :
  truthy email = true -> p <> "" ->
  cast SLowerString email = Some e ->
  ids_distinct (users w) = true ->
  first_match (has_email e) (users w) = Some u ->
  get u "status" = VString "Active" ->
  get u "password" = VString hp ->
  bcrypt_compare p hp = true ->
  exists res w' u',
    loginUser bcrypt_compare accessTokenOf refreshTokenOf email (VString p) env w
      = (Return res, w') /\
    accessToken res = accessTokenOf (get u "_id") env /\
    refreshToken res = refreshTokenOf (get u "_id") env /\
    user res = {| lu_id := get u "_id"; lu_name := get u "name";
                  lu_email := get u "email"; lu_role := get u "role" |} /\
    first_match (has_email e) (users w') = Some u' /\
    get u' "last_login_date" = VDate (now env) /\
    agree_outside ["refresh_token"; "last_login_date"] u u' /\
    outbox w' = outbox w.
Proof.
  intros He Hp Hc Hids Hue Hst Hpw Hcmp.
  destruct (ids_distinct_found _ _ _ Hids Hue) as [h Hui].
  destruct (first_match_same _ _ _ _ Hue Hui) as (l1 & l2 & Hw & Hpe & Hpi & Hl1e & Hl1i).
  eexists _, _, _. split.
  { by apply (loginUser_run email e p hp env w l1 l2 u h). }
  cbn [accessToken refreshToken user users outbox]. rewrite (has_id_get _ _ Hpi).
  repeat (split; [reflexivity|]).
  split; [apply first_match_app; [exact Hl1e | by rewrite !has_email_insert]|].
  split; [unfold get; by rewrite lookup_insert_eq|].
  split; [|reflexivity].
  intros k Hk. cbn in Hk.
  rewrite !lookup_insert_ne; [reflexivity| |]; intros <-; tauto.
Qed.

(** X7. The status gate comes before the password: for a user found by
    the email whose status is not 'Active', a login with any non-empty
    password is refused with 'Account is not active. Please contact
    admin', nothing is written, and the comparison of the password has
    no say in it. *)
Theorem login_inactive_refused (email e password : JsValue) (env : Env) (w : World)
  (u : gmap string JsValue) :
  truthy email = true -> truthy password = true ->
  cast SLowerString email = Some e ->
  first_match (has_email e) (users w) = Some u ->
  strict_eq (get u "status") (VString "Active") = false ->
  loginUser bcrypt_compare accessTokenOf refreshTokenOf email password env w
    = (Throw (AppErr (createError "Account is not active. Please contact admin" 400)), w).
Proof.
  intros He Hp Hc Hue Hst. unfold loginUser.
  rewrite He, Hp. cbn [negb orb]. unfold mbind, Async_bind.
  rewrite (findOne_email_run _ _ _ Hc), Hue. unfold strict_neq. by rewrite Hst.
Qed.

End Login.

(** ** Resetting the password *)

Section Reset.

Variable bcrypt_hash : string -> string -> string.
Variable bcrypt_compare : string -> string -> bool.
Variable accessTokenOf : JsValue -> Env -> string.
Variable refreshTokenOf : JsValue -> Env -> string.

(** One run of [resetPassword] for a user that the email finds and the
    identifier names. *)
Lemma resetPassword_run (email e : JsValue) (p : string) (env : Env) (w : World)
  (l1 l2 : list (gmap string JsValue)) (u : gmap string JsValue) (h : string) :
  truthy email = true -> p <> "" ->
  cast SLowerString email = Some e ->
  users w = (l1 ++ u :: l2)%list ->
  Forall (fun x => has_email e x = false) l1 -> has_email e u = true ->
  Forall (fun x => has_id h x = false) l1 -> has_id h u = true ->
  resetPassword bcrypt_hash email (VString p) (VString p) env w =
    (Return true,
     {| users := (l1 ++ <["password" := VString (bcrypt_hash p (salt env))]> u :: l2)%list;
        outbox := outbox w |}).
Proof.
  intros He Hp Hc Hw Hl1e Hue Hl1i Hui. unfold resetPassword.
  assert (Htp : truthy (VString p) = true).
  { cbn. destruct p; [done|reflexivity]. }
  rewrite He, Htp. cbn [negb orb]. unfold strict_neq.
  rewrite strict_eq_string_refl. cbn [negb].
  unfold mbind at 1, Async_bind at 1.
  rewrite (findOne_email_run _ _ _ Hc), Hw, (first_match_app _ _ _ _ Hl1e Hue).
  cbn [hash]. unfold mbind, Async_bind, mret, Async_ret.
  rewrite (has_id_get _ _ Hui).
  rewrite (updateById_run (VObjectId h) h
             [("password", VString (bcrypt_hash p (salt env)))]
             [("password", VString (bcrypt_hash p (salt env)))] _ eq_refl eq_refl), Hw.
  rewrite (update_first_app _ _ _ _ _ Hl1i Hui). reflexivity.
Qed.

(** X8. A password reset asks for no code: for a known email and two
    equal non-empty passwords it succeeds whatever code and expiry are
    stored, writes the hash of the new password and nothing else, and
    the user, if active, can then log in with the new password. The
    stored users have distinct identifiers, and the comparison accepts
    a password against its own hash. *)
Theorem reset_then_login (email e : JsValue) (p : string) (env1 env2 : Env) (w : World)
  (u : gmap string JsValue) :
  truthy email = true -> p <> "" ->
  cast SLowerString email = Some e ->
  ids_distinct (users w) = true ->
  first_match (has_email e) (users w) = Some u ->
  get u "status" = VString "Active" ->
  bcrypt_compare p (bcrypt_hash p (salt env1)) = true ->
  exists w1 u1 res w2,
    resetPassword bcrypt_hash email (VString p) (VString p) env1 w = (Return true, w1) /\
    first_match (has_email e) (users w1) = Some u1 /\
    get u1 "password" = VString (bcrypt_hash p (salt env1)) /\
    agree_outside ["password"] u u1 /\
    outbox w1 = outbox w /\
    loginUser bcrypt_compare accessTokenOf refreshTokenOf email (VString p) env2 w1
      = (Return res, w2) /\
    lu_id (user res) = get u "_id".
Proof.
  intros He Hp Hc Hids Hue Hst Hcmp.
  destruct (ids_distinct_found _ _ _ Hids Hue) as [h Hui].
  destruct (first_match_same _ _ _ _ Hue Hui) as (l1 & l2 & Hw & Hpe & Hpi & Hl1e & Hl1i).
  set (u1 := <["password" := VString (bcrypt_hash p (salt env1))]> u).
  assert (Hpe1 : has_email e u1 = true) by (unfold u1; by rewrite has_email_insert).
  assert (Hpi1 : has_id h u1 = true) by (unfold u1; by rewrite has_id_insert).
  eexists _, u1, _, _. split.
  { by apply (resetPassword_run email e p env1 w l1 l2 u h). }
  cbn [users outbox].
  split; [by apply first_match_app|].
  split; [unfold get, u1; by rewrite lookup_insert_eq|].
  split.
  { intros k Hk. unfold u1. rewrite lookup_insert_ne; [reflexivity|].
    intros <-. apply Hk. by left. }
  split; [reflexivity|]. split.
  { apply (loginUser_run bcrypt_compare accessTokenOf refreshTokenOf email e p
             (bcrypt_hash p (salt env1)) env2 _ l1 l2 u1 h); try done.
    - unfold get, u1. rewrite lookup_insert_ne by done. exact Hst.
    - unfold get, u1. by rewrite lookup_insert_eq. }
  cbn [user lu_id]. by rewrite (has_id_get _ _ Hpi).
Qed.

End Reset.

(** ** Checking a code *)

Lemma strict_eq_truthy (a b : JsValue) :
  strict_eq a b = true -> truthy a = truthy b.
Proof.
  destruct a as [| |x|[|x]|x| |], b as [| |y|[|y]|y| |]; cbn; try discriminate; try reflexivity.
  - intros H. by apply Bool.eqb_prop in H as ->.
  - intros H. by apply Z.eqb_eq in H as ->.
  - intros H. by apply String.eqb_eq in H as ->.
Qed.

(** X9. A code is accepted only if it is the stored one: whenever
    [verifyForgotPasswordOtp] returns, it returns true, the email finds
    a user, the code given is strictly equal to the code stored for that
    user, and that stored code is not null, undefined or empty -- a user
    with no pending code cannot pass, whatever is sent. *)
Theorem verify_accepts_only_stored_code (email otp : JsValue) (env : Env) (w w' : World)
  (b : bool) :
  verifyForgotPasswordOtp email otp env w = (Return b, w') ->
  b = true /\
  exists e u,
    cast SLowerString email = Some e /\
    first_match (has_email e) (users w) = Some u /\
    strict_eq otp (get u "forgot_password_otp") = true /\
    truthy (get u "forgot_password_otp") = true.
Proof.
  intros Hrun.
  enough (wp (verifyForgotPasswordOtp email otp env)
            (fun o _ => match o with
                        | Return b => b = true /\
                            exists e u,
                              cast SLowerString email = Some e /\
                              first_match (has_email e) (users w) = Some u /\
                              strict_eq otp (get u "forgot_password_otp") = true /\
                              truthy (get u "forgot_password_otp") = true
                        | Throw _ => True
                        end) w) as H.
  { unfold wp in H. by rewrite Hrun in H. }
  unfold verifyForgotPasswordOtp. repeat wp_step; try exact I.
  all: split; [reflexivity|]; eexists _, _; split; [eassumption|]; split; [eassumption|].
  all: match goal with
       | H : strict_neq _ _ = false |- _ => unfold strict_neq in H; apply negb_false_iff in H
       end.
  all: split; [assumption|].
  all: match goal with
       | H : strict_eq _ _ = true |- _ => rewrite <- (strict_eq_truthy _ _ H)
       end.
  all: match goal with
       | H : (_ || negb (truthy _))%bool = false |- _ =>
           apply orb_false_elim in H as [_ H]; by apply negb_false_iff in H
       end.
Qed.

(** ** A newer code replaces the older one *)

Lemma NumberToString_inj_six (n m : Z) :
  100000 <= n <= 999999 -> 100000 <= m <= 999999 ->
  NumberToString (Num n) = NumberToString (Num m) -> n = m.
Proof.
  intros Hn Hm H.
  destruct (six_digit_text n Hn) as (_ & _ & Hvn).
  destruct (six_digit_text m Hm) as (_ & _ & Hvm).
  rewrite H, Hvm in Hvn. congruence.
Qed.

Section Overwrite.

Variable forgotPasswordTemplate : JsValue -> JsValue -> string.

(** One run of [forgotPassword] at a known place of the collection and
    with a known draw. *)
Lemma forgotPassword_run_at (email e : JsValue) (env : Env) (w : World)
  (l1 l2 : list (gmap string JsValue)) (u : gmap string JsValue) (h : string) (n : Z) :
  truthy email = true ->
  cast SLowerString email = Some e ->
  users w = (l1 ++ u :: l2)%list ->
  Forall (fun x => has_email e x = false) l1 -> has_email e u = true ->
  Forall (fun x => has_id h x = false) l1 -> has_id h u = true ->
  generatedOtp env = VNumber (Num n) ->
  -62167219200000 <= now env + 3600000 < 253402300800000 ->
  forgotPassword forgotPasswordTemplate email env w =
    (Return true,
     {| users := (l1 ++ <["forgot_password_expiry" := VDate (now env + 3600000)]>
                          (<["forgot_password_otp" := VString (NumberToString (Num n))]> u)
                        :: l2)%list;
        outbox := (outbox w ++
                   [{| sendTo := email;
                       subject := "Forgot password from QuickPick";
                       html := forgotPasswordTemplate (get u "name") (VNumber (Num n)) |}])%list |}).
Proof.
  intros He Hc Hw Hl1e Hue Hl1i Hui Hn Ht.
  unfold forgotPassword. rewrite He. cbn [negb]. unfold mbind, Async_bind.
  rewrite (findOne_email_run _ _ _ Hc), Hw, (first_match_app _ _ _ _ Hl1e Hue).
  cbv zeta. rewrite Hn.
  change (now env + 60 * 60 * 1000) with (now env + 3600000).
  destruct (toISOString_valid (now env + 3600000)) as [s Hs]; [unfold maxTime; lia|].
  rewrite Hs. rewrite (has_id_get _ _ Hui).
  assert (Hcast : castFields [("forgot_password_otp", VNumber (Num n));
                              ("forgot_password_expiry", VString s)]
                  = inr [("forgot_password_otp", VString (NumberToString (Num n)));
                         ("forgot_password_expiry", VDate (now env + 3600000))]).
  { cbn [castFields].
    replace (assoc "forgot_password_otp" userSchema) with (Some SString) by reflexivity.
    replace (assoc "forgot_password_expiry" userSchema) with (Some SDate) by reflexivity.
    cbn [cast castString castDate].
    destruct (String.eqb_spec s ""); [by destruct (toISOString_nonempty _ _ Hs)|].
    by rewrite (parseISO_toISOString _ _ Ht Hs). }
  rewrite (updateById_run (VObjectId h) h _ _ _ eq_refl Hcast), Hw.
  rewrite (update_first_app _ _ _ _ _ Hl1i Hui). reflexivity.
Qed.

(** X10. A code is scoped to the latest request: after two
    forgot-password requests for the same user that drew different
    numbers, the code of the first request is refused with 'Invalid OTP'
    and nothing is written. The stored users have distinct identifiers,
    the draws lie in [0, 1), and the clocks in the years written with
    four digits. *)
Theorem newer_code_replaces_older (email e : JsValue) (env1 env2 env3 : Env) (w : World)
  (u : gmap string JsValue) :
  truthy email = true ->
  cast SLowerString email = Some e ->
  ids_distinct (users w) = true ->
  first_match (has_email e) (users w) = Some u ->
  0 <= random_num env1 < random_den env1 ->
  -62167219200000 <= now env1 + 3600000 < 253402300800000 ->
  0 <= random_num env2 < random_den env2 ->
  -62167219200000 <= now env2 + 3600000 < 253402300800000 ->
  generatedOtp env1 <> generatedOtp env2 ->
  Z.abs (now env3) <= maxTime ->
  exists n1 w1 w2,
    generatedOtp env1 = VNumber (Num n1) /\
    forgotPassword forgotPasswordTemplate email env1 w = (Return true, w1) /\
    forgotPassword forgotPasswordTemplate email env2 w1 = (Return true, w2) /\
    verifyForgotPasswordOtp email (VString (NumberToString (Num n1))) env3 w2
      = (Throw (AppErr (createError "Invalid OTP" 400)), w2).
Proof.
  intros He Hc Hids Hue Hr1 Ht1 Hr2 Ht2 Hne Hn3.
  destruct (ids_distinct_found _ _ _ Hids Hue) as [h Hui].
  destruct (first_match_same _ _ _ _ Hue Hui) as (l1 & l2 & Hw & Hpe & Hpi & Hl1e & Hl1i).
  destruct (generatedOtp_range env1 Hr1) as (n1 & Hn1 & Hrange1).
  destruct (generatedOtp_range env2 Hr2) as (n2 & Hn2 & Hrange2).
  set (u1 := <["forgot_password_expiry" := VDate (now env1 + 3600000)]>
               (<["forgot_password_otp" := VString (NumberToString (Num n1))]> u)).
  set (u2 := <["forgot_password_expiry" := VDate (now env2 + 3600000)]>
               (<["forgot_password_otp" := VString (NumberToString (Num n2))]> u1)).
  assert (Hpe1 : has_email e u1 = true) by (unfold u1; by rewrite !has_email_insert).
  assert (Hpi1 : has_id h u1 = true) by (unfold u1; by rewrite !has_id_insert).
  assert (Hpe2 : has_email e u2 = true) by (unfold u2; by rewrite !has_email_insert).
  eexists n1, _, _. split; [exact Hn1|]. split.
  { by apply (forgotPassword_run_at email e env1 w l1 l2 u h n1). }
  split.
  { by apply (forgotPassword_run_at email e env2 _ l1 l2 u1 h n2). }
  apply (verify_mismatch _ _ e _ _ u2); try done.
  - apply truthy_NumberToString.
  - cbn [users]. by apply first_match_app.
  - right. exists (now env2 + 3600000). unfold get, u2. by rewrite lookup_insert_eq.
  - replace (get u2 "forgot_password_otp") with (VString (NumberToString (Num n2)))
      by (unfold get, u2; by rewrite lookup_insert_ne, lookup_insert_eq).
    cbn [strict_eq]. apply String.eqb_neq. intros Heq.
    apply Hne. rewrite Hn1, Hn2. do 2 f_equal.
    by apply NumberToString_inj_six.
Qed.

End Overwrite.

(** ** From the registration to the verified account *)

Lemma lower_char_hex (c : ascii) : is_hex c = true -> lower_char c = c.
Proof.
  destruct c as [[] [] [] [] [] [] [] []]; vm_compute; intros H;
    first [ reflexivity | discriminate H ].
Qed.

Lemma to_lower_hex (s : string) :
  forallb is_hex (list_ascii_of_string s) = true -> to_lower s = s.
Proof.
  induction s as [|c r IH]; cbn [list_ascii_of_string forallb to_lower]; [reflexivity|].
  intros H. apply andb_true_iff in H as [Hc Hr].
  by rewrite (lower_char_hex _ Hc), IH.
Qed.

Lemma castId_text (s : string) :
  is_objectid_text s = true -> castId (VString s) = inr (Some s).
Proof.
  intros H. pose proof H as H'. unfold is_objectid_text in H'.
  apply andb_true_iff in H' as [_ Hhex].
  cbn [castId]. by rewrite (to_lower_hex _ Hhex), H.
Qed.

Lemma existsb_false_Forall (p : gmap string JsValue -> bool) us :
  existsb p us = false -> Forall (fun x => p x = false) us.
Proof.
  induction us as [|x r IH]; cbn [existsb]; [constructor|].
  intros H. apply orb_false_elim in H as [Hx Hr]. constructor; auto.
Qed.

Lemma first_match_none (p : gmap string JsValue -> bool) us :
  existsb p us = false -> first_match p us = None.
Proof.
  induction us as [|x r IH]; cbn [existsb first_match]; [reflexivity|].
  intros H. apply orb_false_elim in H as [Hx Hr]. rewrite Hx. by apply IH.
Qed.

Section RegisterVerify.

Variable bcrypt_hash : string -> string -> string.
Variable verifyEmailTemplate : JsValue -> string -> string.
Variable FRONTEND_URL : string.

(** The document that a registration stores. *)
Lemma registerUser_run (name name' email e : JsValue) (p : string) (env : Env) (w : World) :
  truthy name = true -> truthy email = true -> p <> "" ->
  cast SString name = Some name' ->
  cast SLowerString email = Some e ->
  existsb (has_email e) (users w) = false ->
  existsb (has_id (objectId env)) (users w) = false ->
  registerUser bcrypt_hash verifyEmailTemplate FRONTEND_URL name email (VString p) env w =
    (let d := <["password" := VString (bcrypt_hash p (salt env))]>
                (<["email" := e]>
                   (<["name" := name']>
                      (setFields userDefaults {[ "_id" := VObjectId (objectId env) ]}))) in
     (Return d,
      {| users := (users w ++ [d])%list;
         outbox := (outbox w ++
                    [{| sendTo := email;
                        subject := "Verify email from QuickPick";
                        html := verifyEmailTemplate name
                                  (FRONTEND_URL +:+ "/verify-email?code=" +:+ objectId env) |}])%list
      |})).
Proof.
  intros Hn He Hp Hcn Hce Hfe Hfi. unfold registerUser.
  assert (Htp : truthy (VString p) = true).
  { cbn. destruct p; [done|reflexivity]. }
  rewrite Hn, He, Htp. cbn [negb orb]. unfold mbind at 1, Async_bind at 1.
  rewrite (findOne_email_run _ _ _ Hce), (first_match_none _ _ Hfe).
  cbn [hash]. unfold mbind at 1, Async_bind at 1, mret at 1, Async_ret at 1.
  unfold mbind at 1, Async_bind at 1.
  unfold create. cbn [castFields].
  replace (assoc "name" userSchema) with (Some SString) by reflexivity.
  replace (assoc "email" userSchema) with (Some SLowerString) by reflexivity.
  replace (assoc "password" userSchema) with (Some SString) by reflexivity.
  rewrite Hcn, Hce. cbn [cast castString setFields].
  unfold mbind, Async_bind, getUsers. rewrite Hfi.
  replace (get _ "email") with e
    by (unfold get; by rewrite lookup_insert_ne, lookup_insert_eq).
  rewrite Hfe. cbn [putUsers sendEmail mret Async_ret users outbox].
  replace (get _ "_id") with (VObjectId (objectId env)); [reflexivity|].
  unfold get. rewrite !lookup_insert_ne by done. reflexivity.
Qed.

(** X11. The mailed link verifies the account it was sent for: a
    registration with a fresh email stores the new user unverified and
    mails a link whose code is the text of the new identifier;
    [verifyEmail] with that text then returns true and sets the verified
    flag of that user and nothing else. The identifier drawn is 24
    hexadecimal digits and not yet in use. *)
Theorem register_then_verify (name name' email e : JsValue) (p : string) (env : Env)
  (w : World) :
  truthy name = true -> truthy email = true -> p <> "" ->
  cast SString name = Some name' ->
  cast SLowerString email = Some e ->
  existsb (has_email e) (users w) = false ->
  existsb (has_id (objectId env)) (users w) = false ->
  is_objectid_text (objectId env) = true ->
  exists d w1 w2,
    registerUser bcrypt_hash verifyEmailTemplate FRONTEND_URL name email (VString p) env w
      = (Return d, w1) /\
    users w1 = (users w ++ [d])%list /\
    get d "verify_email" = VBool false /\
    outbox w1 = (outbox w ++
                 [{| sendTo := email;
                     subject := "Verify email from QuickPick";
                     html := verifyEmailTemplate name
                               (FRONTEND_URL +:+ "/verify-email?code=" +:+ objectId env) |}])%list /\
    verifyEmail (VString (objectId env)) w1 = (Return true, w2) /\
    users w2 = (users w ++ [<["verify_email" := VBool true]> d])%list /\
    outbox w2 = outbox w1.
Proof.
  intros Hn He Hp Hcn Hce Hfe Hfi Hoid.
  pose proof (registerUser_run name name' email e p env w Hn He Hp Hcn Hce Hfe Hfi) as Hrun.
  cbv zeta in Hrun.
  set (d := <["password" := VString (bcrypt_hash p (salt env))]> _) in Hrun.
  assert (Hid : has_id (objectId env) d = true).
  { unfold has_id, d. apply bool_decide_eq_true.
    rewrite !lookup_insert_ne by done. reflexivity. }
  pose proof (castId_text _ Hoid) as Hc.
  pose proof (existsb_false_Forall _ _ Hfi) as Hl1.
  eexists d, _, _. split; [exact Hrun|]. cbn [users outbox].
  split; [reflexivity|]. split.
  { unfold get, d. rewrite !lookup_insert_ne by done. reflexivity. }
  split; [reflexivity|]. split.
  { unfold verifyEmail. rewrite (castId_truthy _ _ Hc). cbn [negb].
    unfold mbind, Async_bind. rewrite (findById_run _ _ _ Hc). cbn [users].
    rewrite (first_match_app _ _ _ _ Hl1 Hid).
    rewrite (updateById_run _ _ _ _ _ Hc verify_email_fields_cast). cbn [users outbox].
    rewrite (update_first_app _ _ _ _ _ Hl1 Hid). reflexivity. }
  split; reflexivity.
Qed.

End RegisterVerify.

(** ** What a profile update reports *)

Lemma update_first_hit (p : gmap string JsValue -> bool) f us :
  (update_first p f us).1 = existsb p us.
Proof.
  induction us as [|x r IH]; cbn [update_first existsb]; [reflexivity|].
  destruct (p x); [reflexivity|]. destruct (update_first p f r). cbn in *. exact IH.
Qed.

Lemma update_first_none (p : gmap string JsValue -> bool) f us :
  existsb p us = false -> (update_first p f us).2 = us.
Proof.
  induction us as [|x r IH]; cbn [update_first existsb]; [reflexivity|].
  intros H. apply orb_false_elim in H as [Hx Hr]. rewrite Hx.
  specialize (IH Hr). destruct (update_first p f r). cbn in *. by rewrite IH.
Qed.

(** X12. A profile update never fails with an error of the service, an
    unknown identifier included: when it returns, it reports whether a
    user with the identifier was stored (1 or 0 matches), and with no
    such user the world is left as it was; when the platform throws
    (an identifier that is not 24 hexadecimal digits, a value that a
    field cannot take, a password that is no string), nothing is
    written. *)
Theorem update_reports_match (bcrypt_hash : string -> string -> string)
  (userId : string) (updates : gmap string JsValue) (env : Env) (w : World) :
  match updateUserDetails bcrypt_hash userId updates env w with
  | (Return r, w') =>
      exists h, castId (VString userId) = inr (Some h) /\
        matchedCount r = (if existsb (has_id h) (users w) then 1 else 0) /\
        (existsb (has_id h) (users w) = false -> w' = w)
  | (Throw (AppErr _), _) => False
  | (Throw _, w') => w' = w
  end.
Proof.
  enough (wp (updateUserDetails bcrypt_hash userId updates env)
            (fun o w' =>
               match o with
               | Return r =>
                   exists h, castId (VString userId) = inr (Some h) /\
                     matchedCount r = (if existsb (has_id h) (users w) then 1 else 0) /\
                     (existsb (has_id h) (users w) = false -> w' = w)
               | Throw (AppErr _) => False
               | Throw _ => w' = w
               end) w) as H.
  { unfold wp in H. by destruct (updateUserDetails bcrypt_hash userId updates env w). }
  unfold updateUserDetails. repeat wp_step; try reflexivity.
  all: try match goal with
           | H : castId (VString _) = inr None |- _ =>
               cbn in H; destruct (is_objectid_text _); discriminate H
           end.
  all: eexists; split; [eassumption|]; cbn [matchedCount]; rewrite update_first_hit;
    split; [reflexivity|]; intros Hno; rewrite update_first_none by exact Hno;
    apply world_eta.
Qed.

(** * The error classes and the error middleware *)

Lemma NumberToString_three (n : Z) :
  100 <= n <= 999 ->
  NumberToString (Num n) =
    String (digit (n / 10 / 10 mod 10))
   (String (digit (n / 10 mod 10))
   (String (digit (n mod 10)) "")).
Proof.
  intros H. unfold NumberToString.
  destruct (Z.ltb_spec n 0); [lia|].
  assert (Hl : 6 <= Z.log2 n) by (apply Z.log2_le_pow2; lia).
  destruct (Z.to_nat (Z.log2 n)) as [|[|f]] eqn:E; try lia.
  cbn [digits_of].
  repeat match goal with
  | |- context [ ?a =? 0 ] =>
      destruct (Z.eqb_spec a 0); [ Z.div_mod_to_equations; lia | ]
  end.
  destruct (Z.eqb_spec (n / 10 / 10 / 10) 0) as [_|Hn];
    [reflexivity | exfalso; apply Hn; Z.div_mod_to_equations; lia].
Qed.

Lemma prefix_four (d : Z) (r : string) :
  0 <= d <= 9 -> String.prefix "4" (String (digit d) r) = (d =? 4).
Proof.
  intros H.
  assert (d = 0 \/ d = 1 \/ d = 2 \/ d = 3 \/ d = 4 \/ d = 5 \/ d = 6 \/ d = 7 \/ d = 8 \/ d = 9)
    as Hd by lia.
  repeat (destruct Hd as [->|Hd]; [by destruct r|]). subst d. by destruct r.
Qed.

(** X13. The status of an [AppError] follows the class of its code: for
    a three-digit code, [createError] gives the status 'fail' exactly
    for the codes 400 to 499, and 'error' for all others; the error is
    operational and keeps message and code. *)
Theorem createError_status (msg : string) (code : Z) :
  100 <= code <= 999 ->
  status (createError msg code) = (if (400 <=? code) && (code <=? 499) then "fail" else "error") /\
  isOperational (createError msg code) = true /\
  message (createError msg code) = msg /\
  statusCode (createError msg code) = code.
Proof.
  intros H. split; [|by repeat split].
  unfold createError. cbn [status]. rewrite (NumberToString_three _ H).
  rewrite prefix_four by (Z.div_mod_to_equations; lia).
  destruct (Z.eqb_spec (code / 10 / 10 mod 10) 4) as [E|E].
  - replace ((400 <=? code) && (code <=? 499))%bool with true; [reflexivity|].
    symmetry. apply andb_true_iff. split; apply Z.leb_le; Z.div_mod_to_equations; lia.
  - replace ((400 <=? code) && (code <=? 499))%bool with false; [reflexivity|].
    symmetry. apply andb_false_iff.
    destruct (Z.leb_spec 400 code); [|by left]. right. apply Z.leb_gt.
    Z.div_mod_to_equations; lia.
Qed.

Import Middleware.

(** X14. Outside development, an error that is not operational is
    answered without a trace of it: the response is 500 with the fixed
    message 'Something went wrong!', the same for any two such errors,
    whatever their message, stack, code and status. *)
Theorem errorHandler_hides_unexpected (NODE_ENV : JsValue) (err err' : Err) :
  strict_eq NODE_ENV (VString "development") = false ->
  truthy (err_isOperational err) = false ->
  truthy (err_isOperational err') = false ->
  (errorHandler NODE_ENV err).2 = (errorHandler NODE_ENV err').2 /\
  res_status (errorHandler NODE_ENV err).2 = VNumber (Num 500) /\
  assoc "message" (res_json (errorHandler NODE_ENV err).2)
    = Some (JVal (VString "Something went wrong!")) /\
  assoc "stack" (res_json (errorHandler NODE_ENV err).2) = None.
Proof.
  intros Hd Ho Ho'. unfold errorHandler. cbv zeta. cbn [err_isOperational].
  rewrite Hd, Ho, Ho'. cbn [snd res_status res_json]. by repeat split.
Qed.

Lemma or_else_truthy (a b : JsValue) : truthy b = true -> truthy (or_else a b) = true.
Proof. intros Hb. unfold or_else. by destruct (truthy a) eqn:E. Qed.

Lemma or_else_idem (a b : JsValue) : or_else (or_else a b) b = or_else a b.
Proof.
  unfold or_else. destruct (truthy a) eqn:E; [by rewrite E|].
  by destruct (truthy b).
Qed.

(** X15. The middleware always answers, in every environment and for
    every error: with a status code that is never undefined, null or 0,
    a status text that is never empty, and [success: false]. Handling
    the error it has normalised changes nothing more: the defaults it
    fills in are stable. *)
Theorem errorHandler_answers (NODE_ENV : JsValue) (err : Err) :
  truthy (res_status (errorHandler NODE_ENV err).2) = true /\
  (exists s, assoc "status" (res_json (errorHandler NODE_ENV err).2) = Some (JVal s) /\
     truthy s = true) /\
  assoc "success" (res_json (errorHandler NODE_ENV err).2) = Some (JVal (VBool false)) /\
  errorHandler NODE_ENV (errorHandler NODE_ENV err).1 = errorHandler NODE_ENV err.
Proof.
  unfold errorHandler. cbv zeta.
  cbn [err_message err_stack err_statusCode err_status err_isOperational].
  destruct (strict_eq NODE_ENV (VString "development"));
    [|destruct (truthy (err_isOperational err)) eqn:Eo];
    cbn [fst snd res_status res_json
         err_message err_stack err_statusCode err_status err_isOperational];
    rewrite ?Eo, ?or_else_idem;
    (split; [first [by apply or_else_truthy | reflexivity]|]);
    (split; [eexists; split; [reflexivity|]; first [by apply or_else_truthy | reflexivity]|]);
    split; reflexivity.
Qed.

(** X16. What the client sees of a failed call, outside development:
    an error of the service is answered with its own code, 400 or 404,
    the status 'fail' and its message; any other error -- a malformed
    identifier, a value that a field cannot take, a password that is no
    string -- is answered 500 'Something went wrong!', with nothing of
    the error in the response. *)
Theorem thrown_error_response (co : Collaborators) (c : Call) (env : Env) (w : World)
  (t : Thrown) (NODE_ENV : JsValue) (text : Thrown -> string) (stack : JsValue) :
  (run co c env w).1 = Some t ->
  strict_eq NODE_ENV (VString "development") = false ->
  (errorHandler NODE_ENV (error_of text stack t)).2 =
    match t with
    | AppErr e =>
        {| res_status := VNumber (Num (match c with CallGetUserById _ => 404 | _ => 400 end));
           res_json := [("status", JVal (VString "fail"));
                        ("message", JVal (VString (message e)));
                        ("error", JVal (VBool true));
                        ("success", JVal (VBool false))] |}
    | _ =>
        {| res_status := VNumber (Num 500);
           res_json := [("status", JVal (VString "error"));
                        ("message", JVal (VString "Something went wrong!"));
                        ("error", JVal (VBool true));
                        ("success", JVal (VBool false))] |}
    end.
Proof.
  intros Hrun Hd. unfold errorHandler. cbv zeta. rewrite Hd.
  destruct t as [e| | | |]; cbn [error_of err_isOperational truthy]; try reflexivity.
  destruct (run_service_error co c env w e Hrun) as (_ & Hop & Hst & Hcode).
  rewrite Hop. cbn [snd err_statusCode err_status err_message].
  rewrite Hst, Hcode. unfold or_else.
  by destruct c.
Qed.

(** * The response formatter *)


(** X18. A limit of 0 is not refused: the page count is then no number
    (NaN for an empty result, an infinity otherwise), and every page of
    a non-empty result reports a next page. *)
Theorem pagination_limit_zero {D : Type} (data : D) (page totalCount : Z)
  (message : string) :
  exists p,
    ResponseFormatter.pagination
      (ResponseFormatter.paginatedResponse data page 0 totalCount message).2 = Some p /\
    (forall n, ResponseFormatter.totalPages p <> ResponseFormatter.CNum n) /\
    ResponseFormatter.hasNextPage p = (0 <? totalCount).
Proof.
  eexists. split; [reflexivity|].
  cbn [ResponseFormatter.totalPages ResponseFormatter.hasNextPage].
  split.
  - intros n. unfold ResponseFormatter.ceil_div. cbn [Z.eqb].
    destruct (totalCount =? 0); discriminate.
  - by rewrite Z.mul_0_r.
Qed.

(** * The helpers of the client *)

Lemma find_app_first {A : Type} (p : A -> bool) (l1 : list A) (x : A) (l2 : list A) :
  Forall (fun y => p y = false) l1 -> p x = true ->
  List.find p (l1 ++ x :: l2) = Some x.
Proof.
  induction 1 as [|y l Hy _ IH]; intros Hx; cbn [app List.find].
  - by rewrite Hx.
  - rewrite Hy. by apply IH.
Qed.

Lemma find_none {A : Type} (p : A -> bool) (l : list A) :
  Forall (fun y => p y = false) l -> List.find p l = None.
Proof.
  induction 1 as [|y l Hy _ IH]; cbn [List.find]; [reflexivity|]. by rewrite Hy.
Qed.

Section RedirectURL.

Variable valideURLConvert : string -> string.

(** X19. The redirect address is built from the first sub-category
    that lists the category, whatever comes after it: its converted
    name and its identifier, each replaced by 'undefined' when empty. *)
Theorem getRedirectURL_first_match (id name : string)
  (l1 l2 : list UrlHelper.SubCategory) (sub : UrlHelper.SubCategory) :
  Forall (fun s => UrlHelper.lists_category id s = false) l1 ->
  UrlHelper.lists_category id sub = true ->
  UrlHelper.getRedirectURL valideURLConvert id name (l1 ++ sub :: l2) =
    "/" +:+ valideURLConvert name +:+ "-" +:+ id +:+ "/"
    +:+ valideURLConvert (UrlHelper.or_undefined (UrlHelper.sub_name sub))
    +:+ "-" +:+ UrlHelper.or_undefined (UrlHelper.sub_id sub).
Proof.
  intros H1 Hs. unfold UrlHelper.getRedirectURL. cbv zeta.
  by rewrite (find_app_first _ _ _ _ H1 Hs).
Qed.

(** X20. When no sub-category lists the category, the address still
    comes out, with 'undefined' for the name and for the identifier of
    the sub-category. *)
Theorem getRedirectURL_no_match (id name : string) (subCategoryData : list UrlHelper.SubCategory) :
  Forall (fun s => UrlHelper.lists_category id s = false) subCategoryData ->
  UrlHelper.getRedirectURL valideURLConvert id name subCategoryData =
    "/" +:+ valideURLConvert name +:+ "-" +:+ id +:+ "/"
    +:+ valideURLConvert "undefined" +:+ "-undefined".
Proof.
  intros H. unfold UrlHelper.getRedirectURL. cbv zeta. by rewrite (find_none _ _ H).
Qed.

End RedirectURL.

Section Upload.

Variable File : Type.
Variable uploadImage : File -> string + ImageUploadHelper.UploadResponse.

(** X21. An upload touches the state in one place only: every field
    other than the one named keeps its value; when the helper throws,
    or when no file was chosen, the state is what it was; and when it
    returns for a chosen file, the named field holds an address that is
    not empty -- the nested one if the response has it, else the one at
    the top. *)
Theorem uploadAndSetImage_frame (file : option File) (field : string)
  (state : gmap string JsValue) :
  let r := ImageUploadHelper.uploadAndSetImage File uploadImage file field state in
  (forall k, k <> field -> r.2 !! k = state !! k) /\
  (r.1 <> None \/ file = None -> r.2 = state) /\
  (forall f response, file = Some f -> uploadImage f = inr response -> r.1 = None ->
     exists v, r.2 !! field = Some v /\ truthy v = true /\
       v = (if truthy (ImageUploadHelper.nested_url response)
            then ImageUploadHelper.nested_url response
            else ImageUploadHelper.top_url response)).
Proof.
  cbv zeta. unfold ImageUploadHelper.uploadAndSetImage.
  destruct file as [f|]; [|cbn; split; [done|]; split; [done|]; intros; discriminate].
  destruct (uploadImage f) as [err|response] eqn:Eu;
    [cbn; split; [done|]; split; [done|]; intros; discriminate|].
  cbv zeta. unfold Middleware.or_else.
  destruct (truthy (ImageUploadHelper.nested_url response)) eqn:E1;
    [rewrite E1|destruct (truthy (ImageUploadHelper.top_url response)) eqn:E2; [rewrite E2|]];
    cbv beta iota; rewrite ?E1, ?E2; cbn [truthy negb fst snd String.eqb].
  - split; [intros k Hk; by rewrite lookup_insert_ne|].
    split; [intros [H|H]; [by destruct H | discriminate]|].
    intros f' response' [= <-] Hr _. rewrite Eu in Hr. injection Hr as <-.
    eexists. split; [apply lookup_insert_eq|]. by rewrite E1.
  - split; [intros k Hk; by rewrite lookup_insert_ne|].
    split; [intros [H|H]; [by destruct H | discriminate]|].
    intros f' response' [= <-] Hr _. rewrite Eu in Hr. injection Hr as <-.
    eexists. split; [apply lookup_insert_eq|]. by rewrite E1, E2.
  - split; [done|]. split; [done|]. intros; discriminate.
Qed.

End Upload.

(** * The further properties at sample inputs *)

Lemma update_first_length (p : gmap string JsValue -> bool) f us :
  List.length (update_first p f us).2 = List.length us.
Proof. symmetry. apply (Forall2_length _ _ _ (update_first_Forall2 p f us)). Qed.

Lemma service_error_fail_fast_witness :
  (run sample_co (CallGetUserById Sample.aliceId) Sample.env0 Sample.empty).2 = Sample.empty /\
  isOperational (createError "User not found" 404) = true /\
  status (createError "User not found" 404) = "fail" /\
  statusCode (createError "User not found" 404) = 404.
Proof.
  apply (service_error_fail_fast sample_co (CallGetUserById Sample.aliceId) Sample.env0
           Sample.empty (createError "User not found" 404)).
  by_eval.
Defined.

Lemma run_keeps_witness :
  List.length (users (run sample_co (CallForgotPassword (VString "alice@x.com")) Sample.env0
                   Sample.world1).2) = 1%nat.
Proof.
  apply (run_keeps sample_co (fun us => List.length us = 1%nat)
           (CallForgotPassword (VString "alice@x.com")) Sample.env0 Sample.world1).
  - intros fs' h us _ Hq. rewrite update_first_length. exact Hq.
  - intros d us HC. inversion HC.
  - reflexivity.
Defined.

Lemma passwords_stay_hashed_witness :
  Forall (password_hashed Sample.hash)
    (users (run sample_co
              (CallResetPassword (VString "alice@x.com") (VString "fresh") (VString "fresh"))
              Sample.env0 Sample.world1).2).
Proof.
  apply (passwords_stay_hashed sample_co
           (CallResetPassword (VString "alice@x.com") (VString "fresh") (VString "fresh"))
           Sample.env0 Sample.world1).
  constructor; [|constructor].
  right. exists "secret123", "pepper". reflexivity.
Defined.

Lemma login_success_witness :
  exists res w' u',
    loginUser Sample.compare Sample.token Sample.token
      (VString "alice@x.com") (VString "secret123") Sample.env0 Sample.world1
      = (Return res, w') /\
    accessToken res = Sample.token (get Sample.alice "_id") Sample.env0 /\
    refreshToken res = Sample.token (get Sample.alice "_id") Sample.env0 /\
    user res = {| lu_id := get Sample.alice "_id"; lu_name := get Sample.alice "name";
                  lu_email := get Sample.alice "email"; lu_role := get Sample.alice "role" |} /\
    first_match (has_email (VString "alice@x.com")) (users w') = Some u' /\
    get u' "last_login_date" = VDate (now Sample.env0) /\
    agree_outside ["refresh_token"; "last_login_date"] Sample.alice u' /\
    outbox w' = outbox Sample.world1.
Proof.
  apply (login_success Sample.compare Sample.token Sample.token
           (VString "alice@x.com") (VString "alice@x.com") "secret123"
           "$2a$10$peppersecret123" Sample.env0 Sample.world1 Sample.alice);
    by_eval.
Defined.

Lemma login_inactive_refused_witness :
  loginUser Sample.compare Sample.token Sample.token
    (VString "alice@x.com") (VString "secret123") Sample.env0 suspended_world
    = (Throw (AppErr (createError "Account is not active. Please contact admin" 400)),
       suspended_world).
Proof.
  apply (login_inactive_refused Sample.compare Sample.token Sample.token
           (VString "alice@x.com") (VString "alice@x.com") (VString "secret123")
           Sample.env0 suspended_world (<["status" := VString "Suspended"]> Sample.alice));
    by_eval.
Defined.

Lemma reset_then_login_witness :
  exists w1 u1 res w2,
    resetPassword Sample.hash (VString "alice@x.com") (VString "fresh") (VString "fresh")
      Sample.env0 Sample.world1 = (Return true, w1) /\
    first_match (has_email (VString "alice@x.com")) (users w1) = Some u1 /\
    get u1 "password" = VString (Sample.hash "fresh" (salt Sample.env0)) /\
    agree_outside ["password"] Sample.alice u1 /\
    outbox w1 = outbox Sample.world1 /\
    loginUser Sample.compare Sample.token Sample.token
      (VString "alice@x.com") (VString "fresh") Sample.env2h w1 = (Return res, w2) /\
    lu_id (user res) = get Sample.alice "_id".
Proof.
  apply (reset_then_login Sample.hash Sample.compare Sample.token Sample.token
           (VString "alice@x.com") (VString "alice@x.com") "fresh"
           Sample.env0 Sample.env2h Sample.world1 Sample.alice);
    by_eval.
Defined.

Lemma verify_accepts_only_stored_code_witness :
  true = true /\
  exists e u,
    cast SLowerString (VString "alice@x.com") = Some e /\
    first_match (has_email e) (users Sample.world1) = Some u /\
    strict_eq (VString "400000") (get u "forgot_password_otp") = true /\
    truthy (get u "forgot_password_otp") = true.
Proof.
  apply (verify_accepts_only_stored_code (VString "alice@x.com") (VString "400000")
           Sample.env0 Sample.world1
           (verifyForgotPasswordOtp (VString "alice@x.com") (VString "400000")
              Sample.env0 Sample.world1).2 true).
  reflexivity.
Defined.

Lemma newer_code_replaces_older_witness :
  exists n1 w1 w2,
    generatedOtp Sample.env0 = VNumber (Num n1) /\
    forgotPassword Sample.otpTemplate (VString "alice@x.com") Sample.env0 Sample.world1
      = (Return true, w1) /\
    forgotPassword Sample.otpTemplate (VString "alice@x.com") Sample.env2h w1
      = (Return true, w2) /\
    verifyForgotPasswordOtp (VString "alice@x.com") (VString (NumberToString (Num n1)))
      Sample.env2h w2 = (Throw (AppErr (createError "Invalid OTP" 400)), w2).
Proof.
  apply (newer_code_replaces_older Sample.otpTemplate (VString "alice@x.com")
           (VString "alice@x.com") Sample.env0 Sample.env2h Sample.env2h Sample.world1
           Sample.alice);
    by_eval.
Defined.

Lemma register_then_verify_witness :
  exists d w1 w2,
    registerUser Sample.hash Sample.verifyTemplate Sample.frontend
      (VString "Alice") (VString "alice@x.com") (VString "secret123") Sample.env0 Sample.empty
      = (Return d, w1) /\
    users w1 = (users Sample.empty ++ [d])%list /\
    get d "verify_email" = VBool false /\
    outbox w1 = (outbox Sample.empty ++
                 [{| sendTo := VString "alice@x.com";
                     subject := "Verify email from QuickPick";
                     html := Sample.verifyTemplate (VString "Alice")
                               (Sample.frontend +:+ "/verify-email?code="
                                +:+ objectId Sample.env0) |}])%list /\
    verifyEmail (VString (objectId Sample.env0)) w1 = (Return true, w2) /\
    users w2 = (users Sample.empty ++ [<["verify_email" := VBool true]> d])%list /\
    outbox w2 = outbox w1.
Proof.
  apply (register_then_verify Sample.hash Sample.verifyTemplate Sample.frontend
           (VString "Alice") (VString "Alice") (VString "alice@x.com") (VString "alice@x.com")
           "secret123" Sample.env0 Sample.empty);
    by_eval.
Defined.

Lemma createError_status_witness :
  status (createError "User not found" 404)
    = (if (400 <=? 404) && (404 <=? 499) then "fail" else "error") /\
  isOperational (createError "User not found" 404) = true /\
  message (createError "User not found" 404) = "User not found" /\
  statusCode (createError "User not found" 404) = 404.
Proof. apply (createError_status "User not found" 404). lia. Defined.

Lemma errorHandler_hides_unexpected_witness :
  (Middleware.errorHandler (VString "production")
     (Middleware.error_of (fun _ => "Cast to ObjectId failed") (VString "at verifyEmail")
        (CastError "_id"))).2
  = (Middleware.errorHandler (VString "production")
       (Middleware.error_of (fun _ => "Illegal arguments: number, string") VUndefined
          IllegalArguments)).2 /\
  Middleware.res_status
    (Middleware.errorHandler (VString "production")
       (Middleware.error_of (fun _ => "Cast to ObjectId failed") (VString "at verifyEmail")
          (CastError "_id"))).2 = VNumber (Num 500) /\
  assoc "message"
    (Middleware.res_json
       (Middleware.errorHandler (VString "production")
          (Middleware.error_of (fun _ => "Cast to ObjectId failed") (VString "at verifyEmail")
             (CastError "_id"))).2)
    = Some (Middleware.JVal (VString "Something went wrong!")) /\
  assoc "stack"
    (Middleware.res_json
       (Middleware.errorHandler (VString "production")
          (Middleware.error_of (fun _ => "Cast to ObjectId failed") (VString "at verifyEmail")
             (CastError "_id"))).2) = None.
Proof.
  apply (errorHandler_hides_unexpected (VString "production")); reflexivity.
Defined.

Lemma thrown_error_response_witness :
  (Middleware.errorHandler (VString "production")
     (Middleware.error_of (fun _ => "Cast to ObjectId failed") VUndefined (CastError "_id"))).2
  = {| Middleware.res_status := VNumber (Num 500);
       Middleware.res_json :=
         [("status", Middleware.JVal (VString "error"));
          ("message", Middleware.JVal (VString "Something went wrong!"));
          ("error", Middleware.JVal (VBool true));
          ("success", Middleware.JVal (VBool false))] |}.
Proof.
  apply (thrown_error_response sample_co (CallVerifyEmail (VString "not-an-id"))
           Sample.env0 Sample.world1 (CastError "_id") (VString "production")
           (fun _ => "Cast to ObjectId failed") VUndefined);
    by_eval.
Defined.


Lemma getRedirectURL_first_match_witness :
  UrlHelper.getRedirectURL to_lower "123" "Fruits" ([] ++ citrus :: [])
    = "/fruits-123/citrus-sub1".
Proof.
  apply (getRedirectURL_first_match to_lower "123" "Fruits" [] [] citrus);
    [constructor | reflexivity].
Defined.

Lemma getRedirectURL_no_match_witness :
  UrlHelper.getRedirectURL to_lower "999" "Vegetables" [citrus]
    = "/vegetables-999/undefined-undefined".
Proof.
  apply (getRedirectURL_no_match to_lower "999" "Vegetables" [citrus]).
  constructor; [reflexivity | constructor].
Defined.
